(** * The plumbing-assistant action-group Lambda, embedded in Rocq

    A shallow embedding of [src/lambda/python/index.py]: the single
    [handler] entry point, its nine operation handlers, and the response
    envelope it builds, over a model of the three DynamoDB tables.

    - JSON data (the event, parameters, table items, response bodies) is a
      [value]; Python dicts are association lists in insertion order.
    - The three tables are finite maps from primary key to item.
    - Code that can raise runs in an error monad ([outcome]); code that
      talks to the store or the clock runs in a state-and-error monad ([M])
      over the [world].
    - [print] calls are not modelled: they have no effect on the result. *)

From Stdlib Require Import ZArith Lia Ascii String.
From stdpp Require Import gmap strings list fin_maps sorting pretty option.

Set Warnings "-register-all".
Open Scope Z_scope.

(** ** Python values *)

(** JSON numbers are taken to be integers. *)
Inductive value :=
| VNone
| VBool (b : bool)
| VNum (n : Z)
| VStr (s : string)
| VList (l : list value)
| VDict (d : list (string * value)).

Abbreviation dict := (list (string * value)).

Inductive exn :=
| AttributeError
| KeyError
| TypeError
| ValueError
| ClientError.

Inductive outcome (A : Type) :=
| Ok (a : A)
| Raise (e : exn).
Arguments Ok {A} a.
Arguments Raise {A} e.

Global Instance outcome_ret : MRet outcome := @Ok.
Global Instance outcome_bind : MBind outcome := λ A B f m,
  match m with
  | Ok a => f a
  | Raise e => Raise e
  end.

(** ** Dictionaries *)

(** [k in d], [d.get(k)] *)
Fixpoint dget (k : string) (d : dict) : option value :=
  match d with
  | [] => None
  | (k', v) :: d' => if decide (k = k') then Some v else dget k d'
  end.

(** [d[k] = v]: an existing key keeps its position, a new key goes last. *)
Fixpoint dset (k : string) (v : value) (d : dict) : dict :=
  match d with
  | [] => [(k, v)]
  | (k', v') :: d' =>
      if decide (k = k') then (k, v) :: d' else (k', v') :: dset k v d'
  end.

(** [d.update(e)], and the [**e] of a dict display. *)
Definition dupdate (e d : dict) : dict :=
  fold_left (λ acc kv, dset kv.1 kv.2 acc) e d.

(** [d.get(k, dflt)] and [d.get(k)] *)
Definition get_or (k : string) (dflt : value) (d : dict) : value :=
  default dflt (dget k d).
Definition get (k : string) (d : dict) : value := get_or k VNone d.

(** A Python dict has no repeated key. *)
Definition dict_ok (d : dict) : Prop := NoDup d.*1.

(** ** Operations of the language on values *)

(** Truth value of an object, as [if] and [and] test it. *)
Definition truthy (v : value) : bool :=
  match v with
  | VNone => false
  | VBool b => b
  | VNum n => negb (n =? 0)
  | VStr s => negb (bool_decide (s = ""))
  | VList l => negb (bool_decide (l = []))
  | VDict d => match d with [] => false | _ => true end
  end.

(** [a == b]. [True == 1]; dicts compare without regard to order. *)
Fixpoint py_eq (a b : value) {struct a} : bool :=
  match a, b with
  | VNone, VNone => true
  | VBool x, VBool y => bool_decide (x = y)
  | VBool x, VNum n => n =? Z.b2z x
  | VNum n, VBool x => n =? Z.b2z x
  | VNum m, VNum n => m =? n
  | VStr s, VStr t => bool_decide (s = t)
  | VList l, VList l' =>
      (fix go (l l' : list value) : bool :=
         match l, l' with
         | [], [] => true
         | x :: l, y :: l' => py_eq x y && go l l'
         | _, _ => false
         end) l l'
  | VDict d, VDict d' =>
      bool_decide (length d = length d') &&
      (fix go (d : dict) : bool :=
         match d with
         | [] => true
         | (k, v) :: d =>
             match dget k d' with
             | Some v' => py_eq v v'
             | None => false
             end && go d
         end) d
  | _, _ => false
  end.

(** [x in l] for a list [l] *)
Definition py_in (x : value) (l : list value) : bool := existsb (py_eq x) l.

(** [recv.get(k, dflt)]: only a dict has [.get]. *)
Definition py_get (recv : value) (k : string) (dflt : value) : outcome value :=
  match recv with
  | VDict d => Ok (get_or k dflt d)
  | _ => Raise AttributeError
  end.

(** [recv[k]] with a string subscript. *)
Definition py_index (recv : value) (k : string) : outcome value :=
  match recv with
  | VDict d =>
      match dget k d with
      | Some v => Ok v
      | None => Raise KeyError
      end
  | _ => Raise TypeError
  end.

(** [recv.update(e)] *)
Definition py_update (recv : value) (e : dict) : outcome value :=
  match recv with
  | VDict d => Ok (VDict (dupdate e d))
  | _ => Raise AttributeError
  end.

(** What [for x in v] iterates over. *)
Definition py_iter (v : value) : outcome (list value) :=
  match v with
  | VList l => Ok l
  | VDict d => Ok (VStr <$> d.*1)
  | VStr s => Ok ((λ c, VStr (String c "")) <$> String.list_ascii_of_string s)
  | _ => Raise TypeError
  end.

(** ** Strings *)

(** [s.replace("Z", "+00:00")] *)
Fixpoint replace_Z (s : string) : string :=
  match s with
  | EmptyString => EmptyString
  | String c s' =>
      if decide (c = "Z"%char) then "+00:00" +:+ replace_Z s'
      else String c (replace_Z s')
  end.

(** [s.lower()] for ASCII text, where it changes the letters A to Z and
    nothing else. The case mapping of the letters outside ASCII is not
    modelled: their bytes are kept, and every statement about the result of
    [lower] takes ASCII text. *)
Definition lower_ascii (c : ascii) : ascii :=
  let n := N_of_ascii c in
  if ((65 <=? n) && (n <=? 90))%N then ascii_of_N (n + 32) else c.

Fixpoint lower (s : string) : string :=
  match s with
  | EmptyString => EmptyString
  | String c s' => String (lower_ascii c) (lower s')
  end.

(** [s[-n:]] *)
Definition last_chars (n : nat) (s : string) : string :=
  String.string_of_list_ascii
    (drop (length (String.list_ascii_of_string s) - n)%nat (String.list_ascii_of_string s)).

(** [str(n)] for an integer *)
Definition str_of_int (n : Z) : string := pretty n.

(** [n] in decimal, zero-padded on the left to [width] digits, as the
    [%02d] of the date and time formats prints it; a number that does not
    fit is printed in full. *)
Definition digit_char (d : Z) : ascii := ascii_of_N (48 + Z.to_N d).

Fixpoint pad_digits (width : nat) (n : Z) (tail : string) : string :=
  match width with
  | O => tail
  | S width' => pad_digits width' (n / 10) (String (digit_char (n mod 10)) tail)
  end.

Definition zero_pad (width : nat) (n : Z) : string :=
  if (0 <=? n) && (n <? 10 ^ Z.of_nat width) then pad_digits width n ""
  else pretty n.

Fixpoint join (sep : string) (l : list string) : string :=
  match l with
  | [] => ""
  | [x] => x
  | x :: l' => x +:+ sep +:+ join sep l'
  end.

(** [repr(s)] for a string: quoted, with the escapes of the ASCII range;
    bytes above it are kept, as for printable characters. *)
Definition hex_digit (n : N) : ascii :=
  if (n <? 10)%N then ascii_of_N (48 + n) else ascii_of_N (87 + n).

Definition repr_char (quote : ascii) (c : ascii) : string :=
  let n := N_of_ascii c in
  if decide (c = "\"%char) then "\\"
  else if decide (c = quote) then String "\" (String quote "")
  else if (n =? 9)%N then "\t"
  else if (n =? 10)%N then "\n"
  else if (n =? 13)%N then "\r"
  else if ((n <? 32) || (n =? 127))%N then
    String "\" (String "x" (String (hex_digit (n / 16)) (String (hex_digit (n mod 16)) "")))
  else String c "".

Fixpoint has_char (c : ascii) (s : string) : bool :=
  match s with
  | EmptyString => false
  | String c' s' => bool_decide (c = c') || has_char c s'
  end.

Definition dquote : ascii := ascii_of_N 34.

Definition repr_str (s : string) : string :=
  let quote : ascii :=
    if has_char "'" s && negb (has_char dquote s) then dquote else "'"%char in
  String quote
    (fold_right (λ c acc, repr_char quote c +:+ acc) (String quote "")
       (String.list_ascii_of_string s)).

(** [repr(v)] *)
Fixpoint py_repr (v : value) : string :=
  match v with
  | VNone => "None"
  | VBool true => "True"
  | VBool false => "False"
  | VNum n => str_of_int n
  | VStr s => repr_str s
  | VList l => "[" +:+ join ", " (map py_repr l) +:+ "]"
  | VDict d =>
      "{" +:+ join ", " (map (λ kv, repr_str kv.1 +:+ ": " +:+ py_repr kv.2) d) +:+ "}"
  end.

(** [str(v)], as an f-string formats [{v}]. *)
Definition py_str (v : value) : string :=
  match v with
  | VStr s => s
  | _ => py_repr v
  end.

(** ** [datetime]

    The part of Python's [datetime] the handlers use. A value is the
    wall-clock fields plus an optional UTC offset; [fromisoformat] reads the
    format [isoformat] writes,
    [YYYY-MM-DD[*HH[:MM[:SS[.fff[fff]]]][+HH:MM[:SS[.ffffff]]]]], the one
    every Python 3.7+ accepts, and with the same result. Python 3.11 and
    later read more (a fraction of any length, the basic format, [+HHMM]):
    a text outside the format above is not settled by this model, so the
    statements take a slot that is read here, or one that no version reads
    ([unreadable_slot]). *)
Module Datetime.

Record datetime := mk_datetime {
  year : Z;
  month : Z;
  day : Z;
  hour : Z;
  minute : Z;
  second : Z;
  microsecond : Z;
  tzinfo : option Z   (* UTC offset in microseconds; [None] when naive *)
}.

Definition is_leap (y : Z) : bool :=
  (y mod 4 =? 0) && (negb (y mod 100 =? 0) || (y mod 400 =? 0)).

Definition days_in_month (y m : Z) : Z :=
  if m =? 2 then (if is_leap y then 29 else 28)
  else if (m =? 4) || (m =? 6) || (m =? 9) || (m =? 11) then 30
  else 31.

Definition between (lo x hi : Z) : bool := (lo <=? x) && (x <=? hi).

Definition day_us : Z := 24 * 3600 * 1000000.

(** The range checks of the [datetime] and [timezone] constructors. *)
Definition valid (d : datetime) : bool :=
  between 1 (year d) 9999 && between 1 (month d) 12 &&
  between 1 (day d) (days_in_month (year d) (month d)) &&
  between 0 (hour d) 23 && between 0 (minute d) 59 &&
  between 0 (second d) 59 && between 0 (microsecond d) 999999 &&
  match tzinfo d with
  | None => true
  | Some off => (- day_us <? off) && (off <? day_us)
  end.

Definition digit_of (c : ascii) : option Z :=
  let n := Z.of_N (N_of_ascii c) in
  if between 48 n 57 then Some (n - 48) else None.

(** Exactly [n] decimal digits, then the rest of the string. *)
Fixpoint parse_digits (n : nat) (acc : Z) (s : string) : option (Z * string) :=
  match n with
  | O => Some (acc, s)
  | S n' =>
      match s with
      | String c s' => d ← digit_of c; parse_digits n' (acc * 10 + d) s'
      | EmptyString => None
      end
  end.

Definition expect (c : ascii) (s : string) : option string :=
  match s with
  | String c' s' => if decide (c = c') then Some s' else None
  | EmptyString => None
  end.

(** [HH[:MM[:SS[.ffffff]]]] to the end of the string; [.fff] too when
    [millis] is set. *)
Definition parse_hh_mm_ss_ff (millis : bool) (s : string) : option (Z * Z * Z * Z) :=
  '(h, s) ← parse_digits 2 0 s;
  match s with
  | EmptyString => Some (h, 0, 0, 0)
  | String c s =>
      if decide (c = ":"%char) then
        '(m, s) ← parse_digits 2 0 s;
        match s with
        | EmptyString => Some (h, m, 0, 0)
        | String c s =>
            if decide (c = ":"%char) then
              '(sec, s) ← parse_digits 2 0 s;
              match s with
              | EmptyString => Some (h, m, sec, 0)
              | String c s =>
                  if decide (c = "."%char) then
                    if decide (String.length s = 6%nat) then
                      '(us, _) ← parse_digits 6 0 s; Some (h, m, sec, us)
                    else if millis && bool_decide (String.length s = 3%nat) then
                      '(ms, _) ← parse_digits 3 0 s; Some (h, m, sec, ms * 1000)
                    else None
                  else None
              end
            else None
        end
      else None
  end.

(** Splits the time text at the first sign: the clock part, and the sign
    and text of the offset when there is one. *)
Fixpoint split_offset (s : string) : string * option (bool * string) :=
  match s with
  | EmptyString => (EmptyString, None)
  | String c s' =>
      if decide (c = "+"%char) then (EmptyString, Some (false, s'))
      else if decide (c = "-"%char) then (EmptyString, Some (true, s'))
      else let '(t, o) := split_offset s' in (String c t, o)
  end.

Definition parse_offset (o : option (bool * string)) : option (option Z) :=
  match o with
  | None => Some None
  | Some (neg, s) =>
      if bool_decide (String.length s ∈ [5%nat; 8%nat; 15%nat]) then
        '(h, m, sec, us) ← parse_hh_mm_ss_ff false s;
        let off := (h * 3600 + m * 60 + sec) * 1000000 + us in
        Some (Some (if neg : bool then - off else off))
      else None
  end.

(** [datetime.fromisoformat(s)]; [None] stands for its [ValueError]. *)
Definition fromisoformat (s : string) : option datetime :=
  '(y, s) ← parse_digits 4 0 s;
  s ← expect "-" s;
  '(m, s) ← parse_digits 2 0 s;
  s ← expect "-" s;
  '(d, s) ← parse_digits 2 0 s;
  dt ← match s with
       | EmptyString => Some (mk_datetime y m d 0 0 0 0 None)
       | String _ t =>
           let '(clock, o) := split_offset t in
           '(h, mi, sec, us) ← parse_hh_mm_ss_ff true clock;
           tz ← parse_offset o;
           Some (mk_datetime y m d h mi sec us tz)
       end;
  if valid dt then Some dt else None.

Definition with_hour (dt : datetime) (h : Z) : datetime :=
  mk_datetime (year dt) (month dt) (day dt) h (minute dt) (second dt)
    (microsecond dt) (tzinfo dt).

(** [dt.replace(hour=h)] *)
Definition replace_hour (dt : datetime) (h : Z) : option datetime :=
  if between 0 h 23 then Some (with_hour dt h) else None.

Definition format_date (dt : datetime) : string :=
  zero_pad 4 (year dt) +:+ "-" +:+ zero_pad 2 (month dt) +:+ "-" +:+
  zero_pad 2 (day dt).

Definition format_clock (h m s us : Z) : string :=
  zero_pad 2 h +:+ ":" +:+ zero_pad 2 m +:+ ":" +:+ zero_pad 2 s +:+
  (if us =? 0 then "" else "." +:+ zero_pad 6 us).

(** The offset as [isoformat] prints it: [+HH:MM], with seconds and
    microseconds only when they are not zero. *)
Definition format_offset (off : Z) : string :=
  let a := Z.abs off in
  let us := a mod 1000000 in
  let secs := a / 1000000 in
  let h := secs / 3600 in
  let m := (secs mod 3600) / 60 in
  let s := secs mod 60 in
  (if off <? 0 then "-" else "+") +:+ zero_pad 2 h +:+ ":" +:+ zero_pad 2 m +:+
  (if (s =? 0) && (us =? 0) then ""
   else ":" +:+ zero_pad 2 s +:+ (if us =? 0 then "" else "." +:+ zero_pad 6 us)).

(** [dt.isoformat(sep)] *)
Definition isoformat_sep (sep : string) (dt : datetime) : string :=
  format_date dt +:+ sep +:+
  format_clock (hour dt) (minute dt) (second dt) (microsecond dt) +:+
  match tzinfo dt with
  | None => ""
  | Some off => format_offset off
  end.

(** [dt.isoformat()] and [str(dt)] *)
Definition isoformat (dt : datetime) : string := isoformat_sep "T" dt.
Definition to_str (dt : datetime) : string := isoformat_sep " " dt.

(** [dt.weekday()]: Monday is 0. The day count is the proleptic ordinal. *)
Definition days_before_year (y : Z) : Z :=
  let y' := y - 1 in y' * 365 + y' / 4 - y' / 100 + y' / 400.

Definition days_before_month (y m : Z) : Z :=
  fold_right Z.add 0 (map (days_in_month y) (map Z.of_nat (seq 1 (Z.to_nat (m - 1))))).

Definition toordinal (dt : datetime) : Z :=
  days_before_year (year dt) + days_before_month (year dt) (month dt) + day dt.

Definition weekday (dt : datetime) : Z := (toordinal dt + 6) mod 7.

Definition day_name (wd : Z) : string :=
  nth (Z.to_nat wd)
    ["Monday"; "Tuesday"; "Wednesday"; "Thursday"; "Friday"; "Saturday"; "Sunday"] "".

Definition month_name (m : Z) : string :=
  nth (Z.to_nat (m - 1))
    ["January"; "February"; "March"; "April"; "May"; "June"; "July"; "August";
     "September"; "October"; "November"; "December"] "".

(** One [%x] directive of [strftime], in the C locale. *)
Definition directive (dt : datetime) (c : ascii) : string :=
  if decide (c = "Y"%char) then zero_pad 4 (year dt)
  else if decide (c = "m"%char) then zero_pad 2 (month dt)
  else if decide (c = "d"%char) then zero_pad 2 (day dt)
  else if decide (c = "H"%char) then zero_pad 2 (hour dt)
  else if decide (c = "M"%char) then zero_pad 2 (minute dt)
  else if decide (c = "S"%char) then zero_pad 2 (second dt)
  else if decide (c = "I"%char) then
    zero_pad 2 (if hour dt mod 12 =? 0 then 12 else hour dt mod 12)
  else if decide (c = "p"%char) then (if hour dt <? 12 then "AM" else "PM")
  else if decide (c = "A"%char) then day_name (weekday dt)
  else if decide (c = "B"%char) then month_name (month dt)
  else if decide (c = "Z"%char) then
    match tzinfo dt with
    | None => ""
    | Some off => if off =? 0 then "UTC" else "UTC" +:+ format_offset off
    end
  else String "%" (String c "").

(** [dt.strftime(fmt)] for the directives the handlers use. *)
Fixpoint strftime (dt : datetime) (fmt : string) : string :=
  match fmt with
  | EmptyString => EmptyString
  | String c rest =>
      if decide (c = "%"%char) then
        match rest with
        | String x rest' => directive dt x +:+ strftime dt rest'
        | EmptyString => "%"
        end
      else String c (strftime dt rest)
  end.

End Datetime.

(** ** The world: three tables, a clock, and the store's faults *)

Inductive table :=
| Customers
| Tradespersons
| Bookings.

(** [outages] scripts the store calls to come: each call takes the head,
    and a [true] makes that call raise [ClientError] without effect. An
    empty script is a store that answers every call. [now] and
    [now_timestamp] are what [datetime.now()] and
    [int(datetime.now().timestamp())] read during the request. *)
Record world := World {
  customers_table : gmap string dict;
  tradesperson_table : gmap string dict;
  bookings_table : gmap string dict;
  now : Datetime.datetime;
  now_timestamp : Z;
  outages : list bool
}.

Definition rows (t : table) (w : world) : gmap string dict :=
  match t with
  | Customers => customers_table w
  | Tradespersons => tradesperson_table w
  | Bookings => bookings_table w
  end.

Definition set_rows (t : table) (m : gmap string dict) (w : world) : world :=
  match t with
  | Customers =>
      World m (tradesperson_table w) (bookings_table w) (now w) (now_timestamp w) (outages w)
  | Tradespersons =>
      World (customers_table w) m (bookings_table w) (now w) (now_timestamp w) (outages w)
  | Bookings =>
      World (customers_table w) (tradesperson_table w) m (now w) (now_timestamp w) (outages w)
  end.

Definition set_outages (o : list bool) (w : world) : world :=
  World (customers_table w) (tradesperson_table w) (bookings_table w)
        (now w) (now_timestamp w) o.

(** The state-and-error monad of the handlers. A raise keeps the store as
    it was left: writes made before it are not undone. *)
Definition M (A : Type) : Type := world → outcome A * world.

Global Instance M_ret : MRet M := λ A a w, (Ok a, w).
Global Instance M_bind : MBind M := λ A B f m w,
  match m w with
  | (Ok a, w') => f a w'
  | (Raise e, w') => (Raise e, w')
  end.

Definition lift {A} (o : outcome A) : M A := λ w, (o, w).
Definition reads {A} (f : world → A) : M A := λ w, (Ok (f w), w).
Definition modify (f : world → world) : M () := λ w, (Ok (), f w).

(** ** The record store

    The three DynamoDB tables behind [boto3]: key-based get, put, update and
    delete, and queries on the secondary indexes. A request that breaks the
    key schema is rejected with [ClientError]. *)

(** Modelled from the spec: the tables' declarations are not part of the
    source. Section 3 gives each record kind its identity attribute; key
    attributes are strings. *)
Definition primary_key (t : table) : string :=
  match t with
  | Customers => "customerId"
  | Tradespersons => "tradesPersonId"
  | Bookings => "bookingId"
  end.

(** Modelled from the spec: the key attributes of the secondary indexes
    (section 3: tradespeople by (trade, city), bookings by tradesperson id
    and slot range, bookings by customer id), as the queries name them. *)
Definition index_keys (t : table) : list string :=
  match t with
  | Customers => []
  | Tradespersons => ["trade"; "city"]
  | Bookings => ["tradesPersonId"; "slot"; "customerId"]
  end.

Definition tick (w : world) : world := set_outages (tail (outages w)) w.

Definition store_call : M () := λ w,
  match outages w with
  | true :: _ => (Raise ClientError, tick w)
  | _ => (Ok (), tick w)
  end.

(** The next [n] store calls are answered. *)
Definition calm (n : nat) (w : world) : bool := forallb negb (take n (outages w)).

Definition key_string (v : value) : outcome string :=
  match v with
  | VStr s => Ok s
  | _ => Raise ClientError
  end.

(** The key of a [Key={pk: v}] argument. *)
Definition key_of (t : table) (key : dict) : outcome string :=
  match key with
  | [(k, v)] => if decide (k = primary_key t) then key_string v else Raise ClientError
  | _ => Raise ClientError
  end.

(** An item may be written when its primary key is there, a string and not
    the empty one, and every key attribute it carries is a string: the
    store refuses an item whose primary key is the empty string. *)
Definition check_item (t : table) (item : dict) : outcome string :=
  k ← key_string (get (primary_key t) item);
  if decide (k = "") then Raise ClientError else
  if forallb (λ a, match dget a item with
                   | None => true
                   | Some v => match key_string v with Ok _ => true | Raise _ => false end
                   end) (index_keys t)
  then Ok k else Raise ClientError.

(** [table.get_item(Key=key)]: the item under ["Item"], when there is one. *)
Definition get_item (t : table) (key : dict) : M (option dict) :=
  store_call;;
  k ← lift (key_of t key);
  reads (λ w, rows t w !! k).

(** [table.put_item(Item=item)] *)
Definition put_item (t : table) (item : dict) : M () :=
  store_call;;
  k ← lift (check_item t item);
  modify (λ w, set_rows t (<[k := item]> (rows t w)) w).

(** [table.delete_item(Key=key)] *)
Definition delete_item (t : table) (key : dict) : M () :=
  store_call;;
  k ← lift (key_of t key);
  modify (λ w, set_rows t (delete k (rows t w)) w).

(** [table.update_item(Key=key, UpdateExpression="set <attr> = :v", ...)]:
    sets one attribute, creating the item when the key is new. *)
Definition update_item_set (t : table) (key : dict) (attr : string) (v : value) : M () :=
  store_call;;
  k ← lift (key_of t key);
  (if bool_decide (attr ∈ index_keys t) then _ ← lift (key_string v); mret ()
   else mret ());;
  modify (λ w,
    let item := default [(primary_key t, VStr k)] (rows t w !! k) in
    set_rows t (<[k := dset attr v item]> (rows t w)) w).

Definition scan (t : table) (w : world) : list dict := (map_to_list (rows t w)).*2.

Definition attr_is (attr s : string) (item : dict) : bool :=
  match dget attr item with
  | Some (VStr s') => bool_decide (s = s')
  | _ => false
  end.

Definition attr_between (attr lo hi : string) (item : dict) : bool :=
  match dget attr item with
  | Some (VStr s) => String.leb lo s && String.leb s hi
  | _ => false
  end.

Definition slot_text (item : dict) : string :=
  match dget "slot" item with
  | Some (VStr s) => s
  | _ => ""
  end.

Definition slot_le (a b : dict) : Prop := String.leb (slot_text a) (slot_text b).

(** [query(IndexName="TradeIndex", Key("trade").eq(trade) & Key("city").eq(city))] *)
Definition query_TradeIndex (trade city : value) : M (list dict) :=
  store_call;;
  tr ← lift (key_string trade);
  ci ← lift (key_string city);
  reads (λ w, filter (λ item, attr_is "trade" tr item && attr_is "city" ci item)
                (scan Tradespersons w)).

(** [query(IndexName="TradesPersonIdIndex",
          Key("tradesPersonId").eq(id) & Key("slot").between(lo, hi))]:
    both bounds included, strings compared byte by byte, the items in the
    order of the sort key. The store rejects [lo > hi]. *)
Definition query_TradesPersonIdIndex (id lo hi : value) : M (list dict) :=
  store_call;;
  i ← lift (key_string id);
  l ← lift (key_string lo);
  h ← lift (key_string hi);
  (if String.leb l h then mret () else lift (Raise ClientError));;
  reads (λ w, merge_sort slot_le
                (filter (λ item, attr_is "tradesPersonId" i item && attr_between "slot" l h item)
                   (scan Bookings w))).

(** [query(IndexName="CustomerIdIndex", Key("customerId").eq(id))]: the
    index has no order of its own; the items come in the table's. *)
Definition query_CustomerIdIndex (id : value) : M (list dict) :=
  store_call;;
  i ← lift (key_string id);
  reads (λ w, filter (λ item, attr_is "customerId" i item) (scan Bookings w)).

(** ** The operation handlers *)

Definition py_lower (v : value) : outcome string :=
  match v with
  | VStr s => Ok (lower s)
  | _ => Raise AttributeError
  end.

(** [v.replace("Z", "+00:00")] *)
Definition py_replace_Z (v : value) : outcome string :=
  match v with
  | VStr s => Ok (replace_Z s)
  | _ => Raise AttributeError
  end.

Definition py_fromisoformat (s : string) : outcome Datetime.datetime :=
  match Datetime.fromisoformat s with
  | Some dt => Ok dt
  | None => Raise ValueError
  end.

Definition py_replace_hour (dt : Datetime.datetime) (h : Z) : outcome Datetime.datetime :=
  match Datetime.replace_hour dt h with
  | Some dt' => Ok dt'
  | None => Raise ValueError
  end.

(** [datetime.fromisoformat(v.replace("Z", "+00:00"))] *)
Definition parse_slot (v : value) : outcome Datetime.datetime :=
  s ← py_replace_Z v; py_fromisoformat s.

(** [range(a, b)] *)
Definition range (a b : Z) : list Z :=
  (λ k, a + Z.of_nat k) <$> seq 0 (Z.to_nat (b - a)).

Definition result (status : Z) (body : dict) : value :=
  VDict [("statusCode", VNum status); ("body", VDict body)].

Definition search_trades_persons (params : dict) : M value :=
  let trade := get "trade" params in
  let city := get "city" params in
  trade_l ← lift (py_lower trade);
  city_l ← lift (py_lower city);
  items ← query_TradeIndex (VStr trade_l) (VStr city_l);
  let trades_persons :=
    (λ item, VDict [("tradesPersonId", get "tradesPersonId" item);
                    ("name", get "name" item);
                    ("trade", get "trade" item);
                    ("hourlyRate", get "hourlyRate" item);
                    ("city", get "city" item);
                    ("contactNumber", get "contactNumber" item)]) <$> items in
  mret (result 200 [("tradesPersons", VList trades_persons);
                    ("count", VNum (Z.of_nat (length trades_persons)))]).

(** The loop over [range(start_hour, end_hour)]: each round parses the
    start slot again, replaces its hour, and appends the text when it is
    not among the booked slots. *)
Fixpoint available_loop (start_slot : value) (booked_slots : list value)
    (hours : list Z) (available_time_slots : list value) : outcome (list value) :=
  match hours with
  | [] => Ok available_time_slots
  | i :: hours' =>
      temp_date ← parse_slot start_slot;
      temp_date ← py_replace_hour temp_date i;
      let slot := VStr (Datetime.isoformat temp_date) in
      available_loop start_slot booked_slots hours'
        (if py_in slot booked_slots then available_time_slots
         else available_time_slots ++ [slot])
  end.

Definition check_availability (params : dict) : M value :=
  let tradesperson_id := get "tradesPersonId" params in
  let start_slot := get "startSlot" params in
  let end_slot := get "endSlot" params in
  start_dt ← lift (parse_slot start_slot);
  let start_hour := Datetime.hour start_dt in
  end_dt ← lift (parse_slot end_slot);
  let end_hour := Datetime.hour end_dt in
  items ← query_TradesPersonIdIndex tradesperson_id start_slot end_slot;
  let booked_slots := get "slot" <$> items in
  available_time_slots ←
    lift (available_loop start_slot booked_slots (range start_hour end_hour) []);
  mret (result 200 [("availableTimeSlots", VList available_time_slots)]).

Definition create_booking (customer_id : value) (params : dict) : M value :=
  let tradesperson_id := get "tradesPersonId" params in
  let slot := get "slot" params in
  let description := get "description" params in
  timestamp ← reads now_timestamp;
  let booking_id := "b" +:+ last_chars 5 (str_of_int timestamp) in
  slot_dt ← lift (parse_slot slot);
  let booking := [("bookingId", VStr booking_id);
                  ("tradesPersonId", tradesperson_id);
                  ("customerId", customer_id);
                  ("slot", VStr (Datetime.isoformat slot_dt));
                  ("description", description)] in
  put_item Bookings booking;;
  tradesperson_response ← get_item Tradespersons [("tradesPersonId", tradesperson_id)];
  let tradesperson_details := default [] tradesperson_response in
  mret (result 200 [("message", VStr "Booking created successfully");
                    ("bookingId", VStr booking_id);
                    ("tradesPersonName", get_or "name" (VStr "Unknown") tradesperson_details);
                    ("slot", slot);
                    ("description", description)]).

Definition register_customer (customer_id : value) (params : dict) : M value :=
  let name := get "name" params in
  let city := get "city" params in
  put_item Customers [("customerId", customer_id); ("name", name); ("city", city)];;
  mret (result 200 [("message", VStr "Customer registered successfully");
                    ("name", name);
                    ("city", city)]).

Definition get_customer_details (customer_id : value) : M value :=
  response ← get_item Customers [("customerId", customer_id)];
  match response with
  | None => mret (result 404 [("error", VStr "Customer not found")])
  | Some item => mret (result 200 [("customer", VDict item)])
  end.

Definition get_latest_booking (customer_id : value) : M value :=
  items ← query_CustomerIdIndex customer_id;
  match items with
  | [] => mret (result 404 [("error", VStr "No bookings found for this customer")])
  | item :: _ =>
      tradesperson_response ←
        get_item Tradespersons [("tradesPersonId", get "tradesPersonId" item)];
      let tradesperson_details := default [] tradesperson_response in
      slot_dt ← lift (parse_slot (get "slot" item));
      let booking_date := Datetime.strftime slot_dt "%Y-%m-%d %H:%M:%S" in
      let enhanced_booking :=
        [("bookingId", get "bookingId" item);
         ("tradesPersonName", get_or "name" (VStr "Unknown") tradesperson_details);
         ("tradesPersonTrade", get_or "trade" (VStr "Unknown") tradesperson_details);
         ("bookingDateTime", VStr booking_date);
         ("description", get "description" item)] in
      mret (result 200 [("booking", VDict enhanced_booking)])
  end.

Definition cancel_booking (params : dict) : M value :=
  let booking_id := get "bookingId" params in
  booking_response ← get_item Bookings [("bookingId", booking_id)];
  match booking_response with
  | None => mret (result 404 [("error", VStr "Booking not found")])
  | Some booking =>
      tradesperson_response ←
        get_item Tradespersons [("tradesPersonId", get "tradesPersonId" booking)];
      let tradesperson_details := default [] tradesperson_response in
      delete_item Bookings [("bookingId", booking_id)];;
      mret (result 200
              (dset "status" (VStr "CANCELLED")
                 (dupdate tradesperson_details
                    (dupdate booking
                       [("message", VStr "Booking cancelled successfully")]))))
  end.

Definition update_booking (customer_id : value) (params : dict) : M value :=
  let booking_id := get "bookingId" params in
  let slot := get "slot" params in
  booking_response ← get_item Bookings [("bookingId", booking_id)];
  match booking_response with
  | None => mret (result 404 [("error", VStr "Booking not found")])
  | Some booking =>
      if negb (py_eq (get "customerId" booking) customer_id) then
        mret (result 403 [("error", VStr "Not authorized to update this booking")])
      else
        slot_dt ← lift (parse_slot slot);
        let new_slot := VStr (Datetime.isoformat slot_dt) in
        update_item_set Bookings [("bookingId", booking_id)] "slot" new_slot;;
        tradesperson_response ←
          get_item Tradespersons [("tradesPersonId", get "tradesPersonId" booking)];
        let tradesperson_details := default [] tradesperson_response in
        mret (result 200 [("message", VStr "Booking updated successfully");
                          ("bookingId", booking_id);
                          ("tradesPersonName", get_or "name" (VStr "Unknown") tradesperson_details);
                          ("oldSlot", get "slot" booking);
                          ("newSlot", new_slot);
                          ("description", get "description" booking)])
  end.

Definition get_current_date_time : M value :=
  now ← reads now;
  timestamp ← reads now_timestamp;
  let formatted_date := Datetime.strftime now "%A, %B %d, %Y, %I:%M:%S %p %Z" in
  mret (result 200 [("currentDateTime", VStr (Datetime.to_str now));
                    ("currentDateTimeISO", VStr (Datetime.isoformat now));
                    ("currentTimestamp", VNum timestamp);
                    ("formattedDate", VStr formatted_date)]).

(** ** The entry point *)

(** The test and the assignment of
    [if event.get("requestBody") and event["requestBody"].get("content", {})
        .get("application/json", {}).get("properties"): post_parameters = ...],
    with [post_parameters = []] otherwise. *)
Definition post_parameters_of (event : dict) : outcome value :=
  test ← (if truthy (get "requestBody" event) then
            request_body ← py_index (VDict event) "requestBody";
            content ← py_get request_body "content" (VDict []);
            json ← py_get content "application/json" (VDict []);
            py_get json "properties" VNone
          else Ok (get "requestBody" event));
  if truthy test then
    request_body ← py_index (VDict event) "requestBody";
    content ← py_index request_body "content";
    json ← py_index content "application/json";
    py_index json "properties"
  else Ok (VList []).

(** [{prop["name"]: prop["value"] for prop in post_parameters}]. A list or
    a dict cannot be a key. A key that is not a string is left out: the
    handlers only ever look parameters up by string literals. *)
Fixpoint build_post_params (props : list value) (post_params : dict) : outcome dict :=
  match props with
  | [] => Ok post_params
  | prop :: props' =>
      name ← py_index prop "name";
      val ← py_index prop "value";
      match name with
      | VStr k => build_post_params props' (dset k val post_params)
      | VList _ | VDict _ => Raise TypeError
      | _ => build_post_params props' post_params
      end
  end.

Definition status_of (response_body : value) : outcome value :=
  py_get response_body "statusCode" (VNum 200).

(** The [if]/[elif] chain on [api_path]: the handler's result, the status
    code, and the additional prompt session attributes. *)
Definition dispatch (api_path customer_id : value) (post_params : dict)
  : M (value * value * dict) :=
  if py_eq api_path (VStr "/get-current-datetime") then
    response_body ← get_current_date_time;
    http_status_code ← lift (status_of response_body);
    mret (response_body, http_status_code, [])
  else if py_eq api_path (VStr "/get-customer-details") then
    response_body ← get_customer_details customer_id;
    http_status_code ← lift (status_of response_body);
    found ← lift (if py_eq http_status_code (VNum 200) then
                    body ← py_index response_body "body";
                    customer ← py_index body "customer";
                    mret (truthy customer)
                  else mret false);
    if found : bool then
      body ← lift (py_index response_body "body");
      customer ← lift (py_index body "customer");
      name ← lift (py_index customer "name");
      let additional := dset "customerName" name [] in
      body ← lift (py_index response_body "body");
      customer ← lift (py_index body "customer");
      city ← lift (py_index customer "city");
      let additional := dset "customerCity" city additional in
      mret (response_body, http_status_code, additional)
    else mret (response_body, http_status_code, [])
  else if py_eq api_path (VStr "/register-customer") then
    response_body ← register_customer customer_id post_params;
    body ← lift (py_index response_body "body");
    name ← lift (py_index body "name");
    let additional := dset "customerName" name [] in
    body ← lift (py_index response_body "body");
    city ← lift (py_index body "city");
    let additional := dset "customerCity" city additional in
    http_status_code ← lift (status_of response_body);
    mret (response_body, http_status_code, additional)
  else if py_eq api_path (VStr "/search-trades-persons") then
    response_body ← search_trades_persons post_params;
    http_status_code ← lift (status_of response_body);
    mret (response_body, http_status_code, [])
  else if py_eq api_path (VStr "/check-availability") then
    response_body ← check_availability post_params;
    http_status_code ← lift (status_of response_body);
    mret (response_body, http_status_code, [])
  else if py_eq api_path (VStr "/create-booking") then
    response_body ← create_booking customer_id post_params;
    http_status_code ← lift (status_of response_body);
    mret (response_body, http_status_code, [])
  else if py_eq api_path (VStr "/get-latest-booking") then
    response_body ← get_latest_booking customer_id;
    http_status_code ← lift (status_of response_body);
    mret (response_body, http_status_code, [])
  else if py_eq api_path (VStr "/cancel-booking") then
    response_body ← cancel_booking post_params;
    http_status_code ← lift (status_of response_body);
    mret (response_body, http_status_code, [])
  else if py_eq api_path (VStr "/update-booking") then
    response_body ← update_booking customer_id post_params;
    http_status_code ← lift (status_of response_body);
    mret (response_body, http_status_code, [])
  else
    mret (VDict [("error", VStr ("Unsupported operation: " +:+ py_str api_path))],
          VNum 400, []).

Definition action_response (event : dict) (http_status_code body : value) : value :=
  VDict [("actionGroup", get "actionGroup" event);
         ("apiPath", get "apiPath" event);
         ("httpMethod", get "httpMethod" event);
         ("httpStatusCode", http_status_code);
         ("responseBody", VDict [("application/json", VDict [("body", body)])])].

Definition api_response (response session_attributes prompt_session_attributes : value)
  : value :=
  VDict [("messageVersion", VStr "1.0");
         ("response", response);
         ("sessionAttributes", session_attributes);
         ("promptSessionAttributes", prompt_session_attributes)].

(** [event.get("sessionAttributes", {}).get("phone-number", "00000")] *)
Definition customer_id_of (event : dict) : outcome value :=
  py_get (get_or "sessionAttributes" (VDict []) event) "phone-number" (VStr "00000").

(** The parameters of the request body, flattened to a dict. *)
Definition post_params_of (event : dict) : outcome dict :=
  post_parameters ← post_parameters_of event;
  props ← py_iter post_parameters;
  build_post_params props [].

(** The suite of the [try]. *)
Definition handler_try (event : dict) : M value :=
  let api_path := get "apiPath" event in
  customer_id ← lift (customer_id_of event);
  post_params ← lift (post_params_of event);
  '(response_body, http_status_code, additional_prompt_session_attributes) ←
    dispatch api_path customer_id post_params;
  body ← lift (py_get response_body "body" response_body);
  let session_attributes := get_or "sessionAttributes" (VDict []) event in
  let prompt_session_attributes := get_or "promptSessionAttributes" (VDict []) event in
  prompt_session_attributes ←
    lift (py_update prompt_session_attributes [("customerId", customer_id)]);
  prompt_session_attributes ←
    lift (py_update prompt_session_attributes [("customerPhoneNumber", customer_id)]);
  prompt_session_attributes ←
    lift (py_update prompt_session_attributes additional_prompt_session_attributes);
  mret (api_response (action_response event http_status_code body)
          session_attributes prompt_session_attributes).

(** The suite of the [except Exception]. *)
Definition handler_except (event : dict) : value :=
  api_response
    (action_response event (VNum 500) (VDict [("error", VStr "Internal server error")]))
    (get_or "sessionAttributes" (VDict []) event)
    (get_or "promptSessionAttributes" (VDict []) event).

(** [handler(event, context)]; [context] is not used. The event is the
    JSON object the runtime passes in. *)
Definition handler (event : dict) (w : world) : value * world :=
  match handler_try event w with
  | (Ok api_response, w') => (api_response, w')
  | (Raise _, w') => (handler_except event, w')
  end.

(** * The vocabulary of the statements *)

(** [returns m P]: whenever [m] returns normally, its result satisfies [P]. *)
Definition returns {A} (m : M A) (P : A → Prop) : Prop :=
  ∀ w a w', m w = (Ok a, w') → P a.

(** The record [register_customer] writes. *)
Definition customer_record (cid : string) (params : dict) : dict :=
  [("customerId", VStr cid); ("name", get "name" params); ("city", get "city" params)].

(** The body of a successful cancellation:
    [{"message": ..., **booking, **tradesperson_details, "status": "CANCELLED"}]. *)
Definition cancelled_body (booking tradesperson_details : dict) : dict :=
  dset "status" (VStr "CANCELLED")
    (dupdate tradesperson_details
       (dupdate booking [("message", VStr "Booking cancelled successfully")])).

(** The nine operations. *)
Definition known_paths : list string :=
  ["/get-current-datetime"; "/get-customer-details"; "/register-customer";
   "/search-trades-persons"; "/check-availability"; "/create-booking";
   "/get-latest-booking"; "/cancel-booking"; "/update-booking"].

(** The operation handler the dispatch calls for a path, with the arguments
    it passes on. *)
Definition operation (path : string) (customer_id : value) (post_params : dict)
  : option (M value) :=
  if decide (path = "/get-current-datetime") then Some get_current_date_time
  else if decide (path = "/get-customer-details") then
    Some (get_customer_details customer_id)
  else if decide (path = "/register-customer") then
    Some (register_customer customer_id post_params)
  else if decide (path = "/search-trades-persons") then
    Some (search_trades_persons post_params)
  else if decide (path = "/check-availability") then
    Some (check_availability post_params)
  else if decide (path = "/create-booking") then
    Some (create_booking customer_id post_params)
  else if decide (path = "/get-latest-booking") then
    Some (get_latest_booking customer_id)
  else if decide (path = "/cancel-booking") then Some (cancel_booking post_params)
  else if decide (path = "/update-booking") then
    Some (update_booking customer_id post_params)
  else None.

(** The prompt session attributes of a normal return: the request's, with
    the identity under two names and then the additions of the operation. *)
Definition prompt_attributes (customer_id : value) (additional prior : dict) : dict :=
  dupdate additional
    (dupdate [("customerPhoneNumber", customer_id)]
       (dupdate [("customerId", customer_id)] prior)).

(** [event] is a request for [path] by the identity [cid] with the
    parameters [params] and the prompt session attributes [prior]. *)
Definition request_for (path cid : string) (params prior : dict) (event : dict) : Prop :=
  get "apiPath" event = VStr path ∧
  customer_id_of event = Ok (VStr cid) ∧
  post_params_of event = Ok params ∧
  get_or "promptSessionAttributes" (VDict []) event = VDict prior.

(** What every operation handler returns: a status and a body. *)
Definition is_result (v : value) : Prop := ∃ status body, v = result status body.

(** What the dispatch hands to the envelope: an integer status, and a
    response body whose ["body"], or else itself, is a dict. *)
Definition dispatched (r : value * value * dict) : Prop :=
  ∃ status body, r.1.2 = VNum status ∧ py_get r.1.1 "body" r.1.1 = Ok (VDict body).

(** Every character of [s] satisfies [P]. *)
Fixpoint string_forall (P : ascii → bool) (s : string) : bool :=
  match s with
  | EmptyString => true
  | String c s' => P c && string_forall P s'
  end.

Definition is_digit (c : ascii) : bool :=
  match Datetime.digit_of c with Some _ => true | None => false end.

Definition not_sign (c : ascii) : bool :=
  negb (bool_decide (c = "+"%char)) && negb (bool_decide (c = "-"%char)).

Definition not_Z (c : ascii) : bool := negb (bool_decide (c = "Z"%char)).

(** The start slot with its hour replaced by [i], as ISO-8601 text. *)
Definition hour_slot (start_dt : Datetime.datetime) (i : Z) : string :=
  Datetime.isoformat (Datetime.with_hour start_dt i).


(** The id [create_booking] gives a booking made at the world's time. *)
Definition new_booking_id (w : world) : string :=
  "b" +:+ last_chars 5 (str_of_int (now_timestamp w)).

(** The record [create_booking] writes. *)
Definition booking_record (w : world) (customer_id : value) (params : dict)
    (slot_dt : Datetime.datetime) : dict :=
  [("bookingId", VStr (new_booking_id w));
   ("tradesPersonId", get "tradesPersonId" params);
   ("customerId", customer_id);
   ("slot", VStr (Datetime.isoformat slot_dt));
   ("description", get "description" params)].

(** ** Concrete requests and stores *)

Definition demo_clock : Datetime.datetime := Datetime.mk_datetime 2024 1 10 8 30 0 0 None.

Definition bob : dict :=
  [("tradesPersonId", VStr "tp1"); ("name", VStr "Bob"); ("trade", VStr "plumber");
   ("hourlyRate", VNum 80); ("city", VStr "austin"); ("contactNumber", VStr "555-0100")].

(** One entry of the request body's property list. *)
Definition property (name val : string) : value :=
  VDict [("name", VStr name); ("type", VStr "string"); ("value", VStr val)].

(** An event as the agent runtime sends it. *)
Definition request (path phone : string) (properties : list value) : dict :=
  [("messageVersion", VStr "1.0");
   ("actionGroup", VStr "plumbing-assistant");
   ("apiPath", VStr path);
   ("httpMethod", VStr "POST");
   ("sessionAttributes", VDict [("phone-number", VStr phone)]);
   ("promptSessionAttributes", VDict []);
   ("requestBody",
    VDict [("content",
            VDict [("application/json", VDict [("properties", VList properties)])])])].

Definition booking_at (id customer slot : string) : dict :=
  [("bookingId", VStr id); ("tradesPersonId", VStr "tp1"); ("customerId", VStr customer);
   ("slot", VStr slot); ("description", VStr "earlier job")].

(** Bob is on record; there is no customer and no booking. *)
Definition fresh_store : world :=
  World ∅ {[ "tp1" := bob ]} ∅ demo_clock 1704875400 [].

(** Bob has two bookings on 15 January 2024, at 09:00 and at 11:00. *)
Definition two_bookings : world :=
  World ∅ {[ "tp1" := bob ]}
    (<["b00009" := booking_at "b00009" "555" "2024-01-15T09:00:00"]>
       (<["b00011" := booking_at "b00011" "777" "2024-01-15T11:00:00"]> ∅))
    demo_clock 1704875400 [].

(** The same two bookings, as [create_booking] stores slots given with a
    [Z] suffix. *)
Definition two_bookings_utc : world :=
  World ∅ {[ "tp1" := bob ]}
    (<["b00009" := booking_at "b00009" "555" "2024-01-15T09:00:00+00:00"]>
       (<["b00011" := booking_at "b00011" "777" "2024-01-15T11:00:00+00:00"]> ∅))
    demo_clock 1704875400 [].

(** The customer 555 booked one second before the clock of the world. *)
Definition earlier_booking : world :=
  World ∅ {[ "tp1" := bob ]}
    {[ "b75399" := booking_at "b75399" "555" "2024-01-15T09:00:00" ]}
    demo_clock 1704875400 [].

(** The store fails the next call. *)
Definition failing_store : world :=
  World ∅ {[ "tp1" := bob ]} ∅ demo_clock 1704875400 [true].

Definition morning : dict :=
  [("tradesPersonId", VStr "tp1");
   ("startSlot", VStr "2024-01-15T09:00:00");
   ("endSlot", VStr "2024-01-15T12:00:00")].

Definition morning_utc : dict :=
  [("tradesPersonId", VStr "tp1");
   ("startSlot", VStr "2024-01-15T09:00:00Z");
   ("endSlot", VStr "2024-01-15T12:00:00Z")].

Definition leak_booking : dict :=
  [("tradesPersonId", VStr "tp1");
   ("slot", VStr "2024-01-20T14:00:00Z");
   ("description", VStr "leaking tap")].

(** ** Footprints and statuses *)

(** [keeps t m]: however [m] ends, normally or by a raise, the table [t] is
    as it was. *)
Definition keeps {A} (t : table) (m : M A) : Prop :=
  ∀ w r w', m w = (r, w') → rows t w' = rows t w.

(** The operations that write to the bookings table. *)
Definition booking_writers : list string :=
  ["/create-booking"; "/cancel-booking"; "/update-booking"].

(** The statuses an operation's own code can answer. *)
Definition declared_statuses (api_path : value) : list Z :=
  if py_eq api_path (VStr "/get-current-datetime") then [200]
  else if py_eq api_path (VStr "/get-customer-details") then [200; 404]
  else if py_eq api_path (VStr "/register-customer") then [200]
  else if py_eq api_path (VStr "/search-trades-persons") then [200]
  else if py_eq api_path (VStr "/check-availability") then [200]
  else if py_eq api_path (VStr "/create-booking") then [200]
  else if py_eq api_path (VStr "/get-latest-booking") then [200; 404]
  else if py_eq api_path (VStr "/cancel-booking") then [200; 404]
  else if py_eq api_path (VStr "/update-booking") then [200; 403; 404]
  else [400].

(** A handler result whose status is one of [codes]. *)
Definition has_status (codes : list Z) (v : value) : Prop :=
  ∃ status body, v = result status body ∧ status ∈ codes.

(** The additions an operation makes to the prompt session attributes:
    none, or the customer's name and city. *)
Definition additional_ok (additional : dict) : Prop :=
  additional = [] ∨
  ∃ name city, additional = [("customerName", name); ("customerCity", city)].

(** What the dispatch hands on, with the status among the declared ones. *)
Definition dispatched_for (api_path : value) (r : value * value * dict) : Prop :=
  ∃ status body,
    r.1.2 = VNum status ∧
    py_get r.1.1 "body" r.1.1 = Ok (VDict body) ∧
    status ∈ declared_statuses api_path ∧
    additional_ok r.2.

(** ** More stores and requests *)

(** The two bookings of [two_bookings]; the store answers twice and fails
    the third call. *)
Definition third_call_fails : world :=
  World ∅ {[ "tp1" := bob ]}
    (<["b00009" := booking_at "b00009" "555" "2024-01-15T09:00:00"]>
       (<["b00011" := booking_at "b00011" "777" "2024-01-15T11:00:00"]> ∅))
    demo_clock 1704875400 [false; false; true].

(** The store answers once and fails the second call. *)
Definition second_call_fails : world :=
  World ∅ {[ "tp1" := bob ]} ∅ demo_clock 1704875400 [false; true].

Definition leak_request : dict :=
  request "/create-booking" "555"
    [property "tradesPersonId" "tp1"; property "slot" "2024-01-20T14:00:00Z";
     property "description" "leaking tap"].

(** The six attributes [search_trades_persons] lists of a tradesperson. *)
Definition trades_person_view (item : dict) : value :=
  VDict [("tradesPersonId", get "tradesPersonId" item);
         ("name", get "name" item);
         ("trade", get "trade" item);
         ("hourlyRate", get "hourlyRate" item);
         ("city", get "city" item);
         ("contactNumber", get "contactNumber" item)].

(** ** The parameters of a request *)

(** [props] is the property list of the event's request body:
    [event["requestBody"]["content"]["application/json"]["properties"]]. *)
Definition body_properties (event : dict) (props : list value) : Prop :=
  ∃ request_body content json,
    dget "requestBody" event = Some (VDict request_body) ∧
    dget "content" request_body = Some (VDict content) ∧
    dget "application/json" content = Some (VDict json) ∧
    dget "properties" json = Some (VList props).

(** [prop] is an object with the name [nv.1], a string, and the value [nv.2]. *)
Definition is_property (prop : value) (nv : string * value) : Prop :=
  ∃ p, prop = VDict p ∧ dget "name" p = Some (VStr nv.1) ∧ dget "value" p = Some nv.2.

(** [prop] cannot be read as a property: it is no object, or it has no
    name, or no value. *)
Definition malformed (prop : value) : Prop :=
  match prop with
  | VDict p => dget "name" p = None ∨ dget "value" p = None
  | _ => True
  end.

(** The world after the customer 555 booked at the clock of [fresh_store],
    100000 seconds later. *)
Definition same_digits_later : world :=
  World ∅ {[ "tp1" := bob ]}
    {[ "b75400" := [("bookingId", VStr "b75400"); ("tradesPersonId", VStr "tp1");
                    ("customerId", VStr "555"); ("slot", VStr "2024-01-20T14:00:00+00:00");
                    ("description", VStr "leaking tap")] ]}
    demo_clock 1704975400 [].

Definition blocked_drain : dict :=
  [("tradesPersonId", VStr "tp1");
   ("slot", VStr "2024-01-22T09:00:00Z");
   ("description", VStr "blocked drain")].

(** ** Availability against the table *)

(** The table has a booking of the tradesperson [tid] whose slot is the
    text [s], and [s] lies between [lo] and [hi] in the order of strings. *)
Definition booked_at (w : world) (tid lo hi s : string) : Prop :=
  ∃ id b,
    bookings_table w !! id = Some b ∧
    dget "tradesPersonId" b = Some (VStr tid) ∧
    dget "slot" b = Some (VStr s) ∧
    String.leb lo s = true ∧ String.leb s hi = true.

Definition afternoon : dict :=
  [("tradesPersonId", VStr "tp1");
   ("startSlot", VStr "2024-01-20T13:00:00+00:00");
   ("endSlot", VStr "2024-01-20T16:00:00+00:00")].

(** ** Text the statements are about *)

Definition is_ascii (c : ascii) : bool := (N_of_ascii c <? 128)%N.

(** Every byte of [s] is an ASCII character. *)
Definition ascii_text (s : string) : bool := string_forall is_ascii s.

(** [s] begins with the four decimal digits of a year, as every version of
    [fromisoformat] asks of its argument. *)
Definition starts_with_year (s : string) : bool :=
  match s with
  | String a (String b (String c (String d _))) =>
      is_digit a && is_digit b && is_digit c && is_digit d
  | _ => false
  end.

(** A slot no version of Python reads: it is no string, so that it has no
    [replace], or its text after the replacement of [Z] does not begin with
    a year. *)
Definition unreadable_slot (slot : value) : bool :=
  match slot with
  | VStr s => negb (starts_with_year (replace_Z s))
  | _ => true
  end.

(** ** Operations and the store *)

(** The operations that call the store. *)
Definition store_paths : list string :=
  ["/get-customer-details"; "/register-customer"; "/search-trades-persons";
   "/check-availability"; "/create-booking"; "/get-latest-booking";
   "/cancel-booking"; "/update-booking"].

(** [m] raises when the store fails the next call, and has written nothing
    by then. *)
Definition fails_first {A} (m : M A) : Prop :=
  ∀ w o, outages w = true :: o →
    ∃ e w', m w = (Raise e, w') ∧ ∀ t, rows t w' = rows t w.

(** The customer 555 is on record with a city and no name. *)
Definition nameless_customer : world :=
  World {[ "555" := [("customerId", VStr "555"); ("city", VStr "Austin")] ]}
    {[ "tp1" := bob ]} ∅ demo_clock 1704875400 [].

Definition tomorrow_request : dict :=
  request "/create-booking" "555"
    [property "tradesPersonId" "tp1"; property "slot" "tomorrow at ten";
     property "description" "leaking tap"].

(** * Verification *)

(** ** Dates, by example *)

Example fromisoformat_utc :
  Datetime.isoformat <$> Datetime.fromisoformat (replace_Z "2024-01-15T09:00:00Z")
  = Some "2024-01-15T09:00:00+00:00".
Proof. vm_compute. reflexivity. Qed.

Example fromisoformat_naive_millis :
  Datetime.isoformat <$> Datetime.fromisoformat "2024-02-29 23:59:07.250"
  = Some "2024-02-29T23:59:07.250000".
Proof. vm_compute. reflexivity. Qed.

Example fromisoformat_offset :
  Datetime.isoformat <$> Datetime.fromisoformat "2024-01-15T09:30-05:30"
  = Some "2024-01-15T09:30:00-05:30".
Proof. vm_compute. reflexivity. Qed.

Example fromisoformat_rejects :
  Datetime.fromisoformat "2023-02-29T10:00:00" = None ∧
  Datetime.fromisoformat "tomorrow at nine" = None.
Proof. vm_compute. done. Qed.

Example strftime_long :
  (λ dt, Datetime.strftime dt "%A, %B %d, %Y, %I:%M:%S %p %Z")
    <$> Datetime.fromisoformat "2024-01-15T13:05:09"
  = Some "Monday, January 15, 2024, 01:05:09 PM ".
Proof. vm_compute. reflexivity. Qed.

(** ** Running monadic code *)

Lemma bind_run {A B} (m : M A) (f : A → M B) (w : world) :
  (m ≫= f) w =
  match m w with
  | (Ok a, w') => f a w'
  | (Raise e, w') => (Raise e, w')
  end.
Proof. reflexivity. Qed.

Lemma bind_Ok {A B} (m : M A) (f : A → M B) w a w' :
  m w = (Ok a, w') → (m ≫= f) w = f a w'.
Proof. intros H. rewrite bind_run, H. reflexivity. Qed.

Lemma bind_Raise {A B} (m : M A) (f : A → M B) w e w' :
  m w = (Raise e, w') → (m ≫= f) w = (Raise e, w').
Proof. intros H. rewrite bind_run, H. reflexivity. Qed.

Lemma bind_Ok_inv {A B} (m : M A) (f : A → M B) w b w' :
  (m ≫= f) w = (Ok b, w') → ∃ a w1, m w = (Ok a, w1) ∧ f a w1 = (Ok b, w').
Proof.
  rewrite bind_run. destruct (m w) as [[a|e] w1]; [eauto | discriminate].
Qed.

Lemma lift_run {A} (o : outcome A) w : lift o w = (o, w).
Proof. reflexivity. Qed.

Lemma bind_lift_Ok {A B} (a : A) (f : A → M B) w : (lift (Ok a) ≫= f) w = f a w.
Proof. reflexivity. Qed.

Lemma bind_lift_Raise {A B} (e : exn) (f : A → M B) w :
  (lift (Raise e) ≫= f) w = (Raise e, w).
Proof. reflexivity. Qed.

Ltac mrun :=
  repeat (first [rewrite bind_lift_Ok | rewrite bind_lift_Raise]; cbv beta iota).

Lemma returns_ret {A} (a : A) (P : A → Prop) : P a → returns (mret a) P.
Proof. intros HP w a' w' [= <- _]. exact HP. Qed.

Lemma returns_bind {A B} (m : M A) (f : A → M B) (P : B → Prop) :
  (∀ a, returns (f a) P) → returns (m ≫= f) P.
Proof.
  intros Hf w b w' H. apply bind_Ok_inv in H as (a & w1 & _ & H). by eapply Hf.
Qed.

Lemma returns_bind_with {A B} (m : M A) (f : A → M B) (Q : A → Prop) (P : B → Prop) :
  returns m Q → (∀ a, Q a → returns (f a) P) → returns (m ≫= f) P.
Proof.
  intros Hm Hf w b w' H. apply bind_Ok_inv in H as (a & w1 & Ha & H).
  eapply Hf; [by eapply Hm | done].
Qed.

(** ** The store *)

Lemma rows_tick t w : rows t (tick w) = rows t w.
Proof. by destruct t. Qed.

Lemma rows_set_rows t m w : rows t (set_rows t m w) = m.
Proof. by destruct t. Qed.

Lemma rows_set_rows_ne t t' m w : t ≠ t' → rows t' (set_rows t m w) = rows t' w.
Proof. by destruct t, t'. Qed.

Lemma outages_set_rows t m w : outages (set_rows t m w) = outages w.
Proof. by destruct t. Qed.

Lemma calm_set_rows n t m w : calm n (set_rows t m w) = calm n w.
Proof. unfold calm. by rewrite outages_set_rows. Qed.

Lemma calm_S n w : calm (S n) w = true → hd false (outages w) = false ∧ calm n (tick w) = true.
Proof.
  unfold calm, tick. destruct (outages w) as [|[] o]; simpl; try done.
  by destruct n.
Qed.

Lemma calm_le n m w : (m ≤ n)%nat → calm n w = true → calm m w = true.
Proof.
  unfold calm. revert n m. induction (outages w) as [|b o IH]; intros n m Hle.
  - by rewrite !take_nil.
  - destruct m as [|m]; [done|]. destruct n as [|n]; [lia|]. simpl.
    destruct b; simpl; [done|]. apply IH. lia.
Qed.

Lemma store_call_calm n w : calm (S n) w = true → store_call w = (Ok (), tick w).
Proof.
  intros [H _]%calm_S. unfold store_call. by destruct (outages w) as [|[] ?].
Qed.

Lemma store_call_outage o w : outages w = true :: o → store_call w = (Raise ClientError, tick w).
Proof. unfold store_call. by intros ->. Qed.

Lemma get_item_calm n t key k w :
  calm (S n) w = true → key_of t key = Ok k →
  get_item t key w = (Ok (rows t w !! k), tick w).
Proof.
  intros Hc Hk. unfold get_item.
  rewrite (bind_Ok _ _ _ _ _ (store_call_calm _ _ Hc)), bind_run, lift_run, Hk.
  unfold reads. by rewrite rows_tick.
Qed.

Lemma put_item_calm n t item k w :
  calm (S n) w = true → check_item t item = Ok k →
  put_item t item w = (Ok (), set_rows t (<[k := item]> (rows t w)) (tick w)).
Proof.
  intros Hc Hk. unfold put_item.
  rewrite (bind_Ok _ _ _ _ _ (store_call_calm _ _ Hc)), bind_run, lift_run, Hk.
  unfold modify. by rewrite rows_tick.
Qed.

Lemma delete_item_calm n t key k w :
  calm (S n) w = true → key_of t key = Ok k →
  delete_item t key w = (Ok (), set_rows t (delete k (rows t w)) (tick w)).
Proof.
  intros Hc Hk. unfold delete_item.
  rewrite (bind_Ok _ _ _ _ _ (store_call_calm _ _ Hc)), bind_run, lift_run, Hk.
  unfold modify. by rewrite rows_tick.
Qed.

Lemma key_of_string t s : key_of t [(primary_key t, VStr s)] = Ok s.
Proof. unfold key_of, key_string. by rewrite decide_True. Qed.

Lemma check_item_customer cid name city :
  cid ≠ "" →
  check_item Customers [("customerId", VStr cid); ("name", name); ("city", city)] = Ok cid.
Proof.
  intros Hcid. unfold check_item, get, get_or. cbn [primary_key index_keys forallb dget].
  rewrite (decide_True (P := "customerId" = "customerId")) by done.
  cbn [default from_option id key_string mbind outcome_bind]. by rewrite decide_False.
Qed.

(** ** Registering a customer *)

Lemma register_customer_run n w cid params :
  cid ≠ "" →
  calm (S n) w = true →
  register_customer (VStr cid) params w =
    (Ok (result 200 [("message", VStr "Customer registered successfully");
                     ("name", get "name" params);
                     ("city", get "city" params)]),
     set_rows Customers (<[cid := customer_record cid params]> (customers_table w)) (tick w)).
Proof.
  intros Hcid Hc. unfold register_customer.
  erewrite bind_Ok; [reflexivity|].
  erewrite put_item_calm; [reflexivity | exact Hc | by apply check_item_customer].
Qed.

(** C9. Registering the same identity again succeeds with status 200 and
    replaces the stored record: after two registrations the customers table
    is the original one with the second record under the identity, whatever
    was stored under it before, and the other tables are as they were. The
    identity is a key the store takes, a string that is not empty; with the
    empty identity the store refuses the write
    ([register_customer_empty_identity]). *)
Theorem register_customer_last_write_wins (w : world) (cid : string) (first second : dict) :
  cid ≠ "" →
  calm 2 w = true →
  ∃ w1 w2,
    register_customer (VStr cid) first w =
      (Ok (result 200 [("message", VStr "Customer registered successfully");
                       ("name", get "name" first);
                       ("city", get "city" first)]), w1) ∧
    customers_table w1 !! cid = Some (customer_record cid first) ∧
    register_customer (VStr cid) second w1 =
      (Ok (result 200 [("message", VStr "Customer registered successfully");
                       ("name", get "name" second);
                       ("city", get "city" second)]), w2) ∧
    customers_table w2 = <[cid := customer_record cid second]> (customers_table w) ∧
    customers_table w2 !! cid = Some (customer_record cid second) ∧
    tradesperson_table w2 = tradesperson_table w ∧
    bookings_table w2 = bookings_table w.
Proof.
  intros Hcid Hc. destruct (calm_S _ _ Hc) as [_ Hc1].
  eexists _, _. split; [by eapply register_customer_run|].
  split; [apply lookup_insert_eq|].
  split; [eapply register_customer_run; [done | by rewrite calm_set_rows]|].
  simpl. rewrite insert_insert_eq, lookup_insert_eq. done.
Qed.

(** ** Dictionaries *)

Lemma dget_dset k k' v d :
  dget k (dset k' v d) = if decide (k = k') then Some v else dget k d.
Proof.
  induction d as [|[k0 v0] d IH]; simpl.
  - by repeat case_decide.
  - repeat (case_decide; simpl; subst); congruence.
Qed.

Lemma dget_None_keys k d : dget k d = None ↔ k ∉ d.*1.
Proof.
  induction d as [|[k0 v0] d IH]; simpl.
  - split; [intros _; apply not_elem_of_nil | done].
  - rewrite not_elem_of_cons. case_decide; subst; [split; [done | by intros [? _]] |].
    rewrite IH. tauto.
Qed.

Lemma dget_dupdate k e d :
  dict_ok e →
  dget k (dupdate e d) =
  match dget k e with
  | Some v => Some v
  | None => dget k d
  end.
Proof.
  unfold dict_ok, dupdate. revert d.
  induction e as [|[k0 v0] e IH]; intros d Hnd; simpl; [done|].
  apply list.NoDup_cons in Hnd as [Hk0 Hnd]. simpl in Hk0. rewrite IH by done. simpl.
  rewrite dget_dset. case_decide; subst; [|done].
  apply dget_None_keys in Hk0. by rewrite Hk0.
Qed.

Lemma dict_ok_pair k1 k2 v1 v2 : k1 ≠ k2 → dict_ok [(k1, v1); (k2, v2)].
Proof.
  intros Hne. unfold dict_ok. simpl.
  apply list.NoDup_cons. split; [by intros ->%list_elem_of_singleton|].
  apply NoDup_singleton.
Qed.

Lemma key_of_pk t v : key_of t [(primary_key t, v)] = key_string v.
Proof. unfold key_of. by rewrite decide_True. Qed.

(** ** Updating and cancelling a booking *)

(** C5. An update by anyone but the booking's owner is answered 403, an
    update of an unknown booking id 404; either way the only store call made
    is the read, and the three tables are left as they were. *)
Theorem update_booking_refused (w : world) (customer_id : value) (params : dict) (bid : string) :
  get "bookingId" params = VStr bid → calm 1 w = true →
  (∀ booking,
     bookings_table w !! bid = Some booking →
     py_eq (get "customerId" booking) customer_id = false →
     update_booking customer_id params w =
       (Ok (result 403 [("error", VStr "Not authorized to update this booking")]), tick w) ∧
     bookings_table (tick w) !! bid = Some booking) ∧
  (bookings_table w !! bid = None →
     update_booking customer_id params w =
       (Ok (result 404 [("error", VStr "Booking not found")]), tick w)) ∧
  customers_table (tick w) = customers_table w ∧
  tradesperson_table (tick w) = tradesperson_table w ∧
  bookings_table (tick w) = bookings_table w.
Proof.
  intros Hbid Hc.
  assert (Hget : get_item Bookings [("bookingId", VStr bid)] w
                 = (Ok (bookings_table w !! bid), tick w)).
  { eapply get_item_calm; [exact Hc | apply (key_of_string Bookings)]. }
  split; [|split; [|done]].
  - intros booking Hb Hown. split; [|done].
    unfold update_booking. rewrite Hbid.
    erewrite bind_Ok by exact Hget. rewrite Hb. simpl. by rewrite Hown.
  - intros Hb. unfold update_booking. rewrite Hbid.
    erewrite bind_Ok by exact Hget. by rewrite Hb.
Qed.

Lemma cancelled_body_status booking details :
  dget "status" (cancelled_body booking details) = Some (VStr "CANCELLED").
Proof. unfold cancelled_body. rewrite dget_dset. by rewrite decide_True. Qed.

Lemma cancelled_body_field booking details k :
  dict_ok booking → dict_ok details → k ≠ "status" →
  dget k (cancelled_body booking details) =
  match dget k details with
  | Some v => Some v
  | None =>
      match dget k booking with
      | Some v => Some v
      | None => if decide (k = "message")
                then Some (VStr "Booking cancelled successfully") else None
      end
  end.
Proof.
  intros Hb Hd Hk. unfold cancelled_body.
  rewrite dget_dset, decide_False by done.
  rewrite !dget_dupdate by done. simpl. by repeat case_match.
Qed.

(** C7. Cancelling an existing booking reads it, reads its tradesperson,
    deletes the booking and answers 200 with the booking's fields overlaid by
    the tradesperson's and a CANCELLED status; the id is no longer in the
    bookings table afterwards. Cancelling an id that is not in the table
    answers 404 and leaves the tables as they were. *)
Theorem cancel_booking_removes (w : world) (params : dict) (bid : string) :
  get "bookingId" params = VStr bid →
  (∀ booking tid,
     bookings_table w !! bid = Some booking →
     key_string (get "tradesPersonId" booking) = Ok tid →
     calm 3 w = true →
     let details := default [] (tradesperson_table w !! tid) in
     ∃ w',
       cancel_booking params w = (Ok (result 200 (cancelled_body booking details)), w') ∧
       bookings_table w' = delete bid (bookings_table w) ∧
       bookings_table w' !! bid = None ∧
       customers_table w' = customers_table w ∧
       tradesperson_table w' = tradesperson_table w ∧
       dget "status" (cancelled_body booking details) = Some (VStr "CANCELLED") ∧
       (dict_ok booking → dict_ok details →
        ∀ k v, k ≠ "status" →
          (dget k details = Some v → dget k (cancelled_body booking details) = Some v) ∧
          (dget k details = None → dget k booking = Some v →
           dget k (cancelled_body booking details) = Some v))) ∧
  (bookings_table w !! bid = None → calm 1 w = true →
     cancel_booking params w = (Ok (result 404 [("error", VStr "Booking not found")]), tick w) ∧
     bookings_table (tick w) = bookings_table w ∧
     customers_table (tick w) = customers_table w ∧
     tradesperson_table (tick w) = tradesperson_table w).
Proof.
  intros Hbid. split.
  - intros booking tid Hb Htid Hc details.
    destruct (calm_S _ _ Hc) as [_ Hc2]. destruct (calm_S _ _ Hc2) as [_ Hc1].
    eexists. split; [|split; [|split; [|split; [|split; [|split]]]]].
    + unfold cancel_booking. rewrite Hbid.
      erewrite bind_Ok
        by (eapply get_item_calm; [exact Hc | apply (key_of_string Bookings)]).
      change (rows Bookings w) with (bookings_table w). rewrite Hb.
      erewrite bind_Ok
        by (eapply get_item_calm;
            [exact Hc2 | rewrite (key_of_pk Tradespersons); exact Htid]).
      erewrite bind_Ok
        by (eapply delete_item_calm; [exact Hc1 | apply (key_of_string Bookings)]).
      reflexivity.
    + reflexivity.
    + simpl. apply lookup_delete_eq.
    + reflexivity.
    + reflexivity.
    + apply cancelled_body_status.
    + intros Hokb Hokd k v Hk. rewrite cancelled_body_field by done.
      split; [by intros ->|]. by intros -> ->.
  - intros Hb Hc. split; [|done].
    unfold cancel_booking. rewrite Hbid.
    erewrite bind_Ok
      by (eapply get_item_calm; [exact Hc | apply (key_of_string Bookings)]).
    change (rows Bookings w) with (bookings_table w). by rewrite Hb.
Qed.

(** ** The entry point *)

Lemma py_eq_VStr v s : py_eq v (VStr s) = true ↔ v = VStr s.
Proof.
  destruct v; simpl; try (split; done).
  rewrite bool_decide_eq_true. split; congruence.
Qed.

Lemma py_eq_VStr_ne v s : v ≠ VStr s → py_eq v (VStr s) = false.
Proof.
  intros Hne. destruct (py_eq v (VStr s)) eqn:E; [|done].
  by apply py_eq_VStr in E.
Qed.

Lemma handler_try_run event w customer_id post_params response_body status additional
    w' body prior :
  customer_id_of event = Ok customer_id →
  post_params_of event = Ok post_params →
  dispatch (get "apiPath" event) customer_id post_params w
    = (Ok (response_body, status, additional), w') →
  py_get response_body "body" response_body = Ok body →
  get_or "promptSessionAttributes" (VDict []) event = VDict prior →
  handler_try event w =
    (Ok (api_response (action_response event status body)
           (get_or "sessionAttributes" (VDict []) event)
           (VDict (prompt_attributes customer_id additional prior))), w').
Proof.
  intros Hc Hp Hd Hb Hpsa. unfold handler_try. cbv zeta.
  rewrite Hc, Hp. mrun. erewrite bind_Ok by exact Hd. cbv beta iota.
  rewrite Hb, Hpsa. reflexivity.
Qed.

Lemma handler_Ok event w r w' :
  handler_try event w = (Ok r, w') → handler event w = (r, w').
Proof. unfold handler. by intros ->. Qed.

Lemma handler_Raise event w e w' :
  handler_try event w = (Raise e, w') → handler event w = (handler_except event, w').
Proof. unfold handler. by intros ->. Qed.

Lemma dispatch_unknown api_path customer_id post_params w :
  (∀ p, p ∈ known_paths → api_path ≠ VStr p) →
  dispatch api_path customer_id post_params w =
    (Ok (VDict [("error", VStr ("Unsupported operation: " +:+ py_str api_path))],
         VNum 400, []), w).
Proof.
  intros Hne. unfold dispatch.
  repeat (rewrite py_eq_VStr_ne;
          [|apply Hne; unfold known_paths; repeat constructor]).
  reflexivity.
Qed.

(** C4. An operation identifier outside the nine known ones makes the
    dispatch return status 400 and an "Unsupported operation" body naming the
    identifier; nothing is raised and the world is not touched. At the
    interface this is the 400 envelope. *)
Theorem unsupported_operation (api_path customer_id : value) (post_params : dict) (w : world) :
  (∀ p, p ∈ known_paths → api_path ≠ VStr p) →
  let body := VDict [("error", VStr ("Unsupported operation: " +:+ py_str api_path))] in
  dispatch api_path customer_id post_params w = (Ok (body, VNum 400, []), w) ∧
  ∀ event prior,
    get "apiPath" event = api_path →
    customer_id_of event = Ok customer_id →
    post_params_of event = Ok post_params →
    get_or "promptSessionAttributes" (VDict []) event = VDict prior →
    handler event w =
      (api_response (action_response event (VNum 400) body)
         (get_or "sessionAttributes" (VDict []) event)
         (VDict (prompt_attributes customer_id [] prior)), w).
Proof.
  intros Hne body. split; [by apply dispatch_unknown|].
  intros event prior Hp Hc Hps Hprior. apply handler_Ok.
  eapply (handler_try_run event w customer_id post_params body (VNum 400) [] w body prior);
    [done | done | rewrite Hp; by apply dispatch_unknown | reflexivity | done].
Qed.

(** A fault of the dispatch, a store fault among them, is a fault of the
    [try]. *)
Lemma dispatch_fault_propagates event w w' e customer_id post_params :
  customer_id_of event = Ok customer_id →
  post_params_of event = Ok post_params →
  dispatch (get "apiPath" event) customer_id post_params w = (Raise e, w') →
  handler_try event w = (Raise e, w').
Proof.
  intros Hc Hp Hd. unfold handler_try. cbv zeta. rewrite Hc, Hp. mrun.
  by erewrite bind_Raise by exact Hd.
Qed.

(** A fault of an operation handler is a fault of the dispatch. *)
Lemma operation_fault_propagates path customer_id post_params m w w' e :
  operation path customer_id post_params = Some m →
  m w = (Raise e, w') →
  dispatch (VStr path) customer_id post_params w = (Raise e, w').
Proof.
  unfold operation. intros Hop Hm.
  repeat case_decide; try discriminate; subst; injection Hop as <-;
    unfold dispatch; cbn [py_eq];
    repeat (case_bool_decide; try done);
    by erewrite bind_Raise by exact Hm.
Qed.

(** C3. When the body of the [try] raises, whatever the fault and wherever
    it came from (the dispatch, or the operation handler it calls, a store
    fault included), the handler returns the fixed 500 envelope: the generic
    error body, the request's action group, path and method, and the
    request's two attribute mappings as they came in. Store writes made
    before the fault stay. *)
Theorem uncaught_fault_is_500 (event : dict) (w w' : world) (e : exn) :
  handler_try event w = (Raise e, w') ∨
  (∃ customer_id post_params,
     customer_id_of event = Ok customer_id ∧
     post_params_of event = Ok post_params ∧
     (dispatch (get "apiPath" event) customer_id post_params w = (Raise e, w') ∨
      ∃ path m,
        get "apiPath" event = VStr path ∧
        operation path customer_id post_params = Some m ∧
        m w = (Raise e, w'))) →
  handler event w =
    (VDict [("messageVersion", VStr "1.0");
            ("response",
             VDict [("actionGroup", get "actionGroup" event);
                    ("apiPath", get "apiPath" event);
                    ("httpMethod", get "httpMethod" event);
                    ("httpStatusCode", VNum 500);
                    ("responseBody",
                     VDict [("application/json",
                             VDict [("body",
                                     VDict [("error", VStr "Internal server error")])])])]);
            ("sessionAttributes", get_or "sessionAttributes" (VDict []) event);
            ("promptSessionAttributes",
             get_or "promptSessionAttributes" (VDict []) event)], w').
Proof.
  intros Hfault.
  assert (Htry : handler_try event w = (Raise e, w')).
  { destruct Hfault as [Htry|(cid & ps & Hc & Hp & [Hd|(path & m & Hpath & Hop & Hm)])];
      [done | by eapply dispatch_fault_propagates |].
    eapply dispatch_fault_propagates; [done..|].
    rewrite Hpath. by eapply operation_fault_propagates. }
  by rewrite (handler_Raise _ _ _ _ Htry).
Qed.

Lemma dispatch_search_trades_persons customer_id post_params :
  dispatch (VStr "/search-trades-persons") customer_id post_params =
    (response_body ← search_trades_persons post_params;
     http_status_code ← lift (status_of response_body);
     mret (response_body, http_status_code, [])).
Proof. reflexivity. Qed.

Lemma dispatch_check_availability customer_id post_params :
  dispatch (VStr "/check-availability") customer_id post_params =
    (response_body ← check_availability post_params;
     http_status_code ← lift (status_of response_body);
     mret (response_body, http_status_code, [])).
Proof. reflexivity. Qed.

Lemma search_trades_persons_missing params w :
  dget "trade" params = None ∨ dget "city" params = None →
  ∃ e, search_trades_persons params w = (Raise e, w).
Proof.
  intros Hmiss. unfold search_trades_persons, get, get_or. cbv zeta.
  destruct Hmiss as [->| ->]; simpl.
  - mrun. by eexists.
  - destruct (py_lower (default VNone (dget "trade" params))); mrun; eexists; reflexivity.
Qed.

Lemma check_availability_missing params w :
  dget "startSlot" params = None ∨ dget "endSlot" params = None →
  ∃ e, check_availability params w = (Raise e, w).
Proof.
  intros Hmiss. unfold check_availability, get, get_or. cbv zeta.
  destruct Hmiss as [->| ->]; simpl.
  - mrun. by eexists.
  - destruct (parse_slot (default VNone (dget "startSlot" params)));
      mrun; eexists; reflexivity.
Qed.

(** C10. A search without a trade or a city, and an availability check
    without a start or an end slot, raise inside the handler: the response
    at the interface is the 500 envelope, and no store call was made. *)
Theorem missing_parameter_is_500 (event : dict) (w : world) (post_params : dict) :
  post_params_of event = Ok post_params →
  (get "apiPath" event = VStr "/search-trades-persons" ∧
   (dget "trade" post_params = None ∨ dget "city" post_params = None)) ∨
  (get "apiPath" event = VStr "/check-availability" ∧
   (dget "startSlot" post_params = None ∨ dget "endSlot" post_params = None)) →
  handler event w =
    (api_response
       (action_response event (VNum 500) (VDict [("error", VStr "Internal server error")]))
       (get_or "sessionAttributes" (VDict []) event)
       (get_or "promptSessionAttributes" (VDict []) event), w).
Proof.
  intros Hp Hmiss.
  assert (∃ e, handler_try event w = (Raise e, w)) as [e He];
    [|by rewrite (handler_Raise _ _ _ _ He)].
  destruct (customer_id_of event) as [cid|e] eqn:Hc;
    [|exists e; unfold handler_try; cbv zeta; rewrite Hc; by mrun].
  destruct Hmiss as [[Hpath Hmiss]|[Hpath Hmiss]].
  - destruct (search_trades_persons_missing _ w Hmiss) as [e He]. exists e.
    eapply dispatch_fault_propagates; [done..|].
    rewrite Hpath, dispatch_search_trades_persons. by erewrite bind_Raise.
  - destruct (check_availability_missing _ w Hmiss) as [e He]. exists e.
    eapply dispatch_fault_propagates; [done..|].
    rewrite Hpath, dispatch_check_availability. by erewrite bind_Raise.
Qed.

(** ** Customer details *)

Lemma handler_run path cid params prior event w response_body status additional w' body :
  request_for path cid params prior event →
  dispatch (VStr path) (VStr cid) params w = (Ok (response_body, status, additional), w') →
  py_get response_body "body" response_body = Ok body →
  handler event w =
    (api_response (action_response event status body)
       (get_or "sessionAttributes" (VDict []) event)
       (VDict (prompt_attributes (VStr cid) additional prior)), w').
Proof.
  intros (Hpath & Hc & Hp & Hprior) Hd Hb. apply handler_Ok.
  eapply handler_try_run; [done | done | by rewrite Hpath | done | done].
Qed.

Lemma get_customer_details_run n w cid :
  calm (S n) w = true →
  get_customer_details (VStr cid) w =
    (Ok match customers_table w !! cid with
        | None => result 404 [("error", VStr "Customer not found")]
        | Some item => result 200 [("customer", VDict item)]
        end, tick w).
Proof.
  intros Hc. unfold get_customer_details.
  erewrite bind_Ok
    by (eapply get_item_calm; [exact Hc | apply (key_of_string Customers)]).
  change (rows Customers w) with (customers_table w).
  by destruct (customers_table w !! cid).
Qed.

Lemma dispatch_get_customer_details customer_id post_params :
  dispatch (VStr "/get-customer-details") customer_id post_params =
    (response_body ← get_customer_details customer_id;
     http_status_code ← lift (status_of response_body);
     found ← lift (if py_eq http_status_code (VNum 200) then
                     body ← py_index response_body "body";
                     customer ← py_index body "customer";
                     mret (truthy customer)
                   else mret false);
     if found : bool then
       body ← lift (py_index response_body "body");
       customer ← lift (py_index body "customer");
       name ← lift (py_index customer "name");
       let additional := dset "customerName" name [] in
       body ← lift (py_index response_body "body");
       customer ← lift (py_index body "customer");
       city ← lift (py_index customer "city");
       let additional := dset "customerCity" city additional in
       mret (response_body, http_status_code, additional)
     else mret (response_body, http_status_code, [])).
Proof. reflexivity. Qed.

Lemma dispatch_register_customer customer_id post_params :
  dispatch (VStr "/register-customer") customer_id post_params =
    (response_body ← register_customer customer_id post_params;
     body ← lift (py_index response_body "body");
     name ← lift (py_index body "name");
     let additional := dset "customerName" name [] in
     body ← lift (py_index response_body "body");
     city ← lift (py_index body "city");
     let additional := dset "customerCity" city additional in
     http_status_code ← lift (status_of response_body);
     mret (response_body, http_status_code, additional)).
Proof. reflexivity. Qed.

Lemma dispatch_customer_unknown n w cid params :
  calm (S n) w = true → customers_table w !! cid = None →
  dispatch (VStr "/get-customer-details") (VStr cid) params w =
    (Ok (result 404 [("error", VStr "Customer not found")], VNum 404, []), tick w).
Proof.
  intros Hc Hnone. rewrite dispatch_get_customer_details.
  erewrite bind_Ok by (by eapply get_customer_details_run). by rewrite Hnone.
Qed.

Lemma dispatch_customer_known n w cid params name city :
  calm (S n) w = true →
  customers_table w !! cid = Some [("customerId", VStr cid); ("name", name); ("city", city)] →
  dispatch (VStr "/get-customer-details") (VStr cid) params w =
    (Ok (result 200 [("customer",
                      VDict [("customerId", VStr cid); ("name", name); ("city", city)])],
         VNum 200, [("customerName", name); ("customerCity", city)]), tick w).
Proof.
  intros Hc Hsome. rewrite dispatch_get_customer_details.
  erewrite bind_Ok by (by eapply get_customer_details_run). by rewrite Hsome.
Qed.

Lemma dispatch_register n w cid params :
  cid ≠ "" →
  calm (S n) w = true →
  dispatch (VStr "/register-customer") (VStr cid) params w =
    (Ok (result 200 [("message", VStr "Customer registered successfully");
                     ("name", get "name" params);
                     ("city", get "city" params)],
         VNum 200,
         [("customerName", get "name" params); ("customerCity", get "city" params)]),
     set_rows Customers (<[cid := customer_record cid params]> (customers_table w)) (tick w)).
Proof.
  intros Hcid Hc. rewrite dispatch_register_customer.
  erewrite bind_Ok by (by eapply register_customer_run). reflexivity.
Qed.

Lemma prompt_attributes_additional cid additional prior k v :
  dict_ok additional → dget k additional = Some v →
  dget k (prompt_attributes cid additional prior) = Some v.
Proof.
  intros Hok Hk. unfold prompt_attributes. by rewrite dget_dupdate, Hk.
Qed.

(** C6. For an identity with no customer record, get-customer-details is
    answered 404. After register-customer has stored a name and a city for
    the identity, get-customer-details for it is answered 200 with that name
    and city, and the prompt session attributes of the response carry them
    as customerName and customerCity. The identity is a key the store takes,
    a string that is not empty. *)
Theorem customer_details_after_registration (w : world) (cid : string) (name city : value)
    (reg_event get_event reg_params get_params reg_prior get_prior : dict) :
  cid ≠ "" →
  calm 2 w = true →
  request_for "/get-customer-details" cid get_params get_prior get_event →
  request_for "/register-customer" cid reg_params reg_prior reg_event →
  get "name" reg_params = name → get "city" reg_params = city →
  (customers_table w !! cid = None →
   handler get_event w =
     (api_response
        (action_response get_event (VNum 404) (VDict [("error", VStr "Customer not found")]))
        (get_or "sessionAttributes" (VDict []) get_event)
        (VDict (prompt_attributes (VStr cid) [] get_prior)), tick w)) ∧
  ∃ registered w1 w2 prompt,
    handler reg_event w = (registered, w1) ∧
    handler get_event w1 =
      (api_response
         (action_response get_event (VNum 200)
            (VDict [("customer",
                     VDict [("customerId", VStr cid); ("name", name); ("city", city)])]))
         (get_or "sessionAttributes" (VDict []) get_event)
         (VDict prompt), w2) ∧
    dget "customerName" prompt = Some name ∧
    dget "customerCity" prompt = Some city.
Proof.
  intros Hcid Hc Hget Hreg Hname Hcity.
  destruct (calm_S _ _ Hc) as [_ Hc1]. split.
  - intros Hnone.
    eapply handler_run; [exact Hget | by eapply dispatch_customer_unknown | reflexivity].
  - eexists _, _, _, _. split; [|split; [|split]].
    + eapply handler_run; [exact Hreg | by eapply dispatch_register | reflexivity].
    + eapply handler_run;
        [exact Hget
        | eapply (dispatch_customer_known _ _ _ _ name city);
            [by rewrite calm_set_rows |];
          simpl; rewrite lookup_insert_eq; unfold customer_record;
          by rewrite Hname, Hcity
        | reflexivity].
    + apply prompt_attributes_additional; [by apply dict_ok_pair | done].
    + apply prompt_attributes_additional; [by apply dict_ok_pair | done].
Qed.

(** ** The shape of every response *)

Lemma returns_lift_bind {A B} (o : outcome A) (f : A → M B) (P : B → Prop) :
  (∀ a, o = Ok a → returns (f a) P) → returns (lift o ≫= f) P.
Proof.
  intros Hf w b w' H. destruct o as [a|e]; [|discriminate].
  rewrite bind_lift_Ok in H. by eapply Hf.
Qed.

Ltac returns_result :=
  cbv zeta;
  repeat first
    [ apply returns_ret; by eexists _, _
    | apply returns_bind; intros
    | case_match ].

Lemma get_current_date_time_result : returns get_current_date_time is_result.
Proof. unfold get_current_date_time. returns_result. Qed.

Lemma get_customer_details_result cid : returns (get_customer_details cid) is_result.
Proof. unfold get_customer_details. returns_result. Qed.

Lemma register_customer_result cid params : returns (register_customer cid params) is_result.
Proof. unfold register_customer. returns_result. Qed.

Lemma search_trades_persons_result params : returns (search_trades_persons params) is_result.
Proof. unfold search_trades_persons. returns_result. Qed.

Lemma check_availability_result params : returns (check_availability params) is_result.
Proof. unfold check_availability. returns_result. Qed.

Lemma create_booking_result cid params : returns (create_booking cid params) is_result.
Proof. unfold create_booking. returns_result. Qed.

Lemma get_latest_booking_result cid : returns (get_latest_booking cid) is_result.
Proof. unfold get_latest_booking. returns_result. Qed.

Lemma cancel_booking_result params : returns (cancel_booking params) is_result.
Proof. unfold cancel_booking. returns_result. Qed.

Lemma update_booking_result cid params : returns (update_booking cid params) is_result.
Proof. unfold update_booking. returns_result. Qed.

Lemma dispatch_dispatched api_path customer_id post_params :
  returns (dispatch api_path customer_id post_params) dispatched.
Proof.
  assert (Hplain : ∀ (m : M value), returns m is_result →
    returns (response_body ← m;
             http_status_code ← lift (status_of response_body);
             mret (response_body, http_status_code, [])) dispatched).
  { intros m Hm. eapply returns_bind_with; [exact Hm|].
    intros rb (status & body & ->). apply returns_lift_bind. intros st [= <-].
    apply returns_ret. by exists status, body. }
  unfold dispatch. repeat case_match.
  - apply Hplain, get_current_date_time_result.
  - eapply returns_bind_with; [apply get_customer_details_result|].
    intros rb (status & body & ->). apply returns_lift_bind. intros st [= <-].
    apply returns_bind. intros found.
    destruct found; repeat (apply returns_bind; intros);
      apply returns_ret; by exists status, body.
  - eapply returns_bind_with; [apply register_customer_result|].
    intros rb (status & body & ->).
    do 4 (apply returns_bind; intros; cbv zeta).
    apply returns_lift_bind. intros st [= <-].
    apply returns_ret. by exists status, body.
  - apply Hplain, search_trades_persons_result.
  - apply Hplain, check_availability_result.
  - apply Hplain, create_booking_result.
  - apply Hplain, get_latest_booking_result.
  - apply Hplain, cancel_booking_result.
  - apply Hplain, update_booking_result.
  - apply returns_ret. by eexists _, _.
Qed.

Lemma handler_try_shape event :
  returns (handler_try event)
    (λ r, ∃ status body prompt,
       r = api_response (action_response event (VNum status) (VDict body))
             (get_or "sessionAttributes" (VDict []) event) (VDict prompt)).
Proof.
  unfold handler_try. cbv zeta.
  apply returns_bind. intros customer_id. apply returns_bind. intros post_params.
  eapply returns_bind_with; [apply dispatch_dispatched|].
  intros [[rb st] additional] (status & body & Hst & Hbody). simpl in Hst, Hbody.
  subst st. rewrite Hbody.
  apply returns_lift_bind. intros ? [= <-].
  apply returns_lift_bind. intros p1 H1.
  apply returns_lift_bind. intros p2 H2.
  apply returns_lift_bind. intros p3 H3.
  apply returns_ret.
  destruct p2; try discriminate. injection H3 as <-. by eexists _, _, _.
Qed.

(** C2. Every response of the handler, on every path, is the same
    four-part envelope: the message version "1.0"; a response block with the
    request's action group, path and method, an integer status and a body
    dict under responseBody / application/json / body; the session
    attributes; the prompt session attributes. Only the status and the body
    vary. The session attributes are the request's own, and the two
    attribute blocks are mappings whenever the request's are. *)
Theorem envelope_on_every_path (event : dict) (w : world) :
  ∃ status body session prompt,
    (handler event w).1 =
      VDict [("messageVersion", VStr "1.0");
             ("response",
              VDict [("actionGroup", get "actionGroup" event);
                     ("apiPath", get "apiPath" event);
                     ("httpMethod", get "httpMethod" event);
                     ("httpStatusCode", VNum status);
                     ("responseBody",
                      VDict [("application/json", VDict [("body", VDict body)])])]);
             ("sessionAttributes", session);
             ("promptSessionAttributes", prompt)] ∧
    session = get_or "sessionAttributes" (VDict []) event ∧
    (∀ prior, get_or "promptSessionAttributes" (VDict []) event = VDict prior →
              ∃ d, prompt = VDict d).
Proof.
  unfold handler. destruct (handler_try event w) as [[r|e] w'] eqn:Htry; simpl.
  - apply handler_try_shape in Htry as (status & body & prompt & ->).
    eexists status, body, _, (VDict prompt). split; [reflexivity|]. split; [done|].
    intros _ _. by eexists.
  - eexists 500, _, _, _. split; [reflexivity|]. split; [done|].
    intros prior ->. by eexists.
Qed.

(** ** Dates: what [isoformat] writes, [fromisoformat] reads back *)

Lemma append_cons (x : ascii) (a b : string) : String x a +:+ b = String x (a +:+ b).
Proof. reflexivity. Qed.

Lemma append_nil_l (a : string) : "" +:+ a = a.
Proof. reflexivity. Qed.

Lemma append_assoc (a b c : string) : (a +:+ b) +:+ c = a +:+ (b +:+ c).
Proof.
  induction a as [|x a IH]; [done|]. rewrite !append_cons. by rewrite IH.
Qed.

Lemma append_nil_r (a : string) : a +:+ "" = a.
Proof. induction a as [|x a IH]; [done|]. rewrite append_cons. by rewrite IH. Qed.

Lemma length_append (a b : string) :
  String.length (a +:+ b) = (String.length a + String.length b)%nat.
Proof.
  induction a as [|x a IH]; [done|]. rewrite append_cons. simpl. by rewrite IH.
Qed.

Lemma pad_digits_append width n tail rest :
  pad_digits width n tail +:+ rest = pad_digits width n (tail +:+ rest).
Proof.
  revert n tail. induction width as [|width IH]; intros n tail; [done|].
  simpl pad_digits. by rewrite IH.
Qed.

Lemma length_pad_digits width n tail :
  String.length (pad_digits width n tail) = (width + String.length tail)%nat.
Proof.
  revert n tail. induction width as [|width IH]; intros n tail; simpl; [done|].
  rewrite IH. simpl. lia.
Qed.

Lemma digit_of_digit_char d : 0 ≤ d ≤ 9 → Datetime.digit_of (digit_char d) = Some d.
Proof.
  intros Hd.
  assert (d = 0 ∨ d = 1 ∨ d = 2 ∨ d = 3 ∨ d = 4 ∨ d = 5 ∨ d = 6 ∨ d = 7 ∨ d = 8 ∨ d = 9)
    as Hcases by lia.
  repeat (destruct Hcases as [-> | Hcases]; [reflexivity|]). by subst.
Qed.

Lemma parse_digits_add n m acc s :
  Datetime.parse_digits (n + m) acc s =
  '(acc', s') ← Datetime.parse_digits n acc s; Datetime.parse_digits m acc' s'.
Proof.
  revert acc s. induction n as [|n IH]; intros acc s; simpl; [done|].
  destruct s as [|c s]; [done|]. destruct (Datetime.digit_of c); simpl; [apply IH | done].
Qed.

Lemma parse_pad_digits width n acc tail :
  0 ≤ n < 10 ^ Z.of_nat width →
  Datetime.parse_digits width acc (pad_digits width n tail)
  = Some (acc * 10 ^ Z.of_nat width + n, tail).
Proof.
  revert n acc tail. induction width as [|width IH]; intros n acc tail Hn.
  - simpl in *. f_equal. f_equal. lia.
  - replace (S width) with (width + 1)%nat at 1 by lia.
    rewrite parse_digits_add. simpl pad_digits.
    rewrite Nat2Z.inj_succ, Z.pow_succ_r in Hn by lia.
    rewrite IH by (split; [apply Z.div_pos; lia | apply Z.div_lt_upper_bound; lia]).
    simpl. rewrite digit_of_digit_char by (pose proof (Z.mod_pos_bound n 10); lia). simpl.
    f_equal. f_equal. rewrite Nat2Z.inj_succ, Z.pow_succ_r by lia.
    pose proof (Z.div_mod n 10). lia.
Qed.

Lemma zero_pad_fits width n :
  0 ≤ n < 10 ^ Z.of_nat width → zero_pad width n = pad_digits width n "".
Proof.
  intros Hn. unfold zero_pad.
  destruct (Z.leb_spec 0 n), (Z.ltb_spec n (10 ^ Z.of_nat width)); simpl; [done | lia..].
Qed.

(** Reading back a zero-padded number that is followed by more text. *)
Lemma parse_zero_pad width n rest :
  0 ≤ n < 10 ^ Z.of_nat width →
  Datetime.parse_digits width 0 (zero_pad width n +:+ rest) = Some (n, rest).
Proof.
  intros Hn. rewrite zero_pad_fits, pad_digits_append by done. simpl.
  rewrite parse_pad_digits by done. f_equal.
Qed.

Lemma length_zero_pad width n :
  0 ≤ n < 10 ^ Z.of_nat width → String.length (zero_pad width n) = width.
Proof.
  intros Hn. rewrite zero_pad_fits, length_pad_digits by done. simpl. lia.
Qed.

Lemma string_forall_append P a b :
  string_forall P (a +:+ b) = string_forall P a && string_forall P b.
Proof.
  induction a as [|x a IH]; [done|]. rewrite append_cons. simpl.
  by rewrite IH, andb_assoc.
Qed.

Lemma digit_char_is_digit n : is_digit (digit_char (n mod 10)) = true.
Proof.
  unfold is_digit. rewrite digit_of_digit_char; [done|].
  pose proof (Z.mod_pos_bound n 10). lia.
Qed.

Lemma string_forall_pad_digits P width n tail :
  (∀ c, is_digit c = true → P c = true) →
  string_forall P (pad_digits width n tail) = string_forall P tail.
Proof.
  intros HP. revert n tail. induction width as [|width IH]; intros n tail; [done|].
  simpl pad_digits. rewrite IH. simpl. by rewrite HP by apply digit_char_is_digit.
Qed.

Lemma digit_not_sign c : is_digit c = true → not_sign c = true.
Proof.
  unfold not_sign. intros Hd.
  destruct (decide (c = "+"%char)) as [->|]; [by vm_compute in Hd|].
  destruct (decide (c = "-"%char)) as [->|]; [by vm_compute in Hd|].
  by rewrite !bool_decide_eq_false_2.
Qed.

Lemma digit_not_Z c : is_digit c = true → not_Z c = true.
Proof.
  unfold not_Z. intros Hd.
  destruct (decide (c = "Z"%char)) as [->|]; [by vm_compute in Hd|].
  by rewrite bool_decide_eq_false_2.
Qed.

Lemma string_forall_zero_pad P width n :
  (∀ c, is_digit c = true → P c = true) →
  0 ≤ n < 10 ^ Z.of_nat width → string_forall P (zero_pad width n) = true.
Proof. intros HP Hn. by rewrite zero_pad_fits, string_forall_pad_digits. Qed.

Lemma replace_Z_id s : string_forall not_Z s = true → replace_Z s = s.
Proof.
  induction s as [|c s IH]; [done|]. simpl. intros [Hc Hs]%andb_true_iff.
  unfold not_Z in Hc. apply negb_true_iff, bool_decide_eq_false in Hc.
  rewrite decide_False by done. by rewrite IH.
Qed.

Lemma split_offset_append clock rest :
  string_forall not_sign clock = true →
  Datetime.split_offset (clock +:+ rest) =
  (clock +:+ (Datetime.split_offset rest).1, (Datetime.split_offset rest).2).
Proof.
  induction clock as [|c clock IH];
    [intros _; rewrite !append_nil_l; by destruct (Datetime.split_offset rest)|].
  intros [Hc Hs]%andb_true_iff. rewrite !append_cons. simpl.
  unfold not_sign in Hc. apply andb_true_iff in Hc as [H1 H2].
  apply negb_true_iff, bool_decide_eq_false in H1, H2.
  rewrite !decide_False by done. by rewrite IH.
Qed.

(** The clock text reads back as the clock fields. *)
Lemma parse_format_clock millis h m s us :
  0 ≤ h < 100 → 0 ≤ m < 100 → 0 ≤ s < 100 → 0 ≤ us < 1000000 →
  Datetime.parse_hh_mm_ss_ff millis (Datetime.format_clock h m s us) = Some (h, m, s, us).
Proof.
  intros Hh Hm Hs Hus. unfold Datetime.parse_hh_mm_ss_ff, Datetime.format_clock.
  rewrite parse_zero_pad by (simpl; lia).
  cbn -[Datetime.parse_digits zero_pad Z.eqb]. rewrite append_cons, append_nil_l.
  rewrite decide_True by done.
  rewrite parse_zero_pad by (simpl; lia).
  cbn -[Datetime.parse_digits zero_pad Z.eqb]. rewrite append_cons, append_nil_l.
  rewrite decide_True by done.
  rewrite parse_zero_pad by (simpl; lia).
  cbn -[Datetime.parse_digits zero_pad Z.eqb].
  destruct (Z.eqb_spec us 0) as [->|Hne]; [done|].
  rewrite append_cons, append_nil_l. rewrite decide_True by done.
  rewrite decide_True by (apply length_zero_pad; simpl; lia).
  rewrite <- (append_nil_r (zero_pad 6 us)).
  by rewrite parse_zero_pad by (simpl; lia).
Qed.

Lemma string_forall_format_clock P h m s us :
  (∀ c, is_digit c = true → P c = true) → P ":"%char = true → P "."%char = true →
  0 ≤ h < 100 → 0 ≤ m < 100 → 0 ≤ s < 100 → 0 ≤ us < 1000000 →
  string_forall P (Datetime.format_clock h m s us) = true.
Proof.
  intros HP Hcolon Hdot Hh Hm Hs Hus. unfold Datetime.format_clock.
  rewrite !string_forall_append.
  rewrite !string_forall_zero_pad by (done || simpl; lia).
  destruct (us =? 0); rewrite ?string_forall_append,
    ?string_forall_zero_pad by (done || simpl; lia); simpl; by rewrite ?Hcolon, ?Hdot.
Qed.

(** The fields of an offset below one day, as [format_offset] splits it. *)
Lemma offset_fields a :
  0 ≤ a < Datetime.day_us →
  let us := a mod 1000000 in
  let secs := a / 1000000 in
  let h := secs / 3600 in
  let m := (secs mod 3600) / 60 in
  let s := secs mod 60 in
  0 ≤ h < 100 ∧ 0 ≤ m < 100 ∧ 0 ≤ s < 100 ∧ 0 ≤ us < 1000000 ∧
  (h * 3600 + m * 60 + s) * 1000000 + us = a.
Proof.
  unfold Datetime.day_us. intros Ha. cbv zeta. Z.div_mod_to_equations. lia.
Qed.

Lemma split_format_offset off :
  (Datetime.split_offset (Datetime.format_offset off)).1 = "".
Proof.
  unfold Datetime.format_offset. cbv zeta.
  by destruct (off <? 0); rewrite append_cons, append_nil_l.
Qed.

Lemma length_format_clock h m s us :
  0 ≤ h < 100 → 0 ≤ m < 100 → 0 ≤ s < 100 → 0 ≤ us < 1000000 →
  String.length (Datetime.format_clock h m s us) = if us =? 0 then 8%nat else 15%nat.
Proof.
  intros Hh Hm Hs Hus. unfold Datetime.format_clock.
  rewrite !length_append, !length_zero_pad by (simpl; lia).
  destruct (us =? 0); rewrite ?length_append, ?length_zero_pad by (simpl; lia); done.
Qed.

Lemma parse_format_offset off :
  - Datetime.day_us < off < Datetime.day_us →
  Datetime.parse_offset (Datetime.split_offset (Datetime.format_offset off)).2
  = Some (Some off).
Proof.
  intros Hoff.
  assert (Ha : 0 ≤ Z.abs off < Datetime.day_us) by lia.
  destruct (offset_fields _ Ha) as (Hh & Hm & Hs & Hus & Hsum). cbv zeta in *.
  unfold Datetime.format_offset. cbv zeta.
  set (us := Z.abs off mod 1000000) in *.
  set (secs := Z.abs off / 1000000) in *.
  set (h := secs / 3600) in *. set (m := secs mod 3600 / 60) in *.
  set (s := secs mod 60) in *. clearbody us h m s. clear secs.
  assert (Hparse :
    Datetime.parse_offset
      (Some (off <? 0,
             zero_pad 2 h +:+ ":" +:+ zero_pad 2 m +:+
             (if (s =? 0) && (us =? 0) then ""
              else ":" +:+ zero_pad 2 s +:+ (if us =? 0 then "" else "." +:+ zero_pad 6 us))))
    = Some (Some off)).
  { unfold Datetime.parse_offset.
    destruct ((s =? 0) && (us =? 0)) eqn:Hzero.
    - apply andb_true_iff in Hzero as [Hs0%Z.eqb_eq Hus0%Z.eqb_eq].
      rewrite bool_decide_eq_true_2
        by (rewrite !length_append, !length_zero_pad by (simpl; lia); simpl;
            repeat constructor).
      unfold Datetime.parse_hh_mm_ss_ff.
      rewrite parse_zero_pad by (simpl; lia).
      cbn -[Datetime.parse_digits zero_pad Z.eqb]. rewrite append_cons, append_nil_l.
      rewrite decide_True by done.
      rewrite parse_zero_pad by (simpl; lia).
      cbn -[Datetime.parse_digits zero_pad Z.eqb].
      do 2 f_equal. destruct (Z.ltb_spec off 0); lia.
    - change (zero_pad 2 h +:+ ":" +:+ zero_pad 2 m +:+ ":" +:+ zero_pad 2 s +:+
              (if us =? 0 then "" else "." +:+ zero_pad 6 us))
        with (Datetime.format_clock h m s us).
      rewrite bool_decide_eq_true_2
        by (rewrite length_format_clock by done; destruct (us =? 0); repeat constructor).
      rewrite parse_format_clock by done.
      cbn [mbind option_bind]. do 2 f_equal. destruct (Z.ltb_spec off 0); lia. }
  destruct (off <? 0); rewrite append_cons, append_nil_l; exact Hparse.
Qed.

Lemma days_in_month_le y m : Datetime.days_in_month y m ≤ 31.
Proof. unfold Datetime.days_in_month. repeat case_match; lia. Qed.

(** The ranges [valid] checks. *)
Lemma valid_fields d :
  Datetime.valid d = true →
  1 ≤ Datetime.year d ≤ 9999 ∧ 1 ≤ Datetime.month d ≤ 12 ∧ 1 ≤ Datetime.day d ≤ 31 ∧
  0 ≤ Datetime.hour d ≤ 23 ∧ 0 ≤ Datetime.minute d ≤ 59 ∧
  0 ≤ Datetime.second d ≤ 59 ∧ 0 ≤ Datetime.microsecond d ≤ 999999 ∧
  ∀ off, Datetime.tzinfo d = Some off → - Datetime.day_us < off < Datetime.day_us.
Proof.
  unfold Datetime.valid, Datetime.between. intros H.
  repeat (apply andb_true_iff in H as [H ?]).
  pose proof (days_in_month_le (Datetime.year d) (Datetime.month d)).
  do 7 (split; [lia|]).
  intros off Hoff. rewrite Hoff in *.
  match goal with Hx : _ && _ = true |- _ => apply andb_true_iff in Hx as [? ?] end.
  lia.
Qed.

Lemma fromisoformat_valid s d : Datetime.fromisoformat s = Some d → Datetime.valid d = true.
Proof.
  unfold Datetime.fromisoformat. intros H.
  repeat match type of H with
         | (?m ≫= _) = Some _ => destruct m as [[? ?]|]; simpl in H; [|discriminate]
         | (?m ≫= _) = Some _ => destruct m as [?|]; simpl in H; [|discriminate]
         end.
  destruct (Datetime.valid _) eqn:Hv; [|discriminate]. by injection H as <-.
Qed.

(** Round trip: the text [isoformat] writes for a valid datetime is read
    back by [fromisoformat] as the same datetime. *)
Lemma fromisoformat_isoformat d :
  Datetime.valid d = true → Datetime.fromisoformat (Datetime.isoformat d) = Some d.
Proof.
  intros Hv. destruct (valid_fields d Hv) as (Hy & Hmo & Hd & Hh & Hmi & Hs & Hus & Htz).
  destruct d as [y mo dd h mi s us tz].
  cbn [Datetime.year Datetime.month Datetime.day Datetime.hour Datetime.minute
       Datetime.second Datetime.microsecond Datetime.tzinfo] in *.
  unfold Datetime.fromisoformat, Datetime.isoformat, Datetime.isoformat_sep,
    Datetime.format_date.
  cbn [Datetime.year Datetime.month Datetime.day Datetime.hour Datetime.minute
       Datetime.second Datetime.microsecond Datetime.tzinfo].
  rewrite !append_assoc.
  rewrite parse_zero_pad by (simpl; lia).
  cbn -[Datetime.parse_digits zero_pad Datetime.parse_hh_mm_ss_ff Datetime.split_offset
        Datetime.parse_offset Datetime.valid Datetime.format_clock
        Datetime.format_offset].
  rewrite append_cons, append_nil_l. unfold Datetime.expect.
  rewrite decide_True by done.
  cbn -[Datetime.parse_digits zero_pad Datetime.parse_hh_mm_ss_ff Datetime.split_offset
        Datetime.parse_offset Datetime.valid Datetime.format_clock
        Datetime.format_offset].
  rewrite parse_zero_pad by (simpl; lia).
  cbn -[Datetime.parse_digits zero_pad Datetime.parse_hh_mm_ss_ff Datetime.split_offset
        Datetime.parse_offset Datetime.valid Datetime.format_clock
        Datetime.format_offset].
  rewrite append_cons, append_nil_l. rewrite decide_True by done.
  cbn -[Datetime.parse_digits zero_pad Datetime.parse_hh_mm_ss_ff Datetime.split_offset
        Datetime.parse_offset Datetime.valid Datetime.format_clock
        Datetime.format_offset].
  rewrite parse_zero_pad by (simpl; lia).
  cbn -[Datetime.parse_digits zero_pad Datetime.parse_hh_mm_ss_ff Datetime.split_offset
        Datetime.parse_offset Datetime.valid Datetime.format_clock
        Datetime.format_offset].
  rewrite append_cons, append_nil_l.
  rewrite split_offset_append
    by (apply string_forall_format_clock; (done || lia || apply digit_not_sign)).
  destruct tz as [off|].
  - rewrite split_format_offset, append_nil_r.
    rewrite parse_format_clock by lia.
    cbn -[Datetime.parse_digits zero_pad Datetime.parse_hh_mm_ss_ff Datetime.split_offset
          Datetime.parse_offset Datetime.valid Datetime.format_clock
          Datetime.format_offset].
    rewrite parse_format_offset by (by apply Htz).
    cbn -[Datetime.valid]. by rewrite Hv.
  - cbn -[Datetime.parse_digits zero_pad Datetime.parse_hh_mm_ss_ff Datetime.valid
          Datetime.format_clock].
    rewrite append_nil_r, parse_format_clock by lia.
    cbn -[Datetime.valid]. by rewrite Hv.
Qed.

Lemma string_forall_format_offset P off :
  (∀ c, is_digit c = true → P c = true) →
  P ":"%char = true → P "."%char = true → P "+"%char = true → P "-"%char = true →
  - Datetime.day_us < off < Datetime.day_us →
  string_forall P (Datetime.format_offset off) = true.
Proof.
  intros HP Hcolon Hdot Hplus Hminus Hoff.
  assert (Ha : 0 ≤ Z.abs off < Datetime.day_us) by lia.
  destruct (offset_fields _ Ha) as (Hh & Hm & Hs & Hus & _). cbv zeta in *.
  unfold Datetime.format_offset. cbv zeta.
  set (us := Z.abs off mod 1000000) in *.
  set (secs := Z.abs off / 1000000) in *.
  set (h := secs / 3600) in *. set (m := secs mod 3600 / 60) in *.
  set (s := secs mod 60) in *. clearbody us h m s. clear secs.
  assert (Htail : string_forall P
            (if (s =? 0) && (us =? 0) then ""
             else ":" +:+ zero_pad 2 s +:+ (if us =? 0 then "" else "." +:+ zero_pad 6 us))
          = true).
  { destruct ((s =? 0) && (us =? 0)); [done|].
    rewrite !string_forall_append, string_forall_zero_pad by (done || simpl; lia).
    destruct (us =? 0);
      rewrite ?string_forall_append, ?string_forall_zero_pad by (done || simpl; lia);
      simpl; by rewrite ?Hcolon, ?Hdot. }
  rewrite !string_forall_append, Htail.
  rewrite !string_forall_zero_pad by (done || simpl; lia).
  destruct (off <? 0); simpl; by rewrite ?Hcolon, ?Hplus, ?Hminus.
Qed.

Lemma isoformat_no_Z d :
  Datetime.valid d = true → replace_Z (Datetime.isoformat d) = Datetime.isoformat d.
Proof.
  intros Hv. destruct (valid_fields d Hv) as (Hy & Hmo & Hd & Hh & Hmi & Hs & Hus & Htz).
  apply replace_Z_id.
  unfold Datetime.isoformat, Datetime.isoformat_sep, Datetime.format_date.
  rewrite !string_forall_append.
  rewrite !string_forall_zero_pad by (apply digit_not_Z || (simpl; lia)).
  rewrite string_forall_format_clock by (done || lia || apply digit_not_Z).
  destruct (Datetime.tzinfo d) as [off|] eqn:Hoff; [|done].
  by rewrite string_forall_format_offset by (done || apply digit_not_Z || by apply Htz).
Qed.

(** A slot stored in normal form parses again, to the same datetime. *)
Lemma parse_slot_isoformat d :
  Datetime.valid d = true → parse_slot (VStr (Datetime.isoformat d)) = Ok d.
Proof.
  intros Hv. unfold parse_slot, py_replace_Z. simpl.
  rewrite isoformat_no_Z by done. unfold py_fromisoformat.
  by rewrite fromisoformat_isoformat.
Qed.

Lemma parse_slot_valid v d : parse_slot v = Ok d → Datetime.valid d = true.
Proof.
  unfold parse_slot, py_replace_Z, py_fromisoformat. destruct v; try done. simpl.
  destruct (Datetime.fromisoformat _) eqn:H; [|done].
  intros [= <-]. by eapply fromisoformat_valid.
Qed.

(** ** Availability *)

Lemma elem_of_range a b i : i ∈ range a b ↔ a ≤ i < b.
Proof.
  unfold range. rewrite list_elem_of_fmap. split.
  - intros (k & -> & Hk%elem_of_seq). lia.
  - intros Hi. exists (Z.to_nat (i - a)). split; [lia|]. apply elem_of_seq. lia.
Qed.

Lemma py_eq_VStr_l s v : py_eq (VStr s) v = true ↔ v = VStr s.
Proof.
  destruct v; simpl; try (split; done).
  rewrite bool_decide_eq_true. split; congruence.
Qed.

Lemma py_in_VStr s l : py_in (VStr s) l = true ↔ VStr s ∈ l.
Proof.
  unfold py_in. rewrite existsb_exists. split.
  - intros (v & Hv & ->%py_eq_VStr_l). by apply list_elem_of_In.
  - intros Hin. exists (VStr s). split; [by apply list_elem_of_In|]. by apply py_eq_VStr_l.
Qed.

Lemma available_loop_run start_slot start_dt booked hours acc :
  parse_slot start_slot = Ok start_dt →
  Forall (λ i, 0 ≤ i ≤ 23) hours →
  available_loop start_slot booked hours acc =
    Ok (acc ++ (VStr <$> filter (λ s, negb (py_in (VStr s) booked))
                           (hour_slot start_dt <$> hours))).
Proof.
  intros Hparse Hhours. revert acc.
  induction Hhours as [|i hours Hi _ IH]; intros acc.
  - simpl. by rewrite app_nil_r.
  - cbn [available_loop]. rewrite Hparse. cbn [mbind outcome_bind].
    unfold py_replace_hour, Datetime.replace_hour, Datetime.between.
    destruct (Z.leb_spec 0 i), (Z.leb_spec i 23); try lia.
    cbn [andb mbind outcome_bind].
    rewrite IH. fold (hour_slot start_dt i). rewrite fmap_cons.
    destruct (py_in (VStr (hour_slot start_dt i)) booked) eqn:Hin.
    + rewrite filter_cons_False by (rewrite Hin; by intros ?). done.
    + rewrite filter_cons_True by (by rewrite Hin). by rewrite fmap_cons, <- app_assoc.
Qed.



(** ** Creating a booking and reading the latest one *)

Lemma key_string_VStr s : key_string (VStr s) = Ok s.
Proof. reflexivity. Qed.

Lemma dget_here k v d : dget k ((k, v) :: d) = Some v.
Proof. simpl. by rewrite decide_True. Qed.

Lemma dget_next k k' v d : k ≠ k' → dget k ((k', v) :: d) = dget k d.
Proof. intros Hne. simpl. by rewrite decide_False. Qed.

Ltac dget_simpl :=
  unfold get, get_or;
  repeat first [rewrite dget_here | rewrite dget_next by done];
  cbn [default from_option id].

Lemma check_item_booking w cid tid params slot_dt :
  get "tradesPersonId" params = VStr tid →
  check_item Bookings (booking_record w (VStr cid) params slot_dt) = Ok (new_booking_id w).
Proof.
  intros Htid. unfold check_item, booking_record. rewrite Htid.
  cbn [primary_key index_keys forallb]. dget_simpl.
  cbn [key_string mbind outcome_bind]. by rewrite decide_False.
Qed.

Lemma create_booking_run n w cid tid params slot_dt :
  get "tradesPersonId" params = VStr tid →
  parse_slot (get "slot" params) = Ok slot_dt →
  calm (S (S n)) w = true →
  create_booking (VStr cid) params w =
    (Ok (result 200
           [("message", VStr "Booking created successfully");
            ("bookingId", VStr (new_booking_id w));
            ("tradesPersonName",
             get_or "name" (VStr "Unknown") (default [] (tradesperson_table w !! tid)));
            ("slot", get "slot" params);
            ("description", get "description" params)]),
     tick (set_rows Bookings
             (<[new_booking_id w := booking_record w (VStr cid) params slot_dt]>
                (bookings_table w)) (tick w))).
Proof.
  intros Htid Hslot Hcalm. destruct (calm_S _ _ Hcalm) as [_ Hcalm1].
  unfold create_booking. cbv zeta. unfold reads at 1. rewrite bind_run. cbv beta iota.
  rewrite Hslot. mrun.
  erewrite bind_Ok
    by (eapply put_item_calm;
        [exact Hcalm | by apply (check_item_booking w cid tid params slot_dt)]).
  erewrite bind_Ok
    by (eapply get_item_calm;
        [by rewrite calm_set_rows | rewrite Htid; apply (key_of_string Tradespersons)]).
  reflexivity.
Qed.

Lemma filter_none {A} (P : A → Prop) `{∀ x, Decision (P x)} (l : list A) :
  Forall (λ x, ¬ P x) l → filter P l = [].
Proof.
  induction 1 as [|x l Hx _ IH]; [done|]. by rewrite filter_cons_False.
Qed.

(** When the only booking of [cid] in the table is the one just put, the
    customer index returns exactly that one, whatever its order. *)
Lemma customer_index_single (m : gmap string dict) bid booking cid :
  attr_is "customerId" cid booking = true →
  (∀ k b, m !! k = Some b → attr_is "customerId" cid b = true → k = bid) →
  filter (λ item, attr_is "customerId" cid item) (map_to_list (<[bid := booking]> m)).*2
  = [booking].
Proof.
  intros Hown Hothers. apply Permutation_singleton_r.
  rewrite <- insert_delete_eq.
  rewrite map_to_list_insert by apply lookup_delete_eq.
  rewrite fmap_cons. cbn [snd]. rewrite filter_cons_True by (by rewrite Hown).
  rewrite filter_none; [done|].
  apply Forall_fmap, list.Forall_forall. intros [k b] Hkb. cbn [snd compose].
  apply elem_of_map_to_list, lookup_delete_Some in Hkb as [Hne Hkb].
  intros Hb%Is_true_true. by apply Hne, eq_sym, (Hothers k b).
Qed.

Lemma query_CustomerIdIndex_calm n w cid :
  calm (S n) w = true →
  query_CustomerIdIndex (VStr cid) w =
    (Ok (filter (λ item, attr_is "customerId" cid item) (scan Bookings w)), tick w).
Proof.
  intros Hc. unfold query_CustomerIdIndex.
  erewrite bind_Ok by (by eapply store_call_calm).
  rewrite key_string_VStr. mrun. unfold reads, scan. by rewrite rows_tick.
Qed.

(** C8, as the code has it. For an identity with no other booking on
    record, creating a booking and then asking for the latest one returns
    status 200 and the view of that booking: its id, the tradesperson's name
    and trade (or "Unknown"), the description, and the date and time of the
    slot written as [YYYY-MM-DD HH:MM:SS]. *)
Theorem latest_booking_after_create (w : world) (cid tid : string) (params : dict)
    (slot_dt : Datetime.datetime) :
  get "tradesPersonId" params = VStr tid →
  parse_slot (get "slot" params) = Ok slot_dt →
  calm 4 w = true →
  (∀ k b, bookings_table w !! k = Some b → attr_is "customerId" cid b = true →
          k = new_booking_id w) →
  let details := default [] (tradesperson_table w !! tid) in
  ∃ w1 w2,
    create_booking (VStr cid) params w =
      (Ok (result 200
             [("message", VStr "Booking created successfully");
              ("bookingId", VStr (new_booking_id w));
              ("tradesPersonName", get_or "name" (VStr "Unknown") details);
              ("slot", get "slot" params);
              ("description", get "description" params)]), w1) ∧
    bookings_table w1 !! new_booking_id w
      = Some (booking_record w (VStr cid) params slot_dt) ∧
    get_latest_booking (VStr cid) w1 =
      (Ok (result 200
             [("booking",
               VDict [("bookingId", VStr (new_booking_id w));
                      ("tradesPersonName", get_or "name" (VStr "Unknown") details);
                      ("tradesPersonTrade", get_or "trade" (VStr "Unknown") details);
                      ("bookingDateTime",
                       VStr (Datetime.strftime slot_dt "%Y-%m-%d %H:%M:%S"));
                      ("description", get "description" params)])]), w2).
Proof.
  intros Htid Hslot Hcalm Hothers details.
  pose proof (parse_slot_valid _ _ Hslot) as Hv.
  eexists _, _. split; [by eapply create_booking_run|]. split.
  - simpl. apply lookup_insert_eq.
  - set (w1 := tick (set_rows Bookings _ (tick w))).
    assert (Hcalm1 : calm 2 w1 = true).
    { unfold w1. destruct (calm_S _ _ Hcalm) as [_ H3].
      rewrite <- (calm_set_rows 3 Bookings
        (<[new_booking_id w := booking_record w (VStr cid) params slot_dt]>
           (bookings_table w))) in H3.
      by destruct (calm_S _ _ H3) as [_ H2]. }
    unfold get_latest_booking.
    erewrite bind_Ok by (by eapply query_CustomerIdIndex_calm).
    unfold scan, w1. rewrite rows_tick, rows_set_rows.
    rewrite customer_index_single;
      [|unfold booking_record, attr_is; dget_simpl; by rewrite bool_decide_eq_true_2
       |exact Hothers].
    destruct (calm_S _ _ Hcalm1) as [_ Hcalm2].
    unfold booking_record. rewrite Htid. dget_simpl.
    erewrite bind_Ok
      by (eapply get_item_calm; [exact Hcalm2 | apply (key_of_string Tradespersons)]).
    rewrite parse_slot_isoformat by done. mrun.
    unfold w1. rewrite !rows_tick. reflexivity.
Qed.

(** ** Concrete runs *)


(** The query compares the stored slot texts with the bounds as the request
    gave them. With [Z]-suffixed bounds the stored text of the 09:00 booking,
    which ends in [+00:00], sorts below the lower bound: the query returns
    the 11:00 booking only, and 09:00 is listed. *)
Example availability_with_Z_bounds :
  query_TradesPersonIdIndex (VStr "tp1") (VStr "2024-01-15T09:00:00Z")
    (VStr "2024-01-15T12:00:00Z") two_bookings_utc
  = (Ok [booking_at "b00011" "777" "2024-01-15T11:00:00+00:00"], tick two_bookings_utc) ∧
  check_availability morning_utc two_bookings_utc =
    (Ok (result 200
           [("availableTimeSlots",
             VList [VStr "2024-01-15T09:00:00+00:00"; VStr "2024-01-15T10:00:00+00:00"])]),
     tick two_bookings_utc).
Proof. split; vm_compute; reflexivity. Qed.

Lemma uncaught_fault_is_500_witness :
  handler (request "/get-customer-details" "555" []) failing_store =
    (handler_except (request "/get-customer-details" "555" []), tick failing_store).
Proof.
  apply (uncaught_fault_is_500 _ failing_store (tick failing_store) ClientError).
  right. exists (VStr "555"), []. split; [reflexivity|]. split; [vm_compute; reflexivity|].
  right. exists "/get-customer-details", (get_customer_details (VStr "555")).
  split; [reflexivity|]. split; [reflexivity|]. vm_compute. reflexivity.
Defined.

Lemma unsupported_operation_witness :
  dispatch (VStr "/delete-everything") (VStr "555") [] two_bookings =
    (Ok (VDict [("error", VStr "Unsupported operation: /delete-everything")], VNum 400, []),
     two_bookings).
Proof.
  apply (unsupported_operation (VStr "/delete-everything") (VStr "555") [] two_bookings).
  intros p Hp [= <-]. revert Hp. vm_compute. intros Hp.
  repeat (apply elem_of_cons in Hp as [Hp|Hp]; [discriminate|]).
  by apply elem_of_nil in Hp.
Defined.

Lemma update_booking_refused_witness :
  update_booking (VStr "777") [("bookingId", VStr "b00009"); ("slot", VStr "2024-01-16T10:00:00")]
    two_bookings =
    (Ok (result 403 [("error", VStr "Not authorized to update this booking")]),
     tick two_bookings) ∧
  bookings_table (tick two_bookings) = bookings_table two_bookings.
Proof.
  destruct (update_booking_refused two_bookings (VStr "777")
              [("bookingId", VStr "b00009"); ("slot", VStr "2024-01-16T10:00:00")] "b00009")
    as (Hforbidden & _ & _ & _ & Hsame); [reflexivity | reflexivity |].
  split; [|exact Hsame].
  apply (Hforbidden (booking_at "b00009" "555" "2024-01-15T09:00:00"));
    vm_compute; reflexivity.
Defined.

Lemma customer_details_after_registration_witness :
  ∃ registered w1 w2 prompt,
    handler (request "/register-customer" "555"
               [property "name" "Jane"; property "city" "Austin"]) fresh_store
      = (registered, w1) ∧
    handler (request "/get-customer-details" "555" []) w1 =
      (api_response
         (action_response (request "/get-customer-details" "555" []) (VNum 200)
            (VDict [("customer",
                     VDict [("customerId", VStr "555"); ("name", VStr "Jane");
                            ("city", VStr "Austin")])]))
         (VDict [("phone-number", VStr "555")])
         (VDict prompt), w2) ∧
    dget "customerName" prompt = Some (VStr "Jane") ∧
    dget "customerCity" prompt = Some (VStr "Austin").
Proof.
  apply (customer_details_after_registration fresh_store "555" (VStr "Jane") (VStr "Austin")
           (request "/register-customer" "555"
              [property "name" "Jane"; property "city" "Austin"])
           (request "/get-customer-details" "555" [])
           [("name", VStr "Jane"); ("city", VStr "Austin")] [] [] []);
    first [done | reflexivity | repeat split; vm_compute; reflexivity].
Defined.

Lemma cancel_booking_removes_witness :
  ∃ w',
    cancel_booking [("bookingId", VStr "b00009")] two_bookings =
      (Ok (result 200
             (cancelled_body (booking_at "b00009" "555" "2024-01-15T09:00:00") bob)), w') ∧
    bookings_table w' !! "b00009" = None.
Proof.
  destruct (cancel_booking_removes two_bookings [("bookingId", VStr "b00009")] "b00009")
    as [Hfound _]; [reflexivity |].
  destruct (Hfound (booking_at "b00009" "555" "2024-01-15T09:00:00") "tp1")
    as (w' & Hrun & _ & Hgone & _); [vm_compute; reflexivity..|].
  exists w'. split; [exact Hrun | exact Hgone].
Defined.

Lemma latest_booking_after_create_witness :
  ∃ w1 w2,
    create_booking (VStr "555") leak_booking fresh_store =
      (Ok (result 200
             [("message", VStr "Booking created successfully");
              ("bookingId", VStr "b75400");
              ("tradesPersonName", VStr "Bob");
              ("slot", VStr "2024-01-20T14:00:00Z");
              ("description", VStr "leaking tap")]), w1) ∧
    get_latest_booking (VStr "555") w1 =
      (Ok (result 200
             [("booking",
               VDict [("bookingId", VStr "b75400");
                      ("tradesPersonName", VStr "Bob");
                      ("tradesPersonTrade", VStr "plumber");
                      ("bookingDateTime", VStr "2024-01-20 14:00:00");
                      ("description", VStr "leaking tap")])]), w2).
Proof.
  destruct (latest_booking_after_create fresh_store "555" "tp1" leak_booking
              (Datetime.mk_datetime 2024 1 20 14 0 0 0 (Some 0)))
    as (w1 & w2 & Hcreate & _ & Hlatest);
    [reflexivity | vm_compute; reflexivity | reflexivity | |].
  - intros k b Hk. change (bookings_table fresh_store) with (∅ : gmap string dict) in Hk.
    by rewrite lookup_empty in Hk.
  - exists w1, w2. split; [exact Hcreate | exact Hlatest].
Defined.

Lemma register_customer_last_write_wins_witness :
  ∃ w1 w2,
    register_customer (VStr "555") [("name", VStr "Jane"); ("city", VStr "Austin")] fresh_store
      = (Ok (result 200 [("message", VStr "Customer registered successfully");
                         ("name", VStr "Jane"); ("city", VStr "Austin")]), w1) ∧
    register_customer (VStr "555") [("name", VStr "Jane"); ("city", VStr "Dallas")] w1
      = (Ok (result 200 [("message", VStr "Customer registered successfully");
                         ("name", VStr "Jane"); ("city", VStr "Dallas")]), w2) ∧
    customers_table w2 !! "555"
      = Some [("customerId", VStr "555"); ("name", VStr "Jane"); ("city", VStr "Dallas")].
Proof.
  destruct (register_customer_last_write_wins fresh_store "555"
              [("name", VStr "Jane"); ("city", VStr "Austin")]
              [("name", VStr "Jane"); ("city", VStr "Dallas")])
    as (w1 & w2 & H1 & _ & H2 & _ & Hlast & _); [discriminate | reflexivity |].
  exists w1, w2. split; [exact H1|]. split; [exact H2 | exact Hlast].
Defined.

(** The store refuses the empty string as a key: a registration under the
    empty identity is answered 500 and nothing is stored. *)
Example register_customer_empty_identity :
  handler (request "/register-customer" ""
             [property "name" "Jane"; property "city" "Austin"]) fresh_store =
    (handler_except
       (request "/register-customer" ""
          [property "name" "Jane"; property "city" "Austin"]), tick fresh_store) ∧
  customers_table (tick fresh_store) = ∅.
Proof. split; vm_compute; reflexivity. Qed.

Lemma missing_parameter_is_500_witness :
  handler (request "/search-trades-persons" "555" [property "trade" "Plumber"]) fresh_store =
    (handler_except (request "/search-trades-persons" "555" [property "trade" "Plumber"]),
     fresh_store).
Proof.
  apply (missing_parameter_is_500 _ fresh_store [("trade", VStr "Plumber")]);
    [vm_compute; reflexivity|].
  left. split; [reflexivity|]. right. reflexivity.
Defined.

(** C8, as the claim states it, fails twice over. With an earlier booking
    of the same customer on record, the latest booking returned after a
    create is the earlier one, not the one created. And with no other
    booking, the view of the created booking carries the slot as
    [2024-01-20 14:00:00], while the normalized slot that was stored is
    [2024-01-20T14:00:00+00:00]. *)
Lemma latest_booking_counterexample :
  (create_booking (VStr "555") leak_booking earlier_booking).1 =
    Ok (result 200
          [("message", VStr "Booking created successfully");
           ("bookingId", VStr "b75400");
           ("tradesPersonName", VStr "Bob");
           ("slot", VStr "2024-01-20T14:00:00Z");
           ("description", VStr "leaking tap")]) ∧
  (get_latest_booking (VStr "555")
     (create_booking (VStr "555") leak_booking earlier_booking).2).1 =
    Ok (result 200
          [("booking",
            VDict [("bookingId", VStr "b75399");
                   ("tradesPersonName", VStr "Bob");
                   ("tradesPersonTrade", VStr "plumber");
                   ("bookingDateTime", VStr "2024-01-15 09:00:00");
                   ("description", VStr "earlier job")])]) ∧
  get "slot" <$>
    bookings_table (create_booking (VStr "555") leak_booking fresh_store).2 !! "b75400"
    = Some (VStr "2024-01-20T14:00:00+00:00") ∧
  (get_latest_booking (VStr "555")
     (create_booking (VStr "555") leak_booking fresh_store).2).1 =
    Ok (result 200
          [("booking",
            VDict [("bookingId", VStr "b75400");
                   ("tradesPersonName", VStr "Bob");
                   ("tradesPersonTrade", VStr "plumber");
                   ("bookingDateTime", VStr "2024-01-20 14:00:00");
                   ("description", VStr "leaking tap")])]).
Proof. repeat split; vm_compute; reflexivity. Qed.

(** ** What each operation may write *)

Lemma keeps_ret {A} t (a : A) : keeps t (mret a).
Proof. by intros w r w' [= _ <-]. Qed.

Lemma keeps_lift {A} t (o : outcome A) : keeps t (lift o).
Proof. by intros w r w' [= _ <-]. Qed.

Lemma keeps_reads {A} t (f : world → A) : keeps t (reads f).
Proof. by intros w r w' [= _ <-]. Qed.

Lemma keeps_bind {A B} t (m : M A) (f : A → M B) :
  keeps t m → (∀ a, keeps t (f a)) → keeps t (m ≫= f).
Proof.
  intros Hm Hf w r w'. rewrite bind_run.
  destruct (m w) as [[a|e] w1] eqn:Hmw.
  - intros Hfa. rewrite (Hf a _ _ _ Hfa). by eapply Hm.
  - intros [= _ <-]. by eapply Hm.
Qed.

Lemma keeps_store_call t : keeps t store_call.
Proof.
  intros w r w'. unfold store_call.
  destruct (outages w) as [|[] o]; intros [= _ <-]; apply rows_tick.
Qed.

Lemma keeps_modify_other t t' (f : world → gmap string dict) :
  t' ≠ t → keeps t (modify (λ w, set_rows t' (f w) w)).
Proof. intros Hne w r w' [= _ <-]. by apply rows_set_rows_ne. Qed.

Ltac keeps_step :=
  first
    [ apply keeps_ret | apply keeps_lift | apply keeps_reads | apply keeps_store_call
    | apply keeps_modify_other; done
    | apply keeps_bind; [|intros] ].

Lemma keeps_get_item t t' key : keeps t (get_item t' key).
Proof. unfold get_item. repeat keeps_step. Qed.

Lemma keeps_query_TradeIndex t trade city : keeps t (query_TradeIndex trade city).
Proof. unfold query_TradeIndex. repeat keeps_step. Qed.

Lemma keeps_query_TradesPersonIdIndex t id lo hi :
  keeps t (query_TradesPersonIdIndex id lo hi).
Proof. unfold query_TradesPersonIdIndex. repeat (keeps_step || case_match). Qed.

Lemma keeps_query_CustomerIdIndex t id : keeps t (query_CustomerIdIndex id).
Proof. unfold query_CustomerIdIndex. repeat keeps_step. Qed.

Lemma keeps_put_item t t' item : t' ≠ t → keeps t (put_item t' item).
Proof. intros Hne. unfold put_item. repeat keeps_step. Qed.

Lemma keeps_delete_item t t' key : t' ≠ t → keeps t (delete_item t' key).
Proof. intros Hne. unfold delete_item. repeat keeps_step. Qed.

Lemma keeps_update_item_set t t' key attr v :
  t' ≠ t → keeps t (update_item_set t' key attr v).
Proof. intros Hne. unfold update_item_set. repeat (keeps_step || case_match). Qed.

Ltac keeps_op :=
  cbv zeta;
  repeat first
    [ apply keeps_get_item | apply keeps_query_TradeIndex
    | apply keeps_query_TradesPersonIdIndex | apply keeps_query_CustomerIdIndex
    | apply keeps_put_item; done | apply keeps_delete_item; done
    | apply keeps_update_item_set; done
    | keeps_step | case_match ].

Lemma keeps_get_current_date_time t : keeps t get_current_date_time.
Proof. unfold get_current_date_time. keeps_op. Qed.

Lemma keeps_get_customer_details t cid : keeps t (get_customer_details cid).
Proof. unfold get_customer_details. keeps_op. Qed.

Lemma keeps_search_trades_persons t params : keeps t (search_trades_persons params).
Proof. unfold search_trades_persons. keeps_op. Qed.

Lemma keeps_check_availability t params : keeps t (check_availability params).
Proof. unfold check_availability. keeps_op. Qed.

Lemma keeps_get_latest_booking t cid : keeps t (get_latest_booking cid).
Proof. unfold get_latest_booking. keeps_op. Qed.

Lemma keeps_register_customer t cid params :
  t ≠ Customers → keeps t (register_customer cid params).
Proof. intros Hne. unfold register_customer. keeps_op. Qed.

Lemma keeps_create_booking t cid params :
  t ≠ Bookings → keeps t (create_booking cid params).
Proof. intros Hne. unfold create_booking. keeps_op. Qed.

Lemma keeps_cancel_booking t params : t ≠ Bookings → keeps t (cancel_booking params).
Proof. intros Hne. unfold cancel_booking. keeps_op. Qed.

Lemma keeps_update_booking t cid params :
  t ≠ Bookings → keeps t (update_booking cid params).
Proof. intros Hne. unfold update_booking. keeps_op. Qed.

Lemma keeps_dispatch t api_path customer_id post_params :
  (t = Customers → api_path ≠ VStr "/register-customer") →
  (t = Bookings → ∀ p, p ∈ booking_writers → api_path ≠ VStr p) →
  keeps t (dispatch api_path customer_id post_params).
Proof.
  intros Hcust Hbook. unfold dispatch.
  repeat match goal with
         | |- context [py_eq api_path (VStr ?p)] =>
             destruct (py_eq api_path (VStr p)) eqn:?
         end;
    repeat match goal with
           | H : py_eq _ (VStr _) = true |- _ => apply py_eq_VStr in H
           end.
  all: try (apply keeps_bind; [|intros; keeps_op]).
  all: try apply keeps_ret.
  - apply keeps_get_current_date_time.
  - apply keeps_get_customer_details.
  - apply keeps_register_customer. intros ->. by apply Hcust.
  - apply keeps_search_trades_persons.
  - apply keeps_check_availability.
  - apply keeps_create_booking. intros ->. eapply Hbook; [done| |done].
    unfold booking_writers. repeat constructor.
  - apply keeps_get_latest_booking.
  - apply keeps_cancel_booking. intros ->. eapply Hbook; [done| |done].
    unfold booking_writers. repeat constructor.
  - apply keeps_update_booking. intros ->. eapply Hbook; [done| |done].
    unfold booking_writers. repeat constructor.
Qed.

Lemma keeps_handler_try t event :
  (t = Customers → get "apiPath" event ≠ VStr "/register-customer") →
  (t = Bookings → ∀ p, p ∈ booking_writers → get "apiPath" event ≠ VStr p) →
  keeps t (handler_try event).
Proof.
  intros Hcust Hbook. unfold handler_try. cbv zeta.
  apply keeps_bind; [apply keeps_lift|]. intros cid.
  apply keeps_bind; [apply keeps_lift|]. intros ps.
  apply keeps_bind; [by apply keeps_dispatch|]. intros [[rb st] additional].
  keeps_op.
Qed.

(** X1. The write footprint of the handler, on every path and whether the
    store answers or fails. The tradespeople table is never written. The
    customers table is written by register-customer only. The bookings table
    is written by create-booking, cancel-booking and update-booking only. *)
Theorem handler_write_footprint (event : dict) (w : world) :
  tradesperson_table (handler event w).2 = tradesperson_table w ∧
  (get "apiPath" event ≠ VStr "/register-customer" →
   customers_table (handler event w).2 = customers_table w) ∧
  ((∀ p, p ∈ booking_writers → get "apiPath" event ≠ VStr p) →
   bookings_table (handler event w).2 = bookings_table w).
Proof.
  assert (Hfinal : ∀ t, keeps t (handler_try event) →
            rows t (handler event w).2 = rows t w).
  { intros t Hk. unfold handler.
    destruct (handler_try event w) as [[r|e] w'] eqn:Htry; simpl; by eapply Hk. }
  split; [|split].
  - apply (Hfinal Tradespersons). by apply keeps_handler_try.
  - intros Hpath. apply (Hfinal Customers). by apply keeps_handler_try.
  - intros Hpath. apply (Hfinal Bookings). by apply keeps_handler_try.
Qed.

(** ** Updating a booking as its owner *)

Lemma update_item_set_slot_calm n w bid (s : string) :
  calm (S n) w = true →
  update_item_set Bookings [("bookingId", VStr bid)] "slot" (VStr s) w =
    (Ok (),
     set_rows Bookings
       (<[bid := dset "slot" (VStr s)
                   (default [("bookingId", VStr bid)] (bookings_table w !! bid))]>
          (bookings_table w)) (tick w)).
Proof.
  intros Hc. unfold update_item_set.
  erewrite bind_Ok by (by eapply store_call_calm).
  rewrite (key_of_string Bookings). mrun.
  rewrite bool_decide_eq_true_2 by (unfold index_keys; repeat constructor).
  rewrite bind_run. cbn [key_string]. mrun.
  change ((mret () : M ()) (tick w)) with (Ok (), tick w). cbv beta iota.
  unfold modify. by rewrite rows_tick.
Qed.

Lemma update_booking_run n w customer_id params bid tid booking slot_dt :
  get "bookingId" params = VStr bid →
  bookings_table w !! bid = Some booking →
  py_eq (get "customerId" booking) customer_id = true →
  parse_slot (get "slot" params) = Ok slot_dt →
  key_string (get "tradesPersonId" booking) = Ok tid →
  calm (S (S (S n))) w = true →
  ∃ w',
    update_booking customer_id params w =
      (Ok (result 200
             [("message", VStr "Booking updated successfully");
              ("bookingId", VStr bid);
              ("tradesPersonName",
               get_or "name" (VStr "Unknown") (default [] (tradesperson_table w !! tid)));
              ("oldSlot", get "slot" booking);
              ("newSlot", VStr (Datetime.isoformat slot_dt));
              ("description", get "description" booking)]), w') ∧
    bookings_table w' =
      <[bid := dset "slot" (VStr (Datetime.isoformat slot_dt)) booking]> (bookings_table w) ∧
    customers_table w' = customers_table w ∧
    tradesperson_table w' = tradesperson_table w ∧
    calm n w' = true.
Proof.
  intros Hbid Hb Hown Hslot Htid Hc.
  destruct (calm_S _ _ Hc) as [_ Hc2]. destruct (calm_S _ _ Hc2) as [_ Hc1].
  destruct (calm_S _ _ Hc1) as [_ Hc0].
  eexists. split; [|split; [|split; [|split]]].
  - unfold update_booking. cbv zeta. rewrite Hbid.
    erewrite bind_Ok by (eapply get_item_calm; [exact Hc | apply (key_of_string Bookings)]).
    change (rows Bookings w) with (bookings_table w). rewrite Hb.
    rewrite Hown. cbn [negb]. rewrite Hslot. mrun.
    erewrite bind_Ok by (by eapply update_item_set_slot_calm).
    erewrite bind_Ok
      by (eapply get_item_calm;
          [by rewrite calm_set_rows
          | rewrite (key_of_pk Tradespersons); exact Htid]).
    reflexivity.
  - simpl. by rewrite Hb.
  - reflexivity.
  - reflexivity.
  - eapply calm_S. rewrite calm_set_rows. exact Hc1.
Qed.

(** X2. An update by the booking's owner with a slot that parses answers
    200 with the old slot and the new one in normal form, and writes the new
    slot into the booking: every other attribute of the booking, every other
    booking and the other two tables are as they were. *)
Theorem update_booking_by_owner (w : world) (customer_id : value) (params : dict)
    (bid tid : string) (booking : dict) (slot_dt : Datetime.datetime) :
  get "bookingId" params = VStr bid →
  bookings_table w !! bid = Some booking →
  py_eq (get "customerId" booking) customer_id = true →
  parse_slot (get "slot" params) = Ok slot_dt →
  key_string (get "tradesPersonId" booking) = Ok tid →
  calm 3 w = true →
  let new_slot := VStr (Datetime.isoformat slot_dt) in
  let details := default [] (tradesperson_table w !! tid) in
  ∃ w',
    update_booking customer_id params w =
      (Ok (result 200 [("message", VStr "Booking updated successfully");
                       ("bookingId", VStr bid);
                       ("tradesPersonName", get_or "name" (VStr "Unknown") details);
                       ("oldSlot", get "slot" booking);
                       ("newSlot", new_slot);
                       ("description", get "description" booking)]), w') ∧
    bookings_table w' = <[bid := dset "slot" new_slot booking]> (bookings_table w) ∧
    dget "slot" (dset "slot" new_slot booking) = Some new_slot ∧
    (∀ k, k ≠ "slot" → dget k (dset "slot" new_slot booking) = dget k booking) ∧
    (∀ other, other ≠ bid → bookings_table w' !! other = bookings_table w !! other) ∧
    customers_table w' = customers_table w ∧
    tradesperson_table w' = tradesperson_table w.
Proof.
  intros Hbid Hb Hown Hslot Htid Hc new_slot details.
  destruct (update_booking_run 0 w customer_id params bid tid booking slot_dt
              Hbid Hb Hown Hslot Htid Hc) as (w' & Hrun & Htable & Hcust & Htrades & _).
  exists w'. split; [exact Hrun|]. split; [exact Htable|].
  split; [|split; [|split; [|done]]].
  - rewrite dget_dset. by rewrite decide_True.
  - intros k Hk. rewrite dget_dset. by rewrite decide_False.
  - intros other Hother. rewrite Htable. by rewrite lookup_insert_ne.
Qed.

(** ** Faults in the middle of an operation *)

Lemma delete_item_fault t key w e w' :
  delete_item t key w = (Raise e, w') → ∀ t', rows t' w' = rows t' w.
Proof.
  unfold delete_item. rewrite bind_run.
  destruct (store_call w) as [[[]|e0] w1] eqn:Hcall.
  - pose proof (λ t', keeps_store_call t' _ _ _ Hcall) as Hk.
    destruct (key_of t key); mrun; [discriminate|]. by intros [= _ <-].
  - intros [= _ <-] t'. by eapply keeps_store_call.
Qed.

(** X3. Cancelling is all or nothing: unless [cancel_booking] returns its
    200 result, whether it answers 404 or raises at any point, the three
    tables are as they were. *)
Theorem cancel_booking_all_or_nothing (params : dict) (w w' : world) (r : outcome value) :
  cancel_booking params w = (r, w') →
  (∃ body, r = Ok (result 200 body)) ∨
  (customers_table w' = customers_table w ∧
   tradesperson_table w' = tradesperson_table w ∧
   bookings_table w' = bookings_table w).
Proof.
  assert (Hsame : ∀ w1 w2 : world, (∀ t, rows t w2 = rows t w1) →
            customers_table w2 = customers_table w1 ∧
            tradesperson_table w2 = tradesperson_table w1 ∧
            bookings_table w2 = bookings_table w1).
  { intros w1 w2 H. split; [apply (H Customers)|].
    split; [apply (H Tradespersons) | apply (H Bookings)]. }
  unfold cancel_booking. cbv zeta. rewrite bind_run.
  destruct (get_item Bookings _ w) as [[found|e] w1] eqn:H1;
    pose proof (λ t, keeps_get_item t _ _ _ _ _ H1) as Hk1;
    [|intros [= <- <-]; right; by apply Hsame].
  destruct found as [booking|]; [|intros [= <- <-]; right; by apply Hsame].
  rewrite bind_run.
  destruct (get_item Tradespersons _ w1) as [[details|e] w2] eqn:H2;
    pose proof (λ t, keeps_get_item t _ _ _ _ _ H2) as Hk2;
    [|intros [= <- <-]; right; apply Hsame; intros t; by rewrite Hk2].
  rewrite bind_run.
  destruct (delete_item Bookings _ w2) as [[[]|e] w3] eqn:H3.
  - intros [= <- <-]. left. by eexists.
  - intros [= <- <-]. right. apply Hsame. intros t.
    by rewrite (delete_item_fault _ _ _ _ _ H3), Hk2.
Qed.

Lemma get_item_outage t key w o :
  outages w = true :: o → get_item t key w = (Raise ClientError, tick w).
Proof.
  intros Ho. unfold get_item. by erewrite bind_Raise by (by eapply store_call_outage).
Qed.

(** X4. Creating a booking is not all or nothing: when the store takes the
    write and then fails the tradesperson lookup, [create_booking] raises,
    the interface answers 500, and the booking is in the table all the
    same. *)
Theorem create_booking_write_survives_fault (w : world) (cid tid : string) (params prior : dict)
    (slot_dt : Datetime.datetime) (later : list bool) (event : dict) :
  outages w = false :: true :: later →
  get "tradesPersonId" params = VStr tid →
  parse_slot (get "slot" params) = Ok slot_dt →
  request_for "/create-booking" cid params prior event →
  ∃ w',
    create_booking (VStr cid) params w = (Raise ClientError, w') ∧
    handler event w = (handler_except event, w') ∧
    bookings_table w' !! new_booking_id w
      = Some (booking_record w (VStr cid) params slot_dt).
Proof.
  intros Ho Htid Hslot (Hpath & Hcid & Hps & _).
  assert (Hcalm : calm 1 w = true) by (unfold calm; by rewrite Ho).
  assert (Hrun : create_booking (VStr cid) params w =
            (Raise ClientError,
             tick (set_rows Bookings
                     (<[new_booking_id w := booking_record w (VStr cid) params slot_dt]>
                        (bookings_table w)) (tick w)))).
  { unfold create_booking. cbv zeta. unfold reads at 1. rewrite bind_run. cbv beta iota.
    rewrite Hslot. mrun.
    erewrite bind_Ok
      by (eapply put_item_calm;
          [exact Hcalm | by apply (check_item_booking w cid tid params slot_dt)]).
    erewrite bind_Raise; [reflexivity|].
    eapply get_item_outage. rewrite outages_set_rows. unfold tick. simpl. by rewrite Ho. }
  eexists. split; [exact Hrun|]. split.
  - eapply handler_Raise, dispatch_fault_propagates; [done..|].
    rewrite Hpath. by eapply (operation_fault_propagates "/create-booking").
  - simpl. apply lookup_insert_eq.
Qed.

(** ** The statuses of the operations *)

Ltac returns_status :=
  cbv zeta;
  repeat first
    [ apply returns_ret; eexists _, _; split; [reflexivity | repeat constructor]
    | apply returns_bind; intros
    | case_match ].

Lemma get_current_date_time_status : returns get_current_date_time (has_status [200]).
Proof. unfold get_current_date_time. returns_status. Qed.

Lemma get_customer_details_status cid :
  returns (get_customer_details cid) (has_status [200; 404]).
Proof. unfold get_customer_details. returns_status. Qed.

Lemma register_customer_status cid params :
  returns (register_customer cid params) (has_status [200]).
Proof. unfold register_customer. returns_status. Qed.

Lemma search_trades_persons_status params :
  returns (search_trades_persons params) (has_status [200]).
Proof. unfold search_trades_persons. returns_status. Qed.

Lemma check_availability_status params :
  returns (check_availability params) (has_status [200]).
Proof. unfold check_availability. returns_status. Qed.

Lemma create_booking_status cid params :
  returns (create_booking cid params) (has_status [200]).
Proof. unfold create_booking. returns_status. Qed.

Lemma get_latest_booking_status cid :
  returns (get_latest_booking cid) (has_status [200; 404]).
Proof. unfold get_latest_booking. returns_status. Qed.

Lemma cancel_booking_status params :
  returns (cancel_booking params) (has_status [200; 404]).
Proof. unfold cancel_booking. returns_status. Qed.

Lemma update_booking_status cid params :
  returns (update_booking cid params) (has_status [200; 403; 404]).
Proof. unfold update_booking. returns_status. Qed.

Lemma dispatch_dispatched_for api_path customer_id post_params :
  returns (dispatch api_path customer_id post_params) (dispatched_for api_path).
Proof.
  assert (Hplain : ∀ (m : M value) codes, returns m (has_status codes) →
    returns (response_body ← m;
             http_status_code ← lift (status_of response_body);
             mret (response_body, http_status_code, []))
      (λ r, ∃ status body,
         r.1.2 = VNum status ∧ py_get r.1.1 "body" r.1.1 = Ok (VDict body) ∧
         status ∈ codes ∧ additional_ok r.2)).
  { intros m codes Hm. eapply returns_bind_with; [exact Hm|].
    intros rb (status & body & -> & Hin). apply returns_lift_bind. intros st [= <-].
    apply returns_ret. exists status, body. repeat split; try done. by left. }
  unfold dispatch, dispatched_for, declared_statuses.
  repeat match goal with
         | |- context [py_eq api_path (VStr ?p)] =>
             destruct (py_eq api_path (VStr p)) eqn:?
         end.
  - apply Hplain, get_current_date_time_status.
  - eapply returns_bind_with; [apply get_customer_details_status|].
    intros rb (status & body & -> & Hin). apply returns_lift_bind. intros st [= <-].
    apply returns_bind. intros found.
    destruct found.
    + do 6 (apply returns_bind; intros; cbv zeta).
      apply returns_ret. exists status, body. repeat split; try done.
      right. by eexists _, _.
    + apply returns_ret. exists status, body. repeat split; try done. by left.
  - eapply returns_bind_with; [apply register_customer_status|].
    intros rb (status & body & -> & Hin).
    do 4 (apply returns_bind; intros; cbv zeta).
    apply returns_lift_bind. intros st [= <-].
    apply returns_ret. exists status, body. repeat split; try done.
    right. by eexists _, _.
  - apply Hplain, search_trades_persons_status.
  - apply Hplain, check_availability_status.
  - apply Hplain, create_booking_status.
  - apply Hplain, get_latest_booking_status.
  - apply Hplain, cancel_booking_status.
  - apply Hplain, update_booking_status.
  - apply returns_ret. eexists 400, _. repeat split; [repeat constructor | by left].
Qed.

(** What the [try] suite returns when it returns: the envelope built from
    the identity, the dispatch's status and body, and the merged prompt
    session attributes. *)
Lemma handler_try_returns event :
  returns (handler_try event)
    (λ r, ∃ cid status body additional prior,
       customer_id_of event = Ok cid ∧
       get_or "promptSessionAttributes" (VDict []) event = VDict prior ∧
       status ∈ declared_statuses (get "apiPath" event) ∧
       additional_ok additional ∧
       r = api_response (action_response event (VNum status) (VDict body))
             (get_or "sessionAttributes" (VDict []) event)
             (VDict (prompt_attributes cid additional prior))).
Proof.
  unfold handler_try. cbv zeta.
  apply returns_lift_bind. intros cid Hcid.
  apply returns_bind. intros post_params.
  eapply returns_bind_with; [apply dispatch_dispatched_for|].
  intros [[rb st] additional] (status & body & Hst & Hbody & Hin & Hadd).
  simpl in Hst, Hbody, Hadd. subst st. rewrite Hbody.
  apply returns_lift_bind. intros ? [= <-].
  destruct (get_or "promptSessionAttributes" (VDict []) event) as [| | | | |prior] eqn:Hprior;
    try by (apply returns_lift_bind; intros ? [=]).
  apply returns_lift_bind. intros p1 [= <-].
  apply returns_lift_bind. intros p2 [= <-].
  apply returns_lift_bind. intros p3 [= <-].
  apply returns_ret. by exists cid, status, body, additional, prior.
Qed.

(** X5. The status of a response is 500 or one the operation's own code
    can answer: 200 for get-current-datetime, register-customer,
    search-trades-persons, check-availability and create-booking, 200 or 404
    for get-customer-details, get-latest-booking and cancel-booking, 200, 403
    or 404 for update-booking, and 400 for any other path. *)
Theorem status_is_declared (event : dict) (w : world) :
  ∃ status body session prompt,
    (handler event w).1 =
      api_response (action_response event (VNum status) (VDict body)) session prompt ∧
    (status = 500 ∨ status ∈ declared_statuses (get "apiPath" event)).
Proof.
  unfold handler. destruct (handler_try event w) as [[r|e] w'] eqn:Htry; simpl.
  - apply handler_try_returns in Htry
      as (cid & status & body & additional & prior & _ & _ & Hin & _ & ->).
    eexists status, body, _, _. split; [reflexivity | by right].
  - eexists 500, _, _, _. split; [reflexivity | by left].
Qed.

(** ** The prompt session attributes *)

Lemma dict_ok_single k v : dict_ok [(k, v)].
Proof. unfold dict_ok. simpl. apply NoDup_singleton. Qed.

Lemma additional_ok_dict_ok additional : additional_ok additional → dict_ok additional.
Proof.
  intros [->|(name & city & ->)]; [apply NoDup_nil_2 | by apply dict_ok_pair].
Qed.

(** X6. When the [try] suite returns, the response's prompt session
    attributes carry the caller's identity as customerId and as
    customerPhoneNumber, and every attribute of the request other than
    these two and customerName and customerCity as it came in. The identity
    is the phone-number session attribute, or "00000" when the request has
    no session attributes or no phone number among them. *)
Theorem prompt_attributes_on_return (event : dict) (w w' : world) (r : value) :
  handler_try event w = (Ok r, w') →
  ∃ cid status body prompt prior,
    handler event w =
      (api_response (action_response event (VNum status) (VDict body))
         (get_or "sessionAttributes" (VDict []) event) (VDict prompt), w') ∧
    customer_id_of event = Ok cid ∧
    (dget "sessionAttributes" event = None → cid = VStr "00000") ∧
    (∀ session, dget "sessionAttributes" event = Some (VDict session) →
                cid = get_or "phone-number" (VStr "00000") session) ∧
    get_or "promptSessionAttributes" (VDict []) event = VDict prior ∧
    dget "customerId" prompt = Some cid ∧
    dget "customerPhoneNumber" prompt = Some cid ∧
    (∀ k, k ∉ ["customerId"; "customerPhoneNumber"; "customerName"; "customerCity"] →
          dget k prompt = dget k prior).
Proof.
  intros Htry. rewrite (handler_Ok _ _ _ _ Htry).
  apply handler_try_returns in Htry
    as (cid & status & body & additional & prior & Hcid & Hprior & _ & Hadd & ->).
  exists cid, status, body, (prompt_attributes cid additional prior), prior.
  split; [done|]. split; [done|].
  assert (Hnot : ∀ k, k = "customerId" ∨ k = "customerPhoneNumber" →
            dget k additional = None).
  { intros k Hk. destruct Hadd as [->|(name & city & ->)]; [done|].
    destruct Hk as [->| ->]; by rewrite !dget_next by done. }
  split; [|split; [|split; [done|split; [|split]]]].
  - intros Hnone. unfold customer_id_of, get_or in Hcid. rewrite Hnone in Hcid.
    by injection Hcid as <-.
  - intros session Hsome. unfold customer_id_of in Hcid. unfold get_or at 1 in Hcid.
    rewrite Hsome in Hcid. by injection Hcid as <-.
  - unfold prompt_attributes.
    rewrite dget_dupdate by (by apply additional_ok_dict_ok).
    rewrite Hnot by (by left).
    rewrite dget_dupdate by apply dict_ok_single.
    rewrite dget_next by done. cbn [dget].
    rewrite dget_dupdate by apply dict_ok_single. by rewrite dget_here.
  - unfold prompt_attributes.
    rewrite dget_dupdate by (by apply additional_ok_dict_ok).
    rewrite Hnot by (by right).
    rewrite dget_dupdate by apply dict_ok_single. by rewrite dget_here.
  - intros k Hk. apply not_elem_of_cons in Hk as [Hk1 Hk].
    apply not_elem_of_cons in Hk as [Hk2 Hk].
    apply not_elem_of_cons in Hk as [Hk3 Hk].
    apply not_elem_of_cons in Hk as [Hk4 _].
    unfold prompt_attributes.
    rewrite dget_dupdate by (by apply additional_ok_dict_ok).
    replace (dget k additional) with (@None value)
      by (destruct Hadd as [->|(name & city & ->)]; [done|];
          by rewrite !dget_next by done).
    rewrite !dget_dupdate by apply dict_ok_single.
    by rewrite !dget_next by done.
Qed.

(** ** Searching for tradespeople *)

Lemma lower_ascii_idem c : lower_ascii (lower_ascii c) = lower_ascii c.
Proof. by destruct c as [[] [] [] [] [] [] [] []]. Qed.

Lemma lower_idem s : lower (lower s) = lower s.
Proof. induction s as [|c s IH]; simpl; [done|]. by rewrite lower_ascii_idem, IH. Qed.

Lemma attr_is_true attr s item :
  attr_is attr s item = true ↔ dget attr item = Some (VStr s).
Proof.
  unfold attr_is. destruct (dget attr item) as [[]|]; try (split; [done|congruence]).
  rewrite bool_decide_eq_true. split; [by intros -> | by intros [= ->]].
Qed.

Lemma elem_of_scan t w item : item ∈ scan t w ↔ ∃ id, rows t w !! id = Some item.
Proof.
  unfold scan. rewrite list_elem_of_fmap. split.
  - intros ([id item'] & -> & Hin). exists id. by apply elem_of_map_to_list in Hin.
  - intros [id Hid]. exists (id, item). split; [done|]. by apply elem_of_map_to_list.
Qed.

Lemma scan_tick t w : scan t (tick w) = scan t w.
Proof. unfold scan. by rewrite rows_tick. Qed.

Lemma query_TradeIndex_calm n w trade city :
  calm (S n) w = true →
  query_TradeIndex (VStr trade) (VStr city) w =
    (Ok (filter (λ item, attr_is "trade" trade item && attr_is "city" city item)
           (scan Tradespersons w)), tick w).
Proof.
  intros Hc. unfold query_TradeIndex.
  erewrite bind_Ok by (by eapply store_call_calm).
  rewrite !key_string_VStr. mrun. unfold reads. by rewrite scan_tick.
Qed.

(** X7. A search with a trade and a city in ASCII text, the store
    answering, returns 200 with the count equal to the length of the list,
    and lists exactly the tradespeople on record whose trade and city
    attributes are the lower-cased parameters: the match ignores the case of
    the parameters, not of the records, so a tradesperson recorded with a
    capital letter in trade or city is found by no such search. The store
    is left as it was. *)
Theorem search_trades_persons_matches (params : dict) (w : world) (trade city : string) :
  get "trade" params = VStr trade →
  get "city" params = VStr city →
  ascii_text trade = true →
  ascii_text city = true →
  calm 1 w = true →
  ∃ found,
    search_trades_persons params w =
      (Ok (result 200 [("tradesPersons", VList (trades_person_view <$> found));
                       ("count", VNum (Z.of_nat (length found)))]), tick w) ∧
    (∀ item, item ∈ found ↔
       (∃ id, tradesperson_table w !! id = Some item) ∧
       dget "trade" item = Some (VStr (lower trade)) ∧
       dget "city" item = Some (VStr (lower city))) ∧
    (∀ item tr ci, item ∈ found →
       dget "trade" item = Some (VStr tr) → dget "city" item = Some (VStr ci) →
       lower tr = tr ∧ lower ci = ci) ∧
    (∀ params' trade' city',
       get "trade" params' = VStr trade' → get "city" params' = VStr city' →
       ascii_text trade' = true → ascii_text city' = true →
       lower trade' = lower trade → lower city' = lower city →
       search_trades_persons params' w = search_trades_persons params w).
Proof.
  intros Htrade Hcity _ _ Hc.
  assert (Hrun : ∀ ps tr ci, get "trade" ps = VStr tr → get "city" ps = VStr ci →
    search_trades_persons ps w =
      (let found := filter (λ item, attr_is "trade" (lower tr) item
                                    && attr_is "city" (lower ci) item)
                      (scan Tradespersons w) in
       (Ok (result 200 [("tradesPersons", VList (trades_person_view <$> found));
                        ("count", VNum (Z.of_nat (length found)))]), tick w))).
  { intros ps tr ci Htr Hci. unfold search_trades_persons. cbv zeta.
    rewrite Htr, Hci. simpl py_lower. mrun.
    erewrite bind_Ok by (by eapply query_TradeIndex_calm).
    cbv beta. by rewrite length_fmap. }
  assert (Hin : ∀ item,
    item ∈ filter (λ item, attr_is "trade" (lower trade) item
                           && attr_is "city" (lower city) item) (scan Tradespersons w) ↔
    (∃ id, tradesperson_table w !! id = Some item) ∧
    dget "trade" item = Some (VStr (lower trade)) ∧
    dget "city" item = Some (VStr (lower city))).
  { intros item. rewrite list_elem_of_filter, elem_of_scan.
    rewrite Is_true_true, andb_true_iff, !attr_is_true. simpl rows. tauto. }
  eexists. split; [exact (Hrun _ _ _ Htrade Hcity)|].
  split; [exact Hin|]. split.
  - intros item tr ci Hitem Htr Hci. apply Hin in Hitem as (_ & Htr' & Hci').
    rewrite Htr in Htr'. rewrite Hci in Hci'.
    injection Htr' as ->. injection Hci' as ->. by rewrite !lower_idem.
  - intros params' trade' city' Htrade' Hcity' _ _ Htr Hci.
    rewrite (Hrun _ _ _ Htrade' Hcity'), (Hrun _ _ _ Htrade Hcity). by rewrite Htr, Hci.
Qed.

(** ** The parameters of a request *)

Lemma dget_app k d1 d2 :
  dget k (d1 ++ d2) = match dget k d1 with Some v => Some v | None => dget k d2 end.
Proof.
  induction d1 as [|[k1 v1] d1 IH]; simpl; [done|]. by case_decide.
Qed.

Lemma dget_dupdate_last k e d :
  dget k (dupdate e d) =
  match dget k (reverse e) with
  | Some v => Some v
  | None => dget k d
  end.
Proof.
  unfold dupdate. revert d. induction e as [|[k1 v1] e IH]; intros d; simpl; [done|].
  rewrite IH, reverse_cons, dget_app, dget_dset. simpl.
  destruct (dget k (reverse e)); [done|]. by case_decide.
Qed.

Lemma build_post_params_run props nvs acc :
  Forall2 is_property props nvs → build_post_params props acc = Ok (dupdate nvs acc).
Proof.
  intros H. revert acc.
  induction H as [|prop [n v] props nvs (p & -> & Hn & Hv) _ IH]; intros acc; [done|].
  simpl in Hn, Hv. simpl. rewrite Hn, Hv. simpl. apply IH.
Qed.

Lemma obind_Ok {A B} (a : A) (f : A → outcome B) : Ok a ≫= f = f a.
Proof. reflexivity. Qed.

Lemma post_parameters_of_body event props :
  body_properties event props → post_parameters_of event = Ok (VList props).
Proof.
  intros (rb & content & json & Hrb & Hcontent & Hjson & Hprops).
  assert (Ht : truthy (VDict rb) = true) by (by destruct rb).
  unfold post_parameters_of, get, get_or, py_index, py_get. rewrite Hrb.
  cbn [default from_option id]. rewrite Ht.
  rewrite ?obind_Ok; cbv beta iota. unfold get_or. rewrite Hcontent. cbn [default from_option id].
  rewrite ?obind_Ok; cbv beta iota. unfold get_or. rewrite Hjson. cbn [default from_option id].
  rewrite ?obind_Ok; cbv beta iota. unfold get_or. rewrite Hprops. cbn [default from_option id].
  rewrite ?obind_Ok; cbv beta iota. cbn [truthy].
  case_bool_decide as Hnil; cbn [negb]; [by rewrite Hnil | done].
Qed.

(** X8. The parameters of a request are the properties of its body, by
    name: a name listed more than once has the value of its last entry,
    whatever other fields the entries carry. *)
Theorem post_params_last_wins (event : dict) (props : list value) (nvs : dict) :
  body_properties event props →
  Forall2 is_property props nvs →
  ∃ post_params,
    post_params_of event = Ok post_params ∧
    ∀ k, dget k post_params = dget k (reverse nvs).
Proof.
  intros Hbody Hprops. exists (dupdate nvs []). split.
  - unfold post_params_of. rewrite (post_parameters_of_body _ _ Hbody). simpl.
    by apply build_post_params_run.
  - intros k. rewrite dget_dupdate_last. by destruct (dget k (reverse nvs)).
Qed.

Lemma build_post_params_malformed props prop acc :
  prop ∈ props → malformed prop → ∃ e, build_post_params props acc = Raise e.
Proof.
  intros Hin Hbad. revert acc.
  induction props as [|prop' props IH]; intros acc; [by apply elem_of_nil in Hin|].
  assert (Hrest : prop ∈ props → ∀ acc', ∃ e, build_post_params props acc' = Raise e)
    by (intros H acc'; by apply IH).
  simpl.
  destruct (py_index prop' "name") as [name|e] eqn:Hname; simpl; [|by eexists].
  destruct (py_index prop' "value") as [val|e] eqn:Hval; simpl; [|by eexists].
  apply elem_of_cons in Hin as [->|Hin].
  - destruct prop' as [| | | | |p]; try done.
    simpl in Hname, Hval. by destruct Hbad as [H|H]; rewrite H in *.
  - destruct name; try (by apply Hrest); by eexists.
Qed.

(** X9. A request whose property list has an entry that is no object, or
    has no name, or no value, is answered 500, whatever the operation, and
    before any store call: the world is untouched. *)
Theorem malformed_property_is_500 (event : dict) (props : list value) (prop : value)
    (w : world) :
  body_properties event props →
  prop ∈ props →
  malformed prop →
  handler event w = (handler_except event, w).
Proof.
  intros Hbody Hin Hbad.
  destruct (build_post_params_malformed props prop [] Hin Hbad) as [e He].
  assert (Hps : post_params_of event = Raise e).
  { unfold post_params_of. rewrite (post_parameters_of_body _ _ Hbody). simpl. exact He. }
  unfold handler, handler_try. cbv zeta.
  destruct (customer_id_of event) as [cid|e']; mrun; [|done].
  rewrite Hps. by mrun.
Qed.

(** ** Cancelling, then asking for the latest booking *)

Lemma cancel_booking_run n w params bid booking tid :
  get "bookingId" params = VStr bid →
  bookings_table w !! bid = Some booking →
  key_string (get "tradesPersonId" booking) = Ok tid →
  calm (S (S (S n))) w = true →
  ∃ w',
    cancel_booking params w =
      (Ok (result 200 (cancelled_body booking (default [] (tradesperson_table w !! tid)))),
       w') ∧
    bookings_table w' = delete bid (bookings_table w) ∧
    calm n w' = true.
Proof.
  intros Hbid Hb Htid Hc.
  destruct (calm_S _ _ Hc) as [_ Hc2]. destruct (calm_S _ _ Hc2) as [_ Hc1].
  destruct (calm_S _ _ Hc1) as [_ Hc0].
  eexists. split; [|split].
  - unfold cancel_booking. rewrite Hbid.
    erewrite bind_Ok
      by (eapply get_item_calm; [exact Hc | apply (key_of_string Bookings)]).
    change (rows Bookings w) with (bookings_table w). rewrite Hb.
    erewrite bind_Ok
      by (eapply get_item_calm;
          [exact Hc2 | rewrite (key_of_pk Tradespersons); exact Htid]).
    erewrite bind_Ok
      by (eapply delete_item_calm; [exact Hc1 | apply (key_of_string Bookings)]).
    reflexivity.
  - reflexivity.
  - by rewrite calm_set_rows.
Qed.

Lemma get_latest_booking_inv n w cid r w' :
  calm (S n) w = true →
  get_latest_booking (VStr cid) w = (Ok r, w') →
  (r = result 404 [("error", VStr "No bookings found for this customer")] ∧
   ∀ id b, bookings_table w !! id = Some b → dget "customerId" b ≠ Some (VStr cid)) ∨
  (∃ id b view,
     bookings_table w !! id = Some b ∧
     dget "customerId" b = Some (VStr cid) ∧
     r = result 200 [("booking", VDict view)] ∧
     dget "bookingId" view = Some (get "bookingId" b) ∧
     dget "description" view = Some (get "description" b)).
Proof.
  intros Hc. unfold get_latest_booking.
  erewrite bind_Ok by (by eapply query_CustomerIdIndex_calm).
  destruct (filter _ _) as [|item rest] eqn:Hitems.
  - intros [= <- _]. left. split; [done|]. intros id b Hb Hown.
    assert (Hin : b ∈ filter (λ item, attr_is "customerId" cid item) (scan Bookings w)).
    { apply list_elem_of_filter. split; [by apply Is_true_true, attr_is_true|].
      apply elem_of_scan. by exists id. }
    rewrite Hitems in Hin. by apply elem_of_nil in Hin.
  - intros Hrun. right.
    assert (Hin : item ∈ filter (λ item, attr_is "customerId" cid item) (scan Bookings w))
      by (rewrite Hitems; left).
    apply list_elem_of_filter in Hin as [Hown%Is_true_true%attr_is_true Hin].
    apply elem_of_scan in Hin as [id Hid].
    apply bind_Ok_inv in Hrun as (tp & w1 & _ & Hrun). cbv zeta in Hrun.
    destruct (parse_slot (get "slot" item)) as [slot_dt|e]; [|by rewrite bind_lift_Raise in Hrun].
    rewrite bind_lift_Ok in Hrun. injection Hrun as <- _.
    eexists id, item, _. repeat split; try done.
Qed.

(** X10. After a booking is cancelled, asking for the latest booking of any
    identity never shows it: the answer is 404 when the identity has no
    other booking on record, and otherwise, when there is an answer, the
    view of a booking recorded under another id for that identity. *)
Theorem cancel_then_latest (w : world) (params : dict) (bid tid cid : string)
    (booking : dict) :
  get "bookingId" params = VStr bid →
  bookings_table w !! bid = Some booking →
  key_string (get "tradesPersonId" booking) = Ok tid →
  calm 4 w = true →
  ∃ body w1,
    cancel_booking params w = (Ok (result 200 body), w1) ∧
    ((∀ id b, id ≠ bid → bookings_table w !! id = Some b →
              dget "customerId" b ≠ Some (VStr cid)) →
     get_latest_booking (VStr cid) w1 =
       (Ok (result 404 [("error", VStr "No bookings found for this customer")]), tick w1)) ∧
    (∀ r w2, get_latest_booking (VStr cid) w1 = (Ok r, w2) →
       r = result 404 [("error", VStr "No bookings found for this customer")] ∨
       ∃ id b view,
         id ≠ bid ∧ bookings_table w !! id = Some b ∧
         dget "customerId" b = Some (VStr cid) ∧
         r = result 200 [("booking", VDict view)] ∧
         dget "bookingId" view = Some (get "bookingId" b) ∧
         dget "description" view = Some (get "description" b)).
Proof.
  intros Hbid Hb Htid Hc.
  destruct (cancel_booking_run 1 w params bid booking tid Hbid Hb Htid Hc)
    as (w1 & Hrun & Htable & Hc1).
  eexists _, w1. split; [exact Hrun|]. split.
  - intros Hothers. unfold get_latest_booking.
    erewrite bind_Ok by (by eapply query_CustomerIdIndex_calm).
    rewrite filter_none; [done|].
    apply list.Forall_forall. intros b [id Hid]%elem_of_scan Hown%Is_true_true%attr_is_true.
    simpl in Hid. rewrite Htable in Hid. apply lookup_delete_Some in Hid as [Hne Hid].
    by apply (Hothers id b).
  - intros r w2 Hlatest.
    destruct (get_latest_booking_inv 0 w1 cid r w2 Hc1 Hlatest)
      as [[-> _]|(id & b & view & Hid & Hown & -> & Hview & Hdesc)]; [by left|].
    right. rewrite Htable in Hid. apply lookup_delete_Some in Hid as [Hne Hid].
    by exists id, b, view.
Qed.

(** ** Booking ids *)

Lemma list_ascii_of_string_append a b :
  String.list_ascii_of_string (a +:+ b) =
  String.list_ascii_of_string a ++ String.list_ascii_of_string b.
Proof.
  induction a as [|x a IH]; [done|]. rewrite append_cons. simpl. by rewrite IH.
Qed.

Lemma length_list_ascii_of_string s :
  length (String.list_ascii_of_string s) = String.length s.
Proof. induction s as [|x s IH]; simpl; [done | by rewrite IH]. Qed.

Lemma last_chars_append n p s : String.length s = n → last_chars n (p +:+ s) = s.
Proof.
  intros Hn. unfold last_chars.
  rewrite list_ascii_of_string_append, length_app, !length_list_ascii_of_string, Hn.
  replace (String.length p + n - n)%nat with (length (String.list_ascii_of_string p))
    by (rewrite length_list_ascii_of_string; lia).
  rewrite drop_app_length. apply String.string_of_list_ascii_of_string.
Qed.

Lemma pretty_N_go_suffix x s : ∃ p, pretty_N_go x s = p +:+ s.
Proof.
  revert s. induction (N.lt_wf_0 x) as [x _ IH]; intros s.
  assert (x = 0 ∨ 0 < x)%N as [->|Hx] by lia.
  - exists "". by rewrite pretty_N_go_0.
  - rewrite pretty_N_go_step by done.
    destruct (IH (x `div` 10)%N (N.div_lt x 10 Hx eq_refl)
                (String (pretty_N_char (x `mod` 10)) s)) as [p ->].
    exists (p +:+ String (pretty_N_char (x `mod` 10)) "").
    by rewrite append_assoc, append_cons, append_nil_l.
Qed.

Lemma pretty_N_char_digit d : (d < 10)%N → pretty_N_char d = digit_char (Z.of_N d).
Proof.
  intros Hd.
  assert (d = 0 ∨ d = 1 ∨ d = 2 ∨ d = 3 ∨ d = 4 ∨ d = 5 ∨ d = 6 ∨ d = 7 ∨ d = 8 ∨ d = 9)%N
    as H by lia.
  by repeat (destruct H as [->|H]; [done|]); subst.
Qed.

Lemma pretty_N_go_pad width x s :
  (10 ^ N.of_nat width ≤ x)%N →
  pretty_N_go x s =
  pretty_N_go (x `div` 10 ^ N.of_nat (S width)) (pad_digits (S width) (Z.of_N x) s).
Proof.
  revert x s. induction width as [|width IH]; intros x s Hx.
  - change (10 ^ N.of_nat 0)%N with 1%N in Hx. change (10 ^ N.of_nat 1)%N with 10%N.
    rewrite pretty_N_go_step by lia. cbn [pad_digits].
    rewrite pretty_N_char_digit by (apply N.mod_lt; lia).
    by rewrite N2Z.inj_mod.
  - assert (Hpow : (10 ^ N.of_nat (S width) = 10 * 10 ^ N.of_nat width)%N)
      by (by rewrite Nat2N.inj_succ, N.pow_succ_r').
    assert (Hpos : (0 < 10 ^ N.of_nat width)%N)
      by (apply N.neq_0_lt_0, N.pow_nonzero; lia).
    rewrite pretty_N_go_step by lia.
    rewrite IH by (apply N.div_le_lower_bound; lia).
    cbn [pad_digits].
    rewrite pretty_N_char_digit by (apply N.mod_lt; lia).
    rewrite N.Div0.div_div.
    rewrite N2Z.inj_mod, N2Z.inj_div.
    f_equal. f_equal. by rewrite (Nat2N.inj_succ (S width)), N.pow_succ_r'.
Qed.

Lemma pad_digits_mod width n s :
  pad_digits width n s = pad_digits width (n mod 10 ^ Z.of_nat width) s.
Proof.
  revert n s. induction width as [|width IH]; intros n s; [done|].
  cbn [pad_digits].
  assert (Hpos : 0 < 10 ^ Z.of_nat width) by (apply Z.pow_pos_nonneg; lia).
  assert (Hsplit : n mod 10 ^ Z.of_nat (S width) =
                   n mod 10 + 10 * ((n / 10) mod 10 ^ Z.of_nat width))
    by (rewrite Nat2Z.inj_succ, Z.pow_succ_r by lia; apply Z.rem_mul_r; lia).
  pose proof (Z.mod_pos_bound n 10 ltac:(lia)) as Ha.
  rewrite Hsplit.
  replace ((n mod 10 + 10 * ((n / 10) mod 10 ^ Z.of_nat width)) mod 10) with (n mod 10)
    by (apply Z.mod_unique with ((n / 10) mod 10 ^ Z.of_nat width); lia).
  replace ((n mod 10 + 10 * ((n / 10) mod 10 ^ Z.of_nat width)) / 10)
    with ((n / 10) mod 10 ^ Z.of_nat width)
    by (apply Z.div_unique with (n mod 10); lia).
  rewrite (IH (n / 10)), (IH ((n / 10) mod 10 ^ Z.of_nat width)).
  by rewrite Z.mod_mod by lia.
Qed.

Lemma last_five_digits t :
  10000 ≤ t → last_chars 5 (str_of_int t) = zero_pad 5 (t mod 100000).
Proof.
  intros Ht. unfold str_of_int. destruct t as [|p|p]; try lia.
  change (pretty (Z.pos p)) with (pretty (N.pos p)).
  unfold pretty, pretty_N. rewrite decide_False by done.
  rewrite (pretty_N_go_pad 4) by (change (10 ^ N.of_nat 4)%N with 10000%N; lia).
  destruct (pretty_N_go_suffix (N.pos p `div` 10 ^ N.of_nat 5)
              (pad_digits 5 (Z.of_N (N.pos p)) "")) as [pre ->].
  rewrite last_chars_append by (by rewrite length_pad_digits).
  rewrite pad_digits_mod. change (Z.of_N (N.pos p)) with (Z.pos p).
  change (10 ^ Z.of_nat 5) with 100000.
  symmetry. apply zero_pad_fits. change (10 ^ Z.of_nat 5) with 100000.
  apply Z.mod_pos_bound. lia.
Qed.

Lemma zero_pad_inj width a b :
  0 ≤ a < 10 ^ Z.of_nat width → 0 ≤ b < 10 ^ Z.of_nat width →
  zero_pad width a = zero_pad width b → a = b.
Proof.
  intros Ha Hb Heq.
  pose proof (parse_zero_pad width a "" Ha) as Hpa.
  pose proof (parse_zero_pad width b "" Hb) as Hpb.
  rewrite Heq, Hpb in Hpa. by injection Hpa.
Qed.

Lemma new_booking_id_congruent w w' :
  10000 ≤ now_timestamp w → 10000 ≤ now_timestamp w' →
  (now_timestamp w' - now_timestamp w) mod 100000 = 0 →
  new_booking_id w' = new_booking_id w.
Proof.
  intros Ht Ht' Hdiff. unfold new_booking_id. rewrite !last_five_digits by done.
  f_equal. f_equal.
  replace (now_timestamp w') with (now_timestamp w + (now_timestamp w' - now_timestamp w))
    by lia.
  by rewrite Zplus_mod, Hdiff, Z.add_0_r, Z.mod_mod.
Qed.

(** X11. From the epoch second 10000 on, a booking id is the letter b and
    the last five decimal digits of the clock's epoch seconds, zeros
    included: two clock readings give the same id exactly when they differ
    by a multiple of 100000 seconds. *)
Theorem booking_id_low_digits (w : world) :
  10000 ≤ now_timestamp w →
  new_booking_id w = "b" +:+ zero_pad 5 (now_timestamp w mod 100000) ∧
  String.length (new_booking_id w) = 6%nat ∧
  ∀ w', 10000 ≤ now_timestamp w' →
    (new_booking_id w' = new_booking_id w ↔
     (now_timestamp w' - now_timestamp w) mod 100000 = 0).
Proof.
  intros Ht. unfold new_booking_id.
  pose proof (Z.mod_pos_bound (now_timestamp w) 100000 ltac:(lia)) as Hm.
  split; [by rewrite last_five_digits|]. split.
  - rewrite last_five_digits by done. rewrite append_cons, append_nil_l. simpl.
    by rewrite length_zero_pad.
  - intros w' Ht'.
    pose proof (Z.mod_pos_bound (now_timestamp w') 100000 ltac:(lia)) as Hm'.
    rewrite !last_five_digits by done. split.
    + intros Heq. apply (inj (String.append _)) in Heq.
      apply zero_pad_inj in Heq; [|done..].
      rewrite Zminus_mod, Heq, Z.sub_diag. done.
    + intros Hdiff. pose proof (new_booking_id_congruent w w' Ht Ht' Hdiff) as Heq.
      unfold new_booking_id in Heq. by rewrite !last_five_digits in Heq.
Qed.

(** X12. The id of a new booking is not checked against the table: a second
    booking made in the same second as a first, or a multiple of 100000
    seconds later, gets the id of the first and takes its place. After the
    second [create_booking] the bookings table is the one before the first
    with the second booking alone under that id. *)
Theorem create_booking_overwrites (w1 : world) (cid1 cid2 tid1 tid2 : string)
    (params1 params2 : dict) (dt1 dt2 : Datetime.datetime) :
  10000 ≤ now_timestamp w1 →
  get "tradesPersonId" params1 = VStr tid1 →
  parse_slot (get "slot" params1) = Ok dt1 →
  get "tradesPersonId" params2 = VStr tid2 →
  parse_slot (get "slot" params2) = Ok dt2 →
  calm 2 w1 = true →
  ∃ r1 w1',
    create_booking (VStr cid1) params1 w1 = (Ok r1, w1') ∧
    bookings_table w1' =
      <[new_booking_id w1 := booking_record w1 (VStr cid1) params1 dt1]>
        (bookings_table w1) ∧
    ∀ w2,
      bookings_table w2 = bookings_table w1' →
      10000 ≤ now_timestamp w2 →
      (now_timestamp w2 - now_timestamp w1) mod 100000 = 0 →
      calm 2 w2 = true →
      ∃ r2 w2',
        create_booking (VStr cid2) params2 w2 = (Ok r2, w2') ∧
        py_index r1 "body" ≫= (λ body, py_index body "bookingId") =
          Ok (VStr (new_booking_id w1)) ∧
        py_index r2 "body" ≫= (λ body, py_index body "bookingId") =
          Ok (VStr (new_booking_id w1)) ∧
        bookings_table w2' =
          <[new_booking_id w1 := booking_record w2 (VStr cid2) params2 dt2]>
            (bookings_table w1).
Proof.
  intros Ht Htid1 Hdt1 Htid2 Hdt2 Hc.
  eexists _, _. split; [by apply (create_booking_run 0 w1 cid1 tid1 params1 dt1)|].
  split; [reflexivity|].
  intros w2 Htable Ht2 Hdiff Hc2.
  pose proof (new_booking_id_congruent w1 w2 Ht Ht2 Hdiff) as Hid.
  eexists _, _. split; [by apply (create_booking_run 0 w2 cid2 tid2 params2 dt2)|].
  split; [reflexivity|]. split.
  - rewrite Hid. reflexivity.
  - cbn [bookings_table tick set_rows set_outages]. rewrite Htable, Hid.
    cbn [bookings_table tick set_rows set_outages]. apply insert_insert_eq.
Qed.

(** ** Updating, then asking for the latest booking *)

(** X13. After its owner moves a booking to a new slot, the latest booking
    of an identity with no other booking on record is that booking at the
    new date and time; id, tradesperson and description are as before. *)
Theorem update_then_latest (w : world) (cid bid tid : string) (params booking : dict)
    (slot_dt : Datetime.datetime) :
  get "bookingId" params = VStr bid →
  bookings_table w !! bid = Some booking →
  dget "customerId" booking = Some (VStr cid) →
  parse_slot (get "slot" params) = Ok slot_dt →
  key_string (get "tradesPersonId" booking) = Ok tid →
  (∀ k b, bookings_table w !! k = Some b → attr_is "customerId" cid b = true → k = bid) →
  calm 5 w = true →
  let details := default [] (tradesperson_table w !! tid) in
  ∃ body w1 w2,
    update_booking (VStr cid) params w = (Ok (result 200 body), w1) ∧
    get_latest_booking (VStr cid) w1 =
      (Ok (result 200
             [("booking",
               VDict [("bookingId", get "bookingId" booking);
                      ("tradesPersonName", get_or "name" (VStr "Unknown") details);
                      ("tradesPersonTrade", get_or "trade" (VStr "Unknown") details);
                      ("bookingDateTime",
                       VStr (Datetime.strftime slot_dt "%Y-%m-%d %H:%M:%S"));
                      ("description", get "description" booking)])]), w2).
Proof.
  intros Hbid Hb Hown Hslot Htid Hothers Hc details.
  pose proof (parse_slot_valid _ _ Hslot) as Hv.
  assert (Hpy : py_eq (get "customerId" booking) (VStr cid) = true).
  { unfold get, get_or. rewrite Hown. by apply py_eq_VStr. }
  destruct (update_booking_run 2 w (VStr cid) params bid tid booking slot_dt
              Hbid Hb Hpy Hslot Htid Hc) as (w1 & Hrun & Htable & _ & Htrades & Hc1).
  destruct (calm_S _ _ Hc1) as [_ Hc2].
  eexists _, w1, _. split; [exact Hrun|].
  unfold get_latest_booking.
  erewrite bind_Ok by (by eapply query_CustomerIdIndex_calm).
  unfold scan. change (rows Bookings w1) with (bookings_table w1). rewrite Htable.
  rewrite customer_index_single;
    [|apply attr_is_true; rewrite dget_dset; by rewrite decide_False
     |exact Hothers].
  assert (Hget : ∀ k, k ≠ "slot" →
            get k (dset "slot" (VStr (Datetime.isoformat slot_dt)) booking) = get k booking).
  { intros k Hk. unfold get, get_or. rewrite dget_dset. by rewrite decide_False. }
  cbv beta iota zeta.
  rewrite (Hget "tradesPersonId"), (Hget "bookingId"), (Hget "description") by done.
  erewrite bind_Ok
    by (eapply get_item_calm;
        [exact Hc2 | rewrite (key_of_pk Tradespersons); exact Htid]).
  replace (get "slot" (dset "slot" (VStr (Datetime.isoformat slot_dt)) booking))
    with (VStr (Datetime.isoformat slot_dt))
    by (unfold get, get_or; rewrite dget_dset; by rewrite decide_True).
  rewrite parse_slot_isoformat by done. mrun.
  rewrite rows_tick. change (rows Tradespersons w1) with (tradesperson_table w1).
  rewrite Htrades. reflexivity.
Qed.

(** ** Availability against the table *)

Lemma attr_between_true attr lo hi item :
  attr_between attr lo hi item = true ↔
  ∃ s, dget attr item = Some (VStr s) ∧ String.leb lo s = true ∧ String.leb s hi = true.
Proof.
  unfold attr_between. destruct (dget attr item) as [[]|];
    try (split; [done | by intros (? & [=] & _)]).
  rewrite andb_true_iff. split; [by eexists | by intros (? & [= <-] & ?)].
Qed.

Lemma bind_ret {A B} (a : A) (f : A → M B) w : (mret a ≫= f) w = f a w.
Proof. reflexivity. Qed.

Lemma query_TradesPersonIdIndex_calm n w tid lo hi :
  calm (S n) w = true → String.leb lo hi = true →
  query_TradesPersonIdIndex (VStr tid) (VStr lo) (VStr hi) w =
    (Ok (merge_sort slot_le
           (filter (λ item, attr_is "tradesPersonId" tid item
                            && attr_between "slot" lo hi item) (scan Bookings w))),
     tick w).
Proof.
  intros Hc Hle. unfold query_TradesPersonIdIndex.
  erewrite bind_Ok by (by eapply store_call_calm).
  rewrite !key_string_VStr. mrun. rewrite Hle, bind_ret.
  unfold reads. by rewrite scan_tick.
Qed.

Lemma booked_slots_spec w tid lo hi s :
  VStr s ∈ get "slot" <$>
    merge_sort slot_le
      (filter (λ item, attr_is "tradesPersonId" tid item && attr_between "slot" lo hi item)
         (scan Bookings w)) ↔
  booked_at w tid lo hi s.
Proof.
  rewrite list_elem_of_fmap. setoid_rewrite merge_sort_Permutation.
  setoid_rewrite list_elem_of_filter. setoid_rewrite elem_of_scan.
  setoid_rewrite Is_true_true. setoid_rewrite andb_true_iff.
  setoid_rewrite attr_is_true. setoid_rewrite attr_between_true.
  unfold booked_at. simpl rows. split.
  - intros (item & Hslot & (Htid & s' & Hs' & Hlo & Hhi) & id & Hid).
    unfold get, get_or in Hslot. rewrite Hs' in Hslot. injection Hslot as ->.
    by exists id, item.
  - intros (id & b & Hid & Htid & Hs & Hlo & Hhi). exists b.
    split; [unfold get, get_or; by rewrite Hs|].
    split; [split; [done | by exists s] | by exists id].
Qed.

Lemma check_availability_run n params w tid lo hi start_dt end_dt :
  get "tradesPersonId" params = VStr tid →
  get "startSlot" params = VStr lo →
  get "endSlot" params = VStr hi →
  parse_slot (VStr lo) = Ok start_dt →
  parse_slot (VStr hi) = Ok end_dt →
  String.leb lo hi = true →
  calm (S n) w = true →
  ∃ slots,
    check_availability params w =
      (Ok (result 200 [("availableTimeSlots", VList (VStr <$> slots))]), tick w) ∧
    ∀ s, s ∈ slots ↔
         ∃ i, Datetime.hour start_dt ≤ i < Datetime.hour end_dt ∧
              s = hour_slot start_dt i ∧
              ¬ booked_at w tid lo hi s.
Proof.
  intros Htid Hlo Hhi Hstart Hend Hle Hc.
  pose proof (parse_slot_valid _ _ Hstart) as Hvs.
  pose proof (parse_slot_valid _ _ Hend) as Hve.
  destruct (valid_fields _ Hvs) as (_ & _ & _ & Hsh & _).
  destruct (valid_fields _ Hve) as (_ & _ & _ & Heh & _).
  eexists. split.
  - unfold check_availability. cbv zeta. rewrite Htid, Hlo, Hhi, Hstart, Hend. mrun.
    erewrite bind_Ok by (by eapply query_TradesPersonIdIndex_calm).
    erewrite available_loop_run; [|exact Hstart|].
    + by mrun.
    + apply list.Forall_forall. intros i Hi%elem_of_range. lia.
  - intros s. rewrite list_elem_of_filter, list_elem_of_fmap.
    rewrite Is_true_true, negb_true_iff, <- not_true_iff_false, py_in_VStr, booked_slots_spec.
    split.
    + intros [Hfree (i & -> & Hi%elem_of_range)]. by exists i.
    + intros (i & Hi & -> & Hfree). split; [done|]. exists i. by rewrite elem_of_range.
Qed.

(** X14. Availability, end to end. With a tradesperson id and two slot
    texts that parse, the start text not after the end text, and the store
    answering, the check returns 200 and exactly the texts of the start slot
    with its hour replaced by an hour from the start hour up to, not
    including, the end hour, for which the table has no booking of that
    tradesperson with that very text as slot, lying between the two request
    texts as strings. Only the hours of the two slots count: when the end
    hour is not after the start hour the list is empty, whatever the dates.
    The tables are left as they were. *)
Theorem check_availability_against_store (params : dict) (w : world) (tid lo hi : string)
    (start_dt end_dt : Datetime.datetime) :
  get "tradesPersonId" params = VStr tid →
  get "startSlot" params = VStr lo →
  get "endSlot" params = VStr hi →
  parse_slot (VStr lo) = Ok start_dt →
  parse_slot (VStr hi) = Ok end_dt →
  String.leb lo hi = true →
  calm 1 w = true →
  ∃ slots,
    check_availability params w =
      (Ok (result 200 [("availableTimeSlots", VList (VStr <$> slots))]), tick w) ∧
    (∀ s, s ∈ slots ↔
          ∃ i, Datetime.hour start_dt ≤ i < Datetime.hour end_dt ∧
               s = hour_slot start_dt i ∧
               ¬ booked_at w tid lo hi s) ∧
    (Datetime.hour end_dt ≤ Datetime.hour start_dt → slots = []) ∧
    bookings_table (tick w) = bookings_table w.
Proof.
  intros Htid Hlo Hhi Hstart Hend Hle Hc.
  destruct (check_availability_run 0 params w tid lo hi start_dt end_dt
              Htid Hlo Hhi Hstart Hend Hle Hc) as (slots & Hrun & Hin).
  exists slots. split; [exact Hrun|]. split; [exact Hin|]. split; [|done].
  intros Hhours. apply elem_of_nil_inv. intros s (i & Hi & _)%Hin. lia.
Qed.

(** X15. A booking just created is not offered again: when the normal form
    of its slot lies between the two texts of an availability request for
    the same tradesperson, the list of available slots does not have it. *)
Theorem created_slot_not_offered (w : world) (cid tid lo hi : string)
    (booking_params params : dict) (slot_dt start_dt end_dt : Datetime.datetime) :
  get "tradesPersonId" booking_params = VStr tid →
  parse_slot (get "slot" booking_params) = Ok slot_dt →
  get "tradesPersonId" params = VStr tid →
  get "startSlot" params = VStr lo →
  get "endSlot" params = VStr hi →
  parse_slot (VStr lo) = Ok start_dt →
  parse_slot (VStr hi) = Ok end_dt →
  String.leb lo (Datetime.isoformat slot_dt) = true →
  String.leb (Datetime.isoformat slot_dt) hi = true →
  String.leb lo hi = true →
  calm 3 w = true →
  ∃ r w1 slots,
    create_booking (VStr cid) booking_params w = (Ok r, w1) ∧
    check_availability params w1 =
      (Ok (result 200 [("availableTimeSlots", VList (VStr <$> slots))]), tick w1) ∧
    Datetime.isoformat slot_dt ∉ slots.
Proof.
  intros Htid Hslot Htid' Hlo Hhi Hstart Hend Hlos Hshi Hle Hc.
  pose proof (create_booking_run 1 w cid tid booking_params slot_dt Htid Hslot Hc) as Hrun.
  set (w1 := tick (set_rows Bookings _ (tick w))) in Hrun.
  assert (Hc1 : calm 1 w1 = true).
  { unfold w1. destruct (calm_S _ _ Hc) as [_ H2].
    eapply calm_S. rewrite calm_set_rows. exact H2. }
  destruct (check_availability_run 0 params w1 tid lo hi start_dt end_dt
              Htid' Hlo Hhi Hstart Hend Hle Hc1) as (slots & Hcheck & Hin).
  eexists _, w1, slots. split; [exact Hrun|]. split; [exact Hcheck|].
  intros (i & _ & _ & Hfree)%Hin. apply Hfree.
  exists (new_booking_id w), (booking_record w (VStr cid) booking_params slot_dt).
  split; [apply lookup_insert_eq|].
  unfold booking_record. rewrite Htid. by dget_simpl.
Qed.

(** ** When the store is down *)

Lemma fails_first_store_bind {A} (f : () → M A) : fails_first (store_call ≫= f).
Proof.
  intros w o Ho. exists ClientError, (tick w). split; [|intros t; apply rows_tick].
  by erewrite bind_Raise by (by eapply store_call_outage).
Qed.

Lemma fails_first_lift_bind {A B} (o : outcome A) (f : A → M B) :
  (∀ a, fails_first (f a)) → fails_first (lift o ≫= f).
Proof.
  intros Hf w os Ho. destruct o as [a|e].
  - rewrite bind_lift_Ok. by eapply Hf.
  - rewrite bind_lift_Raise. by exists e, w.
Qed.

Lemma fails_first_reads_bind {A B} (g : world → A) (f : A → M B) :
  (∀ a, fails_first (f a)) → fails_first (reads g ≫= f).
Proof.
  intros Hf w os Ho. unfold reads. rewrite bind_run. cbv beta iota. by eapply Hf.
Qed.

Lemma fails_first_bind {A B} (m : M A) (f : A → M B) :
  fails_first m → fails_first (m ≫= f).
Proof.
  intros Hm w os Ho. destruct (Hm w os Ho) as (e & w' & Hrun & Hrows).
  exists e, w'. split; [by erewrite bind_Raise by exact Hrun | done].
Qed.

Ltac fails_first_op :=
  cbv zeta;
  unfold get_item, put_item, delete_item, update_item_set, query_TradeIndex,
    query_TradesPersonIdIndex, query_CustomerIdIndex;
  repeat match goal with
         | |- fails_first (store_call ≫= _) => apply fails_first_store_bind
         | |- fails_first (lift _ ≫= _) => apply fails_first_lift_bind; intros
         | |- fails_first (reads _ ≫= _) => apply fails_first_reads_bind; intros
         | |- fails_first (_ ≫= _) => apply fails_first_bind
         end.

Lemma fails_first_operation path customer_id post_params m :
  path ∈ store_paths →
  operation path customer_id post_params = Some m →
  fails_first m.
Proof.
  unfold store_paths, operation. intros Hpath.
  repeat (apply elem_of_cons in Hpath as [->|Hpath]);
    [..|by apply elem_of_nil in Hpath];
    repeat (rewrite decide_False by done); rewrite decide_True by done;
    intros [= <-].
  - unfold get_customer_details. fails_first_op.
  - unfold register_customer. fails_first_op.
  - unfold search_trades_persons. fails_first_op.
  - unfold check_availability. fails_first_op.
  - unfold create_booking. fails_first_op.
  - unfold get_latest_booking. fails_first_op.
  - unfold cancel_booking. fails_first_op.
  - unfold update_booking. fails_first_op.
Qed.

Lemma operation_known path customer_id post_params :
  path ∈ store_paths → ∃ m, operation path customer_id post_params = Some m.
Proof.
  unfold store_paths, operation. intros Hpath.
  repeat (apply elem_of_cons in Hpath as [->|Hpath]);
    [..|by apply elem_of_nil in Hpath];
    repeat (rewrite decide_False by done); rewrite decide_True by done; by eexists.
Qed.

(** X16. With the store down, each of the eight operations that use it is
    answered 500 and nothing is written: the first store call of every one
    of them comes before any write. *)
Theorem store_down_is_500 (event : dict) (w : world) (path : string) (later : list bool) :
  get "apiPath" event = VStr path →
  path ∈ store_paths →
  outages w = true :: later →
  ∃ w',
    handler event w = (handler_except event, w') ∧
    customers_table w' = customers_table w ∧
    tradesperson_table w' = tradesperson_table w ∧
    bookings_table w' = bookings_table w.
Proof.
  intros Hpath Hin Ho.
  destruct (customer_id_of event) as [cid|e] eqn:Hcid.
  - destruct (post_params_of event) as [ps|e] eqn:Hps.
    + destruct (operation_known path cid ps Hin) as [m Hop].
      destruct (fails_first_operation path cid ps m Hin Hop w later Ho)
        as (e & w' & Hrun & Hrows).
      exists w'. split.
      * eapply handler_Raise, dispatch_fault_propagates; [done..|].
        rewrite Hpath. by eapply operation_fault_propagates.
      * split; [apply (Hrows Customers)|].
        split; [apply (Hrows Tradespersons) | apply (Hrows Bookings)].
    + exists w. split; [|done]. apply (handler_Raise _ _ e).
      unfold handler_try. cbv zeta. rewrite Hcid, Hps. by mrun.
  - exists w. split; [|done]. apply (handler_Raise _ _ e).
    unfold handler_try. cbv zeta. rewrite Hcid. by mrun.
Qed.

(** ** The current date and time *)

(** X17. The current date and time need no store: whatever the store would
    do, the request is answered 200 with the clock's reading as text, as
    ISO-8601 text, as epoch seconds and formatted, and the world is exactly
    as it was. The ISO-8601 text reads back to the clock's reading. *)
Theorem current_datetime_needs_no_store (event : dict) (w : world) (cid : string)
    (params prior : dict) :
  request_for "/get-current-datetime" cid params prior event →
  handler event w =
    (api_response
       (action_response event (VNum 200)
          (VDict [("currentDateTime", VStr (Datetime.to_str (now w)));
                  ("currentDateTimeISO", VStr (Datetime.isoformat (now w)));
                  ("currentTimestamp", VNum (now_timestamp w));
                  ("formattedDate",
                   VStr (Datetime.strftime (now w) "%A, %B %d, %Y, %I:%M:%S %p %Z"))]))
       (get_or "sessionAttributes" (VDict []) event)
       (VDict (prompt_attributes (VStr cid) [] prior)), w) ∧
  (Datetime.valid (now w) = true →
   parse_slot (VStr (Datetime.isoformat (now w))) = Ok (now w)).
Proof.
  intros Hreq. split; [|apply parse_slot_isoformat].
  eapply handler_run; [exact Hreq | reflexivity | reflexivity].
Qed.

(** ** A customer record without a name or a city *)

(** X18. A customer on record without a name or without a city attribute
    cannot be shown: [get_customer_details] finds the record and returns
    200, the interface then fails to read the attribute for the prompt
    session attributes and answers 500. *)
Theorem customer_without_name_is_500 (event : dict) (w : world) (cid : string)
    (params prior item : dict) :
  request_for "/get-customer-details" cid params prior event →
  customers_table w !! cid = Some item →
  item ≠ [] →
  dget "name" item = None ∨ dget "city" item = None →
  calm 1 w = true →
  get_customer_details (VStr cid) w = (Ok (result 200 [("customer", VDict item)]), tick w) ∧
  handler event w = (handler_except event, tick w).
Proof.
  intros (Hpath & Hcid & Hps & _) Hitem Hne Hmiss Hc.
  assert (Hrun : get_customer_details (VStr cid) w =
                   (Ok (result 200 [("customer", VDict item)]), tick w))
    by (erewrite get_customer_details_run by done; by rewrite Hitem).
  split; [exact Hrun|].
  assert (Ht : truthy (VDict item) = true) by (by destruct item).
  assert (Hraise : dispatch (VStr "/get-customer-details") (VStr cid) params w =
                     (Raise KeyError, tick w)).
  { rewrite dispatch_get_customer_details.
    erewrite bind_Ok by exact Hrun. cbv beta.
    change (status_of (result 200 [("customer", VDict item)])) with (Ok (VNum 200)).
    mrun.
    change (py_eq (VNum 200) (VNum 200)) with true. cbv iota.
    change (py_index (result 200 [("customer", VDict item)]) "body")
      with (Ok (VDict [("customer", VDict item)])).
    rewrite !obind_Ok. cbv beta.
    change (py_index (VDict [("customer", VDict item)]) "customer") with (Ok (VDict item)).
    rewrite !obind_Ok. cbv beta.
    change ((mret (truthy (VDict item)) : outcome bool)) with (Ok (truthy (VDict item))).
    rewrite Ht. mrun. cbn [py_index]. rewrite ?dget_here. mrun. cbn [py_index].
    destruct (dget "name" item) as [name|] eqn:Hname.
    - mrun. cbn [py_index]. rewrite ?dget_here. mrun. cbn [py_index].
      destruct Hmiss as [?| ->]; [done|]. by mrun.
    - by mrun. }
  eapply handler_Raise, dispatch_fault_propagates; [done..|]. by rewrite Hpath.
Qed.

(** ** A slot that cannot be read *)

Lemma parse_digits_year s :
  starts_with_year s = false → Datetime.parse_digits 4 0 s = None.
Proof.
  unfold starts_with_year, is_digit. intros H.
  destruct s as [|a [|b [|c [|d s]]]]; cbn [Datetime.parse_digits].
  - done.
  - by destruct (Datetime.digit_of a).
  - destruct (Datetime.digit_of a); [|done]. by destruct (Datetime.digit_of b).
  - destruct (Datetime.digit_of a); [|done]. destruct (Datetime.digit_of b); [|done].
    by destruct (Datetime.digit_of c).
  - destruct (Datetime.digit_of a); [|done]. destruct (Datetime.digit_of b); [|done].
    destruct (Datetime.digit_of c); [|done]. destruct (Datetime.digit_of d); [|done].
    cbn in H. discriminate H.
Qed.

Lemma unreadable_slot_raises slot :
  unreadable_slot slot = true → ∃ e, parse_slot slot = Raise e.
Proof.
  destruct slot as [| | |s| |]; try (by eexists).
  intros Hs%negb_true_iff. exists ValueError.
  unfold parse_slot, py_replace_Z, py_fromisoformat, Datetime.fromisoformat.
  cbn [mbind outcome_bind]. by rewrite parse_digits_year.
Qed.

(** X19. A slot that cannot be read as a date and time, because it is
    missing, or no string, or its text does not begin with the four digits
    of a year, stops a booking before anything is written: create-booking is
    answered 500 without a store call, and update-booking by the owner of
    the booking is answered 500 after the read alone, the booking as it
    was. *)
Theorem unparsable_slot_writes_nothing (event : dict) (w : world) (cid : string)
    (params prior : dict) :
  unreadable_slot (get "slot" params) = true →
  (request_for "/create-booking" cid params prior event →
   handler event w = (handler_except event, w)) ∧
  (request_for "/update-booking" cid params prior event →
   ∀ bid booking,
     get "bookingId" params = VStr bid →
     bookings_table w !! bid = Some booking →
     py_eq (get "customerId" booking) (VStr cid) = true →
     calm 1 w = true →
     handler event w = (handler_except event, tick w) ∧
     bookings_table (tick w) !! bid = Some booking).
Proof.
  intros [e Hslot]%unreadable_slot_raises. split.
  - intros (Hpath & Hcid & Hps & _).
    eapply handler_Raise, dispatch_fault_propagates; [done..|]. rewrite Hpath.
    eapply (operation_fault_propagates "/create-booking"); [reflexivity|].
    unfold create_booking. cbv zeta. unfold reads at 1. rewrite bind_run. cbv beta iota.
    rewrite Hslot. by mrun.
  - intros (Hpath & Hcid & Hps & _) bid booking Hbid Hb Hown Hc. split; [|done].
    eapply handler_Raise, dispatch_fault_propagates; [done..|]. rewrite Hpath.
    eapply (operation_fault_propagates "/update-booking"); [reflexivity|].
    unfold update_booking. cbv zeta. rewrite Hbid.
    erewrite bind_Ok by (eapply get_item_calm; [exact Hc | apply (key_of_string Bookings)]).
    change (rows Bookings w) with (bookings_table w). rewrite Hb.
    rewrite Hown. cbn [negb]. rewrite Hslot. by mrun.
Qed.

(** ** Whose booking is shown, and who may change it *)

(** X20. The latest booking is never someone else's: when
    [get_latest_booking] returns, it is 404 and the table has no booking of
    the identity, or 200 with the id and description of a booking on record
    whose customerId is the identity. The tables are as they were. *)
Theorem latest_booking_is_of_identity (w w' : world) (cid : string) (r : value) :
  calm 1 w = true →
  get_latest_booking (VStr cid) w = (Ok r, w') →
  ((r = result 404 [("error", VStr "No bookings found for this customer")] ∧
    ∀ id b, bookings_table w !! id = Some b → dget "customerId" b ≠ Some (VStr cid)) ∨
   (∃ id b view,
      bookings_table w !! id = Some b ∧
      dget "customerId" b = Some (VStr cid) ∧
      r = result 200 [("booking", VDict view)] ∧
      dget "bookingId" view = Some (get "bookingId" b) ∧
      dget "description" view = Some (get "description" b))) ∧
  customers_table w' = customers_table w ∧
  tradesperson_table w' = tradesperson_table w ∧
  bookings_table w' = bookings_table w.
Proof.
  intros Hc Hrun. split; [by eapply get_latest_booking_inv|].
  split; [apply (keeps_get_latest_booking Customers _ _ _ _ Hrun)|].
  split; [apply (keeps_get_latest_booking Tradespersons _ _ _ _ Hrun)
         | apply (keeps_get_latest_booking Bookings _ _ _ _ Hrun)].
Qed.

Lemma dispatch_cancel_booking customer_id post_params :
  dispatch (VStr "/cancel-booking") customer_id post_params =
    (response_body ← cancel_booking post_params;
     http_status_code ← lift (status_of response_body);
     mret (response_body, http_status_code, [])).
Proof. reflexivity. Qed.

(** X21. Only an update checks who owns a booking. For a booking on record
    whose customerId is not the caller's identity, update-booking answers
    403 and leaves the booking as it is, and cancel-booking answers 200 and
    removes it. *)
Theorem only_update_checks_ownership (w : world) (cid owner bid tid : string)
    (params prior booking event : dict) :
  get "bookingId" params = VStr bid →
  bookings_table w !! bid = Some booking →
  dget "customerId" booking = Some (VStr owner) →
  owner ≠ cid →
  key_string (get "tradesPersonId" booking) = Ok tid →
  calm 3 w = true →
  request_for "/cancel-booking" cid params prior event →
  update_booking (VStr cid) params w =
    (Ok (result 403 [("error", VStr "Not authorized to update this booking")]), tick w) ∧
  bookings_table (tick w) !! bid = Some booking ∧
  ∃ w',
    handler event w =
      (api_response
         (action_response event (VNum 200)
            (VDict (cancelled_body booking (default [] (tradesperson_table w !! tid)))))
         (get_or "sessionAttributes" (VDict []) event)
         (VDict (prompt_attributes (VStr cid) [] prior)), w') ∧
    bookings_table w' !! bid = None.
Proof.
  intros Hbid Hb Howner Hne Htid Hc Hreq.
  split; [|split; [done|]].
  - unfold update_booking. rewrite Hbid.
    erewrite bind_Ok
      by (eapply get_item_calm;
          [apply (calm_le 3 1); [lia | exact Hc] | apply (key_of_string Bookings)]).
    change (rows Bookings w) with (bookings_table w). rewrite Hb. cbv beta iota zeta.
    unfold get at 1, get_or. rewrite Howner. cbn [default from_option id].
    rewrite py_eq_VStr_ne by (by intros [= ->]). done.
  - destruct (cancel_booking_run 0 w params bid booking tid Hbid Hb Htid Hc)
      as (w' & Hrun & Htable & _).
    exists w'. split; [|rewrite Htable; apply lookup_delete_eq].
    eapply handler_run;
      [exact Hreq
      | rewrite dispatch_cancel_booking; erewrite bind_Ok by exact Hrun; reflexivity
      | reflexivity].
Qed.

(** ** More concrete runs *)

Lemma update_booking_by_owner_witness :
  ∃ w',
    update_booking (VStr "555")
      [("bookingId", VStr "b00009"); ("slot", VStr "2024-01-16T10:00:00Z")] two_bookings =
      (Ok (result 200 [("message", VStr "Booking updated successfully");
                       ("bookingId", VStr "b00009");
                       ("tradesPersonName", VStr "Bob");
                       ("oldSlot", VStr "2024-01-15T09:00:00");
                       ("newSlot", VStr "2024-01-16T10:00:00+00:00");
                       ("description", VStr "earlier job")]), w') ∧
    bookings_table w' !! "b00009" =
      Some (booking_at "b00009" "555" "2024-01-16T10:00:00+00:00") ∧
    bookings_table w' !! "b00011" =
      Some (booking_at "b00011" "777" "2024-01-15T11:00:00").
Proof.
  destruct (update_booking_by_owner two_bookings (VStr "555")
              [("bookingId", VStr "b00009"); ("slot", VStr "2024-01-16T10:00:00Z")]
              "b00009" "tp1" (booking_at "b00009" "555" "2024-01-15T09:00:00")
              (Datetime.mk_datetime 2024 1 16 10 0 0 0 (Some 0)))
    as (w' & Hrun & Htable & _ & _ & Hother & _);
    [reflexivity | vm_compute; reflexivity | vm_compute; reflexivity
    | vm_compute; reflexivity | reflexivity | reflexivity |].
  exists w'. split; [exact Hrun|]. split.
  - rewrite Htable. vm_compute. reflexivity.
  - rewrite (Hother "b00011") by done. vm_compute. reflexivity.
Defined.

Lemma cancel_booking_all_or_nothing_witness :
  cancel_booking [("bookingId", VStr "b00009")] third_call_fails =
    (Raise ClientError, tick (tick (tick third_call_fails))) ∧
  bookings_table (tick (tick (tick third_call_fails))) = bookings_table third_call_fails.
Proof.
  assert (Hrun : cancel_booking [("bookingId", VStr "b00009")] third_call_fails =
                   (Raise ClientError, tick (tick (tick third_call_fails))))
    by (vm_compute; reflexivity).
  split; [exact Hrun|].
  destruct (cancel_booking_all_or_nothing _ _ _ _ Hrun) as [[body Hbody]|(_ & _ & Hsame)];
    [discriminate Hbody | exact Hsame].
Defined.

Lemma create_booking_write_survives_fault_witness :
  ∃ w',
    handler leak_request second_call_fails = (handler_except leak_request, w') ∧
    bookings_table w' !! "b75400" =
      Some [("bookingId", VStr "b75400"); ("tradesPersonId", VStr "tp1");
            ("customerId", VStr "555"); ("slot", VStr "2024-01-20T14:00:00+00:00");
            ("description", VStr "leaking tap")].
Proof.
  destruct (create_booking_write_survives_fault second_call_fails "555" "tp1" leak_booking []
              (Datetime.mk_datetime 2024 1 20 14 0 0 0 (Some 0)) [] leak_request)
    as (w' & _ & Hhandler & Hstored);
    [reflexivity | reflexivity | vm_compute; reflexivity
    | repeat split; vm_compute; reflexivity |].
  exists w'. split; [exact Hhandler | exact Hstored].
Defined.

Lemma prompt_attributes_on_return_witness :
  ∃ status body prompt w',
    handler (request "/get-latest-booking" "555" []) fresh_store =
      (api_response
         (action_response (request "/get-latest-booking" "555" []) (VNum status) (VDict body))
         (VDict [("phone-number", VStr "555")]) (VDict prompt), w') ∧
    dget "customerId" prompt = Some (VStr "555") ∧
    dget "customerPhoneNumber" prompt = Some (VStr "555").
Proof.
  destruct (prompt_attributes_on_return (request "/get-latest-booking" "555" []) fresh_store
              (handler_try (request "/get-latest-booking" "555" []) fresh_store).2
              (handler (request "/get-latest-booking" "555" []) fresh_store).1)
    as (cid & status & body & prompt & prior & Hrun & Hcid & _ & _ & _ & Hid & Hphone & _);
    [vm_compute; reflexivity|].
  injection Hcid as <-.
  exists status, body, prompt. eexists. split; [exact Hrun|]. split; [exact Hid | exact Hphone].
Defined.

Lemma search_trades_persons_matches_witness :
  ∃ found,
    search_trades_persons [("trade", VStr "Plumber"); ("city", VStr "AUSTIN")] fresh_store =
      (Ok (result 200 [("tradesPersons", VList (trades_person_view <$> found));
                       ("count", VNum (Z.of_nat (length found)))]), tick fresh_store) ∧
    bob ∈ found.
Proof.
  destruct (search_trades_persons_matches
              [("trade", VStr "Plumber"); ("city", VStr "AUSTIN")] fresh_store
              "Plumber" "AUSTIN")
    as (found & Hrun & Hin & _); [reflexivity..|].
  exists found. split; [exact Hrun|].
  apply Hin. split; [by exists "tp1" | split; reflexivity].
Defined.

Lemma post_params_last_wins_witness :
  ∃ post_params,
    post_params_of
      (request "/register-customer" "555"
         [property "name" "Jane"; property "city" "Austin"; property "name" "Janet"])
      = Ok post_params ∧
    dget "name" post_params = Some (VStr "Janet") ∧
    dget "city" post_params = Some (VStr "Austin").
Proof.
  destruct (post_params_last_wins
              (request "/register-customer" "555"
                 [property "name" "Jane"; property "city" "Austin"; property "name" "Janet"])
              [property "name" "Jane"; property "city" "Austin"; property "name" "Janet"]
              [("name", VStr "Jane"); ("city", VStr "Austin"); ("name", VStr "Janet")])
    as (post_params & Hrun & Hget).
  - eexists _, _, _. repeat split; reflexivity.
  - repeat (constructor; [eexists; repeat split; reflexivity|]). constructor.
  - exists post_params. split; [exact Hrun|]. by rewrite !Hget.
Defined.

Lemma malformed_property_is_500_witness :
  handler (request "/get-current-datetime" "555" [VDict [("name", VStr "trade")]]) fresh_store
  = (handler_except
       (request "/get-current-datetime" "555" [VDict [("name", VStr "trade")]]),
     fresh_store).
Proof.
  apply (malformed_property_is_500 _ [VDict [("name", VStr "trade")]]
           (VDict [("name", VStr "trade")])).
  - eexists _, _, _. repeat split; reflexivity.
  - repeat constructor.
  - right. reflexivity.
Defined.

Lemma cancel_then_latest_witness :
  ∃ body w1,
    cancel_booking [("bookingId", VStr "b00009")] two_bookings =
      (Ok (result 200 body), w1) ∧
    get_latest_booking (VStr "555") w1 =
      (Ok (result 404 [("error", VStr "No bookings found for this customer")]), tick w1).
Proof.
  destruct (cancel_then_latest two_bookings [("bookingId", VStr "b00009")]
              "b00009" "tp1" "555" (booking_at "b00009" "555" "2024-01-15T09:00:00"))
    as (body & w1 & Hrun & Hnone & _); [reflexivity..|].
  exists body, w1. split; [exact Hrun|]. apply Hnone.
  intros id b Hne Hid.
  change (bookings_table two_bookings) with
    (<["b00009" := booking_at "b00009" "555" "2024-01-15T09:00:00"]>
       (<["b00011" := booking_at "b00011" "777" "2024-01-15T11:00:00"]>
          (∅ : gmap string dict))) in Hid.
  rewrite lookup_insert_ne in Hid by done.
  apply lookup_insert_Some in Hid as [[_ <-]|[_ Hid]]; [done|].
  by rewrite lookup_empty in Hid.
Defined.

Lemma booking_id_low_digits_witness : new_booking_id fresh_store = "b75400".
Proof.
  destruct (booking_id_low_digits fresh_store) as [Hid _]; [vm_compute; discriminate|].
  exact Hid.
Defined.

Lemma create_booking_overwrites_witness :
  ∃ r1 w1' r2 w2',
    create_booking (VStr "555") leak_booking fresh_store = (Ok r1, w1') ∧
    bookings_table w1' !! "b75400" =
      Some [("bookingId", VStr "b75400"); ("tradesPersonId", VStr "tp1");
            ("customerId", VStr "555"); ("slot", VStr "2024-01-20T14:00:00+00:00");
            ("description", VStr "leaking tap")] ∧
    create_booking (VStr "777") blocked_drain same_digits_later = (Ok r2, w2') ∧
    bookings_table w2' =
      {[ "b75400" := [("bookingId", VStr "b75400"); ("tradesPersonId", VStr "tp1");
                      ("customerId", VStr "777"); ("slot", VStr "2024-01-22T09:00:00+00:00");
                      ("description", VStr "blocked drain")] ]}.
Proof.
  destruct (create_booking_overwrites fresh_store "555" "777" "tp1" "tp1"
              leak_booking blocked_drain
              (Datetime.mk_datetime 2024 1 20 14 0 0 0 (Some 0))
              (Datetime.mk_datetime 2024 1 22 9 0 0 0 (Some 0)))
    as (r1 & w1' & Hfirst & Htable & Hnext);
    [vm_compute; discriminate | reflexivity | vm_compute; reflexivity | reflexivity
    | vm_compute; reflexivity | reflexivity |].
  destruct (Hnext same_digits_later) as (r2 & w2' & Hsecond & _ & _ & Htable2);
    [rewrite Htable; vm_compute; reflexivity | vm_compute; discriminate
    | reflexivity | reflexivity |].
  exists r1, w1', r2, w2'. split; [exact Hfirst|]. split.
  - rewrite Htable. vm_compute. reflexivity.
  - split; [exact Hsecond|]. rewrite Htable2. vm_compute. reflexivity.
Defined.

Lemma update_then_latest_witness :
  ∃ body w1 w2,
    update_booking (VStr "555")
      [("bookingId", VStr "b75399"); ("slot", VStr "2024-01-16T10:00:00Z")] earlier_booking =
      (Ok (result 200 body), w1) ∧
    get_latest_booking (VStr "555") w1 =
      (Ok (result 200
             [("booking",
               VDict [("bookingId", VStr "b75399");
                      ("tradesPersonName", VStr "Bob");
                      ("tradesPersonTrade", VStr "plumber");
                      ("bookingDateTime", VStr "2024-01-16 10:00:00");
                      ("description", VStr "earlier job")])]), w2).
Proof.
  destruct (update_then_latest earlier_booking "555" "b75399" "tp1"
              [("bookingId", VStr "b75399"); ("slot", VStr "2024-01-16T10:00:00Z")]
              (booking_at "b75399" "555" "2024-01-15T09:00:00")
              (Datetime.mk_datetime 2024 1 16 10 0 0 0 (Some 0)))
    as (body & w1 & w2 & Hrun & Hlatest);
    [reflexivity | vm_compute; reflexivity | reflexivity | vm_compute; reflexivity
    | reflexivity | | reflexivity |].
  - intros k b Hk _.
    change (bookings_table earlier_booking) with
      ({[ "b75399" := booking_at "b75399" "555" "2024-01-15T09:00:00" ]} : gmap string dict)
      in Hk.
    by apply lookup_singleton_Some in Hk as [<- _].
  - exists body, w1, w2. split; [exact Hrun | exact Hlatest].
Defined.

Lemma check_availability_against_store_witness :
  ∃ slots,
    check_availability morning two_bookings =
      (Ok (result 200 [("availableTimeSlots", VList (VStr <$> slots))]), tick two_bookings) ∧
    "2024-01-15T09:00:00" ∉ slots.
Proof.
  destruct (check_availability_against_store morning two_bookings "tp1"
              "2024-01-15T09:00:00" "2024-01-15T12:00:00"
              (Datetime.mk_datetime 2024 1 15 9 0 0 0 None)
              (Datetime.mk_datetime 2024 1 15 12 0 0 0 None))
    as (slots & Hrun & Hin & _);
    [reflexivity | reflexivity | reflexivity | vm_compute; reflexivity
    | vm_compute; reflexivity | vm_compute; reflexivity | reflexivity |].
  exists slots. split; [exact Hrun|].
  intros (i & _ & _ & Hfree)%Hin. apply Hfree.
  exists "b00009", (booking_at "b00009" "555" "2024-01-15T09:00:00").
  repeat split; vm_compute; reflexivity.
Defined.

Lemma created_slot_not_offered_witness :
  ∃ r w1 slots,
    create_booking (VStr "555") leak_booking fresh_store = (Ok r, w1) ∧
    check_availability afternoon w1 =
      (Ok (result 200 [("availableTimeSlots", VList (VStr <$> slots))]), tick w1) ∧
    "2024-01-20T14:00:00+00:00" ∉ slots.
Proof.
  destruct (created_slot_not_offered fresh_store "555" "tp1"
              "2024-01-20T13:00:00+00:00" "2024-01-20T16:00:00+00:00"
              leak_booking afternoon
              (Datetime.mk_datetime 2024 1 20 14 0 0 0 (Some 0))
              (Datetime.mk_datetime 2024 1 20 13 0 0 0 (Some 0))
              (Datetime.mk_datetime 2024 1 20 16 0 0 0 (Some 0)))
    as (r & w1 & slots & Hcreate & Hcheck & Hout);
    [reflexivity | vm_compute; reflexivity | reflexivity | reflexivity | reflexivity
    | vm_compute; reflexivity | vm_compute; reflexivity | vm_compute; reflexivity
    | vm_compute; reflexivity | vm_compute; reflexivity | reflexivity |].
  exists r, w1, slots. split; [exact Hcreate|]. split; [exact Hcheck | exact Hout].
Defined.

Lemma store_down_is_500_witness :
  ∃ w',
    handler (request "/register-customer" "555"
               [property "name" "Jane"; property "city" "Austin"]) failing_store =
      (handler_except
         (request "/register-customer" "555"
            [property "name" "Jane"; property "city" "Austin"]), w') ∧
    customers_table w' = customers_table failing_store.
Proof.
  destruct (store_down_is_500
              (request "/register-customer" "555"
                 [property "name" "Jane"; property "city" "Austin"])
              failing_store "/register-customer" [])
    as (w' & Hrun & Hcustomers & _); [reflexivity | | reflexivity |].
  - unfold store_paths. repeat constructor.
  - exists w'. split; [exact Hrun | exact Hcustomers].
Defined.

Lemma current_datetime_needs_no_store_witness :
  (handler (request "/get-current-datetime" "555" []) failing_store).2 = failing_store ∧
  parse_slot (VStr "2024-01-10T08:30:00") = Ok demo_clock.
Proof.
  destruct (current_datetime_needs_no_store (request "/get-current-datetime" "555" [])
              failing_store "555" [] [])
    as [Hrun Hback]; [repeat split; vm_compute; reflexivity|].
  split; [by rewrite Hrun | apply Hback; vm_compute; reflexivity].
Defined.

Lemma customer_without_name_is_500_witness :
  handler (request "/get-customer-details" "555" []) nameless_customer =
    (handler_except (request "/get-customer-details" "555" []), tick nameless_customer).
Proof.
  apply (customer_without_name_is_500 (request "/get-customer-details" "555" [])
           nameless_customer "555" [] []
           [("customerId", VStr "555"); ("city", VStr "Austin")]).
  - repeat split; vm_compute; reflexivity.
  - vm_compute; reflexivity.
  - discriminate.
  - left. reflexivity.
  - reflexivity.
Defined.

Lemma unparsable_slot_writes_nothing_witness :
  handler tomorrow_request fresh_store = (handler_except tomorrow_request, fresh_store).
Proof.
  apply (unparsable_slot_writes_nothing tomorrow_request fresh_store "555"
           [("tradesPersonId", VStr "tp1"); ("slot", VStr "tomorrow at ten");
            ("description", VStr "leaking tap")] []).
  - vm_compute. reflexivity.
  - repeat split; vm_compute; reflexivity.
Defined.

Lemma latest_booking_is_of_identity_witness :
  ∃ view,
    get_latest_booking (VStr "555") earlier_booking =
      (Ok (result 200 [("booking", VDict view)]), tick (tick earlier_booking)) ∧
    dget "bookingId" view = Some (VStr "b75399").
Proof.
  assert (Hrun : ∃ r, get_latest_booking (VStr "555") earlier_booking =
                        (Ok r, tick (tick earlier_booking)))
    by (eexists; vm_compute; reflexivity).
  destruct Hrun as [r Hrun].
  destruct (latest_booking_is_of_identity earlier_booking _ "555" r eq_refl Hrun)
    as [[[_ Hnone]|(id & b & view & Hid & _ & -> & Hview & _)] _].
  - exfalso. by apply (Hnone "b75399" (booking_at "b75399" "555" "2024-01-15T09:00:00")).
  - exists view. split; [exact Hrun|].
    change (bookings_table earlier_booking) with
      ({[ "b75399" := booking_at "b75399" "555" "2024-01-15T09:00:00" ]} : gmap string dict)
      in Hid.
    apply lookup_singleton_Some in Hid as [_ <-]. exact Hview.
Defined.

Lemma only_update_checks_ownership_witness :
  update_booking (VStr "777")
    [("bookingId", VStr "b00009"); ("slot", VStr "2024-01-16T10:00:00")] two_bookings =
    (Ok (result 403 [("error", VStr "Not authorized to update this booking")]),
     tick two_bookings) ∧
  ∃ w',
    (handler (request "/cancel-booking" "777"
                [property "bookingId" "b00009"; property "slot" "2024-01-16T10:00:00"])
       two_bookings).2 = w' ∧
    bookings_table w' !! "b00009" = None.
Proof.
  destruct (only_update_checks_ownership two_bookings "777" "555" "b00009" "tp1"
              [("bookingId", VStr "b00009"); ("slot", VStr "2024-01-16T10:00:00")] []
              (booking_at "b00009" "555" "2024-01-15T09:00:00")
              (request "/cancel-booking" "777"
                 [property "bookingId" "b00009"; property "slot" "2024-01-16T10:00:00"]))
    as (Hupdate & _ & w' & Hcancel & Hgone);
    [reflexivity | vm_compute; reflexivity | reflexivity | discriminate | reflexivity
    | reflexivity | repeat split; vm_compute; reflexivity |].
  split; [exact Hupdate|]. exists w'. split; [by rewrite Hcancel | exact Hgone].
Defined.
